(** * DWIConverter (BRAINSTools, DWIConvert/DWIConverter.h)

    A shallow embedding of the [DWIConverter] base class: the gradient
    table transforms, the 3D/4D volume reshaping, the NRRD header writer
    and the FSL file-set writer, with the properties of the design
    document stated against them.

    Conventions.
    - [double] and [float] values are IEEE 754 binary64 / binary32 numbers,
      represented by [spec_float] and operated on by the correctly rounded
      operations of [SpecFloat] (round to nearest, ties to even).
    - Unsigned integers are [Z] with the wrap-around written out.
    - A member function that mutates [*this] takes the converter record and
      returns the new one; file effects thread a [World].
    - [std::cout] traces are not part of the model; [std::cerr] is. *)

From Stdlib Require Import ZArith List String Ascii Bool Lia.
From Stdlib Require Import Reals Lra.
From Stdlib Require Import Floats.SpecFloat.
From Stdlib Require Import DecimalString DecimalN DecimalPos DecimalFacts.
From stdpp Require Import base option list gmap strings.

Open Scope Z_scope.

(** ** IEEE arithmetic *)

Module IEEE.

Definition double := spec_float.
Definition float := spec_float.

Definition prec64 : Z := 53.
Definition emax64 : Z := 1024.
Definition prec32 : Z := 24.
Definition emax32 : Z := 128.

(** Rounding of a finite value to the format [(prec, emax)]; the result is
    in canonical form. *)
Definition round_to (prec emax : Z) (x : spec_float) : spec_float :=
  match x with
  | S754_finite s m e => binary_round prec emax s m e
  | _ => x
  end.

(** [static_cast<float>(double)] and the implicit promotion back. *)
Definition double_to_float (x : double) : float := round_to prec32 emax32 x.
Definition float_to_double (x : float) : double := round_to prec64 emax64 x.

Definition dadd : double -> double -> double := SFadd prec64 emax64.
Definition dsub : double -> double -> double := SFsub prec64 emax64.
Definition dmul : double -> double -> double := SFmul prec64 emax64.
Definition ddiv : double -> double -> double := SFdiv prec64 emax64.
Definition dsqrt : double -> double := SFsqrt prec64 emax64.
Definition dabs : double -> double := SFabs.
Definition dlt : double -> double -> bool := SFltb.

(** [a > b] in C is [b < a]. *)
Definition dgt (a b : double) : bool := dlt b a.

Definition double_of_Z (z : Z) : double := binary_normalize prec64 emax64 z 0 false.

(** The literals of the source. A decimal literal is the double nearest
    to it, which the correctly rounded quotient computes. *)
Definition d0 : double := S754_zero false.
Definition d1 : double := double_of_Z 1.
Definition d0_01 : double := ddiv (double_of_Z 1) (double_of_Z 100).
Definition d1e_4 : double := ddiv (double_of_Z 1) (double_of_Z 10000).
Definition f0 : float := S754_zero false.

(** The real number a finite value stands for; 0 for the others. *)
Definition SF2R (x : spec_float) : R :=
  match x with
  | S754_finite s m e =>
      ((if s then -1 else 1) * IZR (Z.pos m) * powerRZ 2 e)%R
  | _ => 0%R
  end.

End IEEE.
Export IEEE.

(** A shift record [mrs] holds [X] shifted right by [k] bits, with the
    position of the bits shifted out relative to one half. *)
Definition located (X k : Z) (mrs : shr_record) : Prop :=
  exists delta,
    X = shr_m mrs * 2 ^ k + delta /\ 0 <= delta < 2 ^ k /\ 0 <= shr_m mrs /\
    match shr_r mrs, shr_s mrs with
    | false, false => delta = 0
    | false, true => 0 < 2 * delta < 2 ^ k
    | true, false => 2 * delta = 2 ^ k
    | true, true => 2 ^ k < 2 * delta
    end.

(** ** Control outcomes

    How a call ends: it returns, an [itk::ExceptionObject] propagates to the
    caller, the process is terminated by [exit], or the behaviour is
    undefined (out-of-range [operator[]], integer division by zero, a
    [memcpy] past the end of its source). *)

Inductive ExceptionObject : Type :=
  | ErrorReadingBvals (file : string)
  | MismatchBVectorsBValues (bVecCount bValCount : Z)
  | GradientsVolumesMismatch (numGradients nVolume : Z)
  | SlicesNotDivisible (slices volumes leftover : Z)
  | OnlyIdentityMeasurementFrame
  | FailedToWriteBVal (file : string)
  | FailedToWriteBVec (file : string)
  | ImageIOException (description : string).

Inductive outcome (A : Type) : Type :=
  | Done (a : A)
  | Throw (e : ExceptionObject)
  | Exit (code : Z)
  | Undefined.
Arguments Done {A} a.
Arguments Throw {A} e.
Arguments Exit {A} code.
Arguments Undefined {A}.

#[global] Instance outcome_ret : MRet outcome := fun A a => Done a.
#[global] Instance outcome_bind : MBind outcome := fun A B f x =>
  match x with
  | Done a => f a
  | Throw e => Throw e
  | Exit c => Exit c
  | Undefined => Undefined
  end.

(** The status an [int]-returning helper reports. *)
Inductive exit_status : Type := EXIT_SUCCESS | EXIT_FAILURE.

(** [for (unsigned k = 0; k < n; ++k) body], started at index [k]. *)
Fixpoint for_loop {St : Type} (n : nat) (k : nat) (body : nat -> St -> outcome St) (s : St)
  : outcome St :=
  match n with
  | O => Done s
  | S n' => s' ← body k s; for_loop n' (S k) body s'
  end.

(** ** Data model *)

Definition Vec3 : Type := double * double * double.
Definition Mat3 : Type := Vec3 * Vec3 * Vec3.
Definition Vec4 : Type := double * double * double * double.
Definition Mat4 : Type := Vec4 * Vec4 * Vec4 * Vec4.

Definition Mat3_identity : Mat3 := ((d1, d0, d0), (d0, d1, d0), (d0, d0, d1)).

(** [itk::Image<PixelValueType, 3>]: the size of its region, its geometry,
    its metadata dictionary and its pixel buffer, byte by byte. *)
Record Image3D : Type := {
  size3 : Z * Z * Z;
  direction3 : Mat3;
  spacing3 : Vec3;
  origin3 : Vec3;
  meta3 : gmap string string;
  buffer3 : list Byte.byte
}.

(** [itk::Image<PixelValueType, 4>] *)
Record Image4D : Type := {
  size4 : Z * Z * Z * Z;
  direction4 : Mat4;
  spacing4 : Vec4;
  origin4 : Vec4;
  meta4 : gmap string string;
  buffer4 : list Byte.byte
}.

Record DWIConverter : Type := {
  m_InputFileNames : list string;
  m_allowLossyConversion : bool;
  m_FSLFileFormatHorizontalBy3Rows : bool;
  m_SlicesPerVolume : Z;
  m_NSlice : Z;
  m_NVolume : Z;
  m_NRRDSpaceDefinition : string;
  m_Volume : Image3D;
  m_MeasurementFrame : Mat3;
  m_BValues : list double;
  m_DiffusionVectors : list Vec3;
  m_CommonDicomFieldsMap : list (string * string)
}.

Definition set_BValues (c : DWIConverter) (b : list double) : DWIConverter :=
  {| m_InputFileNames := m_InputFileNames c;
     m_allowLossyConversion := m_allowLossyConversion c;
     m_FSLFileFormatHorizontalBy3Rows := m_FSLFileFormatHorizontalBy3Rows c;
     m_SlicesPerVolume := m_SlicesPerVolume c;
     m_NSlice := m_NSlice c;
     m_NVolume := m_NVolume c;
     m_NRRDSpaceDefinition := m_NRRDSpaceDefinition c;
     m_Volume := m_Volume c;
     m_MeasurementFrame := m_MeasurementFrame c;
     m_BValues := b;
     m_DiffusionVectors := m_DiffusionVectors c;
     m_CommonDicomFieldsMap := m_CommonDicomFieldsMap c |}.

Definition set_DiffusionVectors (c : DWIConverter) (v : list Vec3) : DWIConverter :=
  {| m_InputFileNames := m_InputFileNames c;
     m_allowLossyConversion := m_allowLossyConversion c;
     m_FSLFileFormatHorizontalBy3Rows := m_FSLFileFormatHorizontalBy3Rows c;
     m_SlicesPerVolume := m_SlicesPerVolume c;
     m_NSlice := m_NSlice c;
     m_NVolume := m_NVolume c;
     m_NRRDSpaceDefinition := m_NRRDSpaceDefinition c;
     m_Volume := m_Volume c;
     m_MeasurementFrame := m_MeasurementFrame c;
     m_BValues := m_BValues c;
     m_DiffusionVectors := v;
     m_CommonDicomFieldsMap := m_CommonDicomFieldsMap c |}.

(** The fields no gradient-table transform touches. *)
Definition same_volume_state (c c' : DWIConverter) : Prop :=
  m_InputFileNames c' = m_InputFileNames c /\
  m_allowLossyConversion c' = m_allowLossyConversion c /\
  m_FSLFileFormatHorizontalBy3Rows c' = m_FSLFileFormatHorizontalBy3Rows c /\
  m_SlicesPerVolume c' = m_SlicesPerVolume c /\
  m_NSlice c' = m_NSlice c /\
  m_NVolume c' = m_NVolume c /\
  m_NRRDSpaceDefinition c' = m_NRRDSpaceDefinition c /\
  m_Volume c' = m_Volume c /\
  m_MeasurementFrame c' = m_MeasurementFrame c /\
  m_CommonDicomFieldsMap c' = m_CommonDicomFieldsMap c.

(** ** Gradient table *)

(** [ComputeMaxBvalue]: the running maximum, started at [0.0]. *)
Fixpoint ComputeMaxBvalue_from (maxBvalue : double) (bValues : list double) : double :=
  match bValues with
  | [] => maxBvalue
  | b :: rest => ComputeMaxBvalue_from (if dgt b maxBvalue then b else maxBvalue) rest
  end.

Definition ComputeMaxBvalue (bValues : list double) : double :=
  ComputeMaxBvalue_from d0 bValues.

Definition GetMaxBValue (c : DWIConverter) : double := ComputeMaxBvalue (m_BValues c).

(** The value of the local [float scaleFactor] of
    [ConvertToSingleBValueScaledDiffusionVectors] for a b-value [b]. *)
Definition scaleFactor (maxBvalue b : double) : float :=
  if dgt maxBvalue d0 then double_to_float (dsqrt (ddiv b maxBvalue)) else f0.

(** [vec[ind] = v[ind] * scaleFactor] for [ind] = 0, 1, 2. *)
Definition scale_vector (v : Vec3) (s : float) : Vec3 :=
  let '(x, y, z) := v in
  (dmul x (float_to_double s), dmul y (float_to_double s), dmul z (float_to_double s)).

(** The loop state is the local [BvalueScaledDiffusionVectors] and the
    member [m_BValues]; [m_DiffusionVectors] is only read. *)
Definition single_bvalue_body (maxBvalue : double) (vectors : list Vec3)
    (k : nat) (st : list Vec3 * list double) : outcome (list Vec3 * list double) :=
  let '(scaled, bValues) := st in
  match bValues !! k, vectors !! k with
  | Some b, Some v =>
      let vec := scale_vector v (scaleFactor maxBvalue b) in
      Done (scaled ++ [vec], <[k := maxBvalue]> bValues)
  | _, _ => Undefined
  end.

Definition ConvertToSingleBValueScaledDiffusionVectors (c : DWIConverter)
  : outcome DWIConverter :=
  let maxBvalue := GetMaxBValue c in
  '(scaled, bValues) ←
    for_loop (length (m_DiffusionVectors c)) 0
      (single_bvalue_body maxBvalue (m_DiffusionVectors c)) ([], m_BValues c);
  Done (set_DiffusionVectors (set_BValues c bValues) scaled).

(** *** Library routines used by the unit-vector transform

    [vnl_vector_fixed<double,3>::magnitude], [::normalize] and
    [itk::Math::Round<double>] belong to VNL and ITK; the transform is
    stated for any implementation of them. *)
Section UnitVectors.

Variable magnitude : Vec3 -> double.
Variable normalize : Vec3 -> Vec3.
Variable Round : double -> double.

(** [mag] after the 1% test. *)
Definition snap_magnitude (mag : double) : double :=
  if dlt (dabs (dsub (dmul mag mag) d1)) d0_01 then d1 else mag.

(** [itk::Math::Round<double>( maxBvalue*mag*mag )] *)
Definition unit_bvalue (maxBvalue mag : double) : double :=
  Round (dmul (dmul maxBvalue mag) mag).

Definition multiple_bvalues_body (maxBvalue : double)
    (k : nat) (st : list Vec3 * list double) : outcome (list Vec3 * list double) :=
  let '(vectors, bValues) := st in
  match vectors !! k with
  | Some v =>
      let mag := snap_magnitude (magnitude v) in
      let vectors' := <[k := normalize v]> vectors in
      if decide (k < length bValues)%nat
      then Done (vectors', <[k := unit_bvalue maxBvalue mag]> bValues)
      else Undefined
  | None => Undefined
  end.

Definition ConvertToMutipleBValuesUnitScaledBVectors (c : DWIConverter)
  : outcome DWIConverter :=
  let maxBvalue := GetMaxBValue c in
  '(vectors, bValues) ←
    for_loop (length (m_DiffusionVectors c)) 0
      (multiple_bvalues_body maxBvalue) (m_DiffusionVectors c, m_BValues c);
  Done (set_DiffusionVectors (set_BValues c bValues) vectors).

End UnitVectors.

(** ** Machine integers *)

(** [itk::SizeValueType] and [size_t] are 64-bit unsigned. *)
Definition wrap64 (z : Z) : Z := z mod 2 ^ 64.

(** Conversion of an unsigned value to [int]: the low 32 bits, read as
    two's complement. *)
Definition to_int (z : Z) : Z :=
  let w := z mod 2 ^ 32 in
  if decide (w < 2 ^ 31) then w else w - 2 ^ 32.

(** [sizeof(PixelValueType)]; [PixelValueType] is [short]
    (DWIConvertUtils.h), the signed 16-bit sample of the data model. *)
Definition sizeof_PixelValueType : Z := 2.

Definition GetNVolume (c : DWIConverter) : Z := m_NVolume c.
Definition GetSlicesPerVolume (c : DWIConverter) : Z := m_SlicesPerVolume c.

(** ** Volume reshaper *)

(** [Region::GetNumberOfPixels]: the running product of the sizes, in
    [SizeValueType]. *)
Definition NumberOfPixels3 (s : Z * Z * Z) : Z :=
  let '(s0, s1, s2) := s in
  wrap64 (wrap64 (wrap64 (1 * s0) * s1) * s2).

Definition NumberOfPixels4 (s : Z * Z * Z * Z) : Z :=
  let '(s0, s1, s2, s3) := s in
  wrap64 (wrap64 (wrap64 (wrap64 (1 * s0) * s1) * s2) * s3).

(** [Image::Allocate()]: one [PixelValueType] per pixel of the region. The
    pixels are left uninitialised by ITK; the model writes zero bytes, and
    both callers overwrite the whole buffer. *)
Definition Allocate (numberOfPixels : Z) : list Byte.byte :=
  replicate (Z.to_nat (numberOfPixels * sizeof_PixelValueType)) Byte.x00.

(** [memcpy(dst, src, n)]: the first [n] bytes of [src] replace the first
    [n] bytes of [dst]; undefined when either object is shorter than [n]. *)
Definition memcpy (dst src : list Byte.byte) (n : Z) : outcome (list Byte.byte) :=
  if decide (n <= Z.of_nat (length dst) /\ n <= Z.of_nat (length src))
  then Done (take (Z.to_nat n) src ++ drop (Z.to_nat n) dst)
  else Undefined.

(** The two entries both reshapers stamp into the copied dictionary. *)
Definition stamp_xform_codes (dict : gmap string string) : gmap string string :=
  <["sform_code_name"%string := "NIFTI_XFORM_SCANNER_ANAT"%string]>
    (<["qform_code_name"%string := "NIFTI_XFORM_SCANNER_ANAT"%string]> dict).

(** Identity direction, unit spacing and zero origin, with the 3D geometry
    written over the first three axes (the [i], [j] loops unrolled). *)
Definition direction_3_to_4 (d : Mat3) : Mat4 :=
  let '((d00, d01, d02), (d10, d11, d12), (d20, d21, d22)) := d in
  ((d00, d01, d02, d0), (d10, d11, d12, d0), (d20, d21, d22, d0), (d0, d0, d0, d1)).

Definition spacing_3_to_4 (s : Vec3) : Vec4 :=
  let '(s0, s1, s2) := s in (s0, s1, s2, d1).

Definition origin_3_to_4 (o : Vec3) : Vec4 :=
  let '(o0, o1, o2) := o in (o0, o1, o2, d0).

Definition direction_4_to_3 (d : Mat4) : Mat3 :=
  let '((d00, d01, d02, _), (d10, d11, d12, _), (d20, d21, d22, _), _) := d in
  ((d00, d01, d02), (d10, d11, d12), (d20, d21, d22)).

Definition spacing_4_to_3 (s : Vec4) : Vec3 :=
  let '(s0, s1, s2, _) := s in (s0, s1, s2).

Definition origin_4_to_3 (o : Vec4) : Vec3 :=
  let '(o0, o1, o2, _) := o in (o0, o1, o2).

Definition ThreeDToFourDImage (c : DWIConverter) (img : Image3D) : outcome Image4D :=
  let nVolumes := to_int (GetNVolume c) in
  let '(s0, s1, s2) := size3 img in
  (* the operands of [/], [*] and [%] are converted to [unsigned long] *)
  let nv := wrap64 nVolumes in
  if decide (nv = 0) then Undefined else
  let size4D := (s0, s1, s2 / nv, nv) in
  if decide (wrap64 (s2 / nv * nv) <> s2)
  then Throw (SlicesNotDivisible s2 nVolumes (s2 mod nv))
  else
    let allocated := Allocate (NumberOfPixels4 size4D) in
    let bytecount := wrap64 (NumberOfPixels4 size4D * sizeof_PixelValueType) in
    buffer ← memcpy allocated (buffer3 img) bytecount;
    Done {| size4 := size4D;
            direction4 := direction_3_to_4 (direction3 img);
            spacing4 := spacing_3_to_4 (spacing3 img);
            origin4 := origin_3_to_4 (origin3 img);
            meta4 := stamp_xform_codes (meta3 img);
            buffer4 := buffer |}.

Definition FourDToThreeDImage (img4D : Image4D) : outcome Image3D :=
  let '(s0, s1, s2, s3) := size4 img4D in
  let nVolumes := to_int s3 in
  let nv := wrap64 nVolumes in
  (* size3D[2] = size4D[2] * nVolumes *)
  let slices := wrap64 (s2 * nv) in
  let size3D := (s0, s1, slices) in
  if decide (wrap64 (s2 * nv) <> slices)
  then Throw (SlicesNotDivisible slices nVolumes (slices mod nv))
  else
    let allocated := Allocate (NumberOfPixels3 size3D) in
    let bytecount := wrap64 (NumberOfPixels3 size3D * sizeof_PixelValueType) in
    buffer ← memcpy allocated (buffer4 img4D) bytecount;
    Done {| size3 := size3D;
            direction3 := direction_4_to_3 (direction4 img4D);
            spacing3 := spacing_4_to_3 (spacing4 img4D);
            origin3 := origin_4_to_3 (origin4 img4D);
            meta3 := stamp_xform_codes (meta4 img4D);
            buffer3 := buffer |}.

(** An allocated image: every size is a [SizeValueType], and the buffer
    holds exactly one sample per pixel (so its byte count is a [size_t]). *)
Definition allocated3 (img : Image3D) : Prop :=
  let '(s0, s1, s2) := size3 img in
  0 <= s0 < 2 ^ 64 /\ 0 <= s1 < 2 ^ 64 /\ 0 <= s2 < 2 ^ 64 /\
  s0 * s1 * s2 * sizeof_PixelValueType < 2 ^ 64 /\
  Z.of_nat (length (buffer3 img)) = s0 * s1 * s2 * sizeof_PixelValueType.

Definition allocated4 (img : Image4D) : Prop :=
  let '(s0, s1, s2, s3) := size4 img in
  0 <= s0 < 2 ^ 64 /\ 0 <= s1 < 2 ^ 64 /\ 0 <= s2 < 2 ^ 64 /\ 0 <= s3 < 2 ^ 64 /\
  s0 * s1 * s2 * s3 * sizeof_PixelValueType < 2 ^ 64 /\
  Z.of_nat (length (buffer4 img)) = s0 * s1 * s2 * s3 * sizeof_PixelValueType.

(** ** Strings and streams *)

Definition endl : string := String (ascii_of_nat 10) EmptyString.
Definition dquote : string := String (ascii_of_nat 34) EmptyString.

(** [std::string::find(pattern)]: the first position, [None] for [npos]. *)
Definition find (s pattern : string) : option nat := String.index 0 pattern s.

(** [s.substr(0, pos)] *)
Definition substr0 (s : string) (pos : nat) : string := String.substring 0 pos s.

(** [operator<<] for an unsigned integer. *)
Definition show_unsigned (z : Z) : string :=
  NilZero.string_of_uint (N.to_uint (Z.to_N z)).

(** [std::setw(4) << std::setfill('0') << k] *)
Fixpoint zeros (n : nat) : string :=
  match n with
  | O => EmptyString
  | S n' => String "0"%char (zeros n')
  end.

Definition show_index4 (k : nat) : string :=
  let digits := show_unsigned (Z.of_nat k) in
  zeros (4 - String.length digits) +:+ digits.

Fixpoint concat_strings (l : list string) : string :=
  match l with
  | [] => EmptyString
  | s :: rest => s +:+ concat_strings rest
  end.

(** The file system, as far as the converter writes to it, and the text
    sent to [std::cerr]. *)
Record World : Type := {
  files : gmap string (list Byte.byte);
  cerr : string
}.

Definition write_file (name : string) (content : list Byte.byte) (w : World) : World :=
  {| files := <[name := content]> (files w); cerr := cerr w |}.

Definition write_cerr (text : string) (w : World) : World :=
  {| files := files w; cerr := cerr w +:+ text |}.

(** ** Geometry accessors *)

Definition GetSpacing (c : DWIConverter) : Vec3 := spacing3 (m_Volume c).
Definition GetOrigin (c : DWIConverter) : Vec3 := origin3 (m_Volume c).
Definition GetMeasurementFrame (c : DWIConverter) : Mat3 := m_MeasurementFrame c.
Definition GetNRRDSpaceDefinition (c : DWIConverter) : string := m_NRRDSpaceDefinition c.
Definition GetDiffusionVolume (c : DWIConverter) : Image3D := m_Volume c.

Definition GetSpacingMatrix (c : DWIConverter) : Mat3 :=
  let '(s0, s1, s2) := GetSpacing c in
  ((s0, d0, d0), (d0, s1, d0), (d0, d0, s2)).

(** [unsigned short GetRows()] reads size[0], [GetCols()] size[1]. *)
Definition GetRows (c : DWIConverter) : Z :=
  let '(s0, _, _) := size3 (m_Volume c) in s0 mod 2 ^ 16.
Definition GetCols (c : DWIConverter) : Z :=
  let '(_, s1, _) := size3 (m_Volume c) in s1 mod 2 ^ 16.

(** ** Serializers

    The routines of ITK, itksys and DWIConvertUtils.h that the serializers
    call are taken as they come: the number printer, the matrix product,
    the two image writers (which change the file system and may throw), the
    sidecar writers and the printer of an exception object. *)
Section Serializers.

Variable DoubleConvert : double -> string.
Variable Mat3_mul : Mat3 -> Mat3 -> Mat3.
Variable GetFilenameName : string -> string.
Variable RawImageWriter_Update :
  string -> Image3D -> World -> World * option ExceptionObject.
Variable ImageFileWriter_Update :
  string -> Image4D -> World -> World * option ExceptionObject.
Variable WriteBValues : list double -> string -> World -> World * exit_status.
Variable WriteBVectors : list Vec3 -> string -> World -> World * exit_status.
Variable show_exception : ExceptionObject -> string.

Definition GetNRRDSpaceDirection (c : DWIConverter) : Mat3 :=
  Mat3_mul (direction3 (m_Volume c)) (GetSpacingMatrix c).

(** The three columns of a matrix, each as [(m0j,m1j,m2j)]. *)
Definition show_columns (m : Mat3) (last : string) : string :=
  let '((m00, m01, m02), (m10, m11, m12), (m20, m21, m22)) := m in
  concat_strings
    ["("; DoubleConvert m00; ","; DoubleConvert m10; ","; DoubleConvert m20; ") ";
     "("; DoubleConvert m01; ","; DoubleConvert m11; ","; DoubleConvert m21; ") ";
     "("; DoubleConvert m02; ","; DoubleConvert m12; ","; DoubleConvert m22; last].

Definition show_dicom_field (entry : string * string) : string :=
  fst entry +:+ ":=" +:+ snd entry +:+ endl.

Definition show_gradient (k : nat) (v : Vec3) : string :=
  let '(x, y, z) := v in
  concat_strings
    ["DWMRI_gradient_"; show_index4 k; ":=";
     DoubleConvert x; "   "; DoubleConvert y; "   "; DoubleConvert z; endl].

(** The line that names the detached data file, absent in a single file. *)
Definition data_file_line (outputVolumeDataName : option string) : string :=
  match outputVolumeDataName with
  | Some dataName => "data file: " +:+ GetFilenameName dataName +:+ endl
  | None => EmptyString
  end.

Definition content_line (outputVolumeDataName : option string) : string :=
  match outputVolumeDataName with
  | Some dataName => "content: exists(" +:+ GetFilenameName dataName +:+ ",0)" +:+ endl
  | None => EmptyString
  end.

(** Everything [ManualWriteNRRDFile] sends to [header] before the pixels. *)
Definition nrrd_header_text (c : DWIConverter) (commentstring : string)
    (outputVolumeDataName : option string) : string :=
  let '(_, _, spacing2) := GetSpacing c in
  let '(o0, o1, o2) := GetOrigin c in
  concat_strings
    ["NRRD0005"; endl;
     commentstring;
     content_line outputVolumeDataName;
     "type: short"; endl;
     "dimension: 4"; endl;
     "space: "; GetNRRDSpaceDefinition c; EmptyString; endl;
     "sizes: "; show_unsigned (GetCols c);
     " "; show_unsigned (GetRows c);
     " "; show_unsigned (GetSlicesPerVolume c);
     " "; show_unsigned (GetNVolume c); endl;
     "thicknesses:  NaN  NaN "; DoubleConvert spacing2; " NaN"; endl;
     "space directions: "; show_columns (GetNRRDSpaceDirection c) ") none"; endl;
     "centerings: cell cell cell ???"; endl;
     "kinds: space space space list"; endl;
     "endian: little"; endl;
     "encoding: raw"; endl;
     "space units: "; dquote; "mm"; dquote; " "; dquote; "mm"; dquote;
     " "; dquote; "mm"; dquote; endl;
     "space origin: ";
     "("; DoubleConvert o0; ","; DoubleConvert o1; ","; DoubleConvert o2; ") "; endl;
     data_file_line outputVolumeDataName;
     "measurement frame: "; show_columns (GetMeasurementFrame c) ")"; endl;
     concat_strings (map show_dicom_field (m_CommonDicomFieldsMap c));
     "modality:=DWMRI"; endl;
     "DWMRI_b-value:="; DoubleConvert (GetMaxBValue c); endl;
     concat_strings (imap show_gradient (m_DiffusionVectors c));
     endl].

(** [outputVolumeDataName]: set only when ".nhdr" occurs in the name. *)
Definition nrrd_data_name (outputVolumeHeaderName : string) : option string :=
  match find outputVolumeHeaderName ".nhdr" with
  | Some extensionPos => Some (substr0 outputVolumeHeaderName extensionPos +:+ ".raw")
  | None => None
  end.

Definition nrrdSingleFileFormat (outputVolumeHeaderName : string) : bool :=
  match find outputVolumeHeaderName ".nhdr" with
  | Some _ => false
  | None => true
  end.

(** The header stream is taken to open; every [std::endl] flushes it, so
    the text is in the file before the raw writer runs. *)
Definition ManualWriteNRRDFile (c : DWIConverter)
    (outputVolumeHeaderName commentstring : string) (w : World) : World * outcome unit :=
  let outputVolumeDataName := nrrd_data_name outputVolumeHeaderName in
  let text :=
    list_byte_of_string (nrrd_header_text c commentstring outputVolumeDataName) in
  if nrrdSingleFileFormat outputVolumeHeaderName then
    let volume := GetDiffusionVolume c in
    let nVoxels := NumberOfPixels3 (size3 volume) in
    let count := wrap64 (nVoxels * sizeof_PixelValueType) in
    if decide (count <= Z.of_nat (length (buffer3 volume)))
    then (write_file outputVolumeHeaderName
            (text ++ take (Z.to_nat count) (buffer3 volume)) w, Done tt)
    else (write_file outputVolumeHeaderName text w, Undefined)
  else
    let dataName := default EmptyString outputVolumeDataName in
    let w1 := write_file outputVolumeHeaderName text w in
    match RawImageWriter_Update dataName (GetDiffusionVolume c) w1 with
    | (w2, None) => (w2, Done tt)
    | (w2, Some excp) =>
        (* catch (itk::ExceptionObject& excp): printed twice, not rethrown *)
        let w3 :=
          write_cerr
            (concat_strings
               ["Exception thrown while writing the series to"; dataName; " ";
                show_exception excp; endl; show_exception excp; endl]) w2 in
        (w3, Done tt)
    end.

(** [has_valid_nifti_extension]: the position of the first listed
    extension found in the name; [None] stands for the [exit(1)] branch. *)
Definition extList : list string := [".nii.gz"%string; ".nii"%string].

Fixpoint first_extension (exts : list string) (name : string) : option nat :=
  match exts with
  | [] => None
  | ext :: rest =>
      match find name ext with
      | Some extensionPos => Some extensionPos
      | None => first_extension rest name
      end
  end.

Definition has_valid_nifti_extension (outputVolumeHeaderName : string) (w : World)
  : World * outcome nat :=
  match first_extension extList outputVolumeHeaderName with
  | Some extensionPos => (w, Done extensionPos)
  | None =>
      (write_cerr
         (concat_strings
            ["FSL Format output chosen, "; "but output Volume not a recognized ";
             "NIfTI filename "; outputVolumeHeaderName; endl]) w,
       Exit 1)
  end.

(** [std::abs( trace - 1.0 ) > 1e-4], [trace] being the product of the
    diagonal of the measurement frame. *)
Definition frame_rejected (frame : Mat3) : bool :=
  let '((m00, _, _), (_, m11, _), (_, _, m22)) := frame in
  let trace := dmul (dmul m00 m11) m22 in
  dgt (dabs (dsub trace d1)) d1e_4.

Definition stamp_xform_codes4 (img4D : Image4D) : Image4D :=
  {| size4 := size4 img4D;
     direction4 := direction4 img4D;
     spacing4 := spacing4 img4D;
     origin4 := origin4 img4D;
     meta4 := stamp_xform_codes (meta4 img4D);
     buffer4 := buffer4 img4D |}.

Definition sidecar_name (given outputVolumeHeaderName : string) (extensionPos : nat)
    (suffix : string) : string :=
  if decide (given = EmptyString)
  then substr0 outputVolumeHeaderName extensionPos +:+ suffix
  else given.

Definition WriteFSLFormattedFileSet (c : DWIConverter)
    (outputVolumeHeaderName outputBValues outputBVectors : string)
    (img4D : Image4D) (w : World) : World * outcome unit :=
  if frame_rejected (m_MeasurementFrame c)
  then (w, Throw OnlyIdentityMeasurementFrame)
  else
    match ImageFileWriter_Update outputVolumeHeaderName (stamp_xform_codes4 img4D) w with
    | (w1, Some excp) =>
        (write_cerr
           (concat_strings
              ["Exception thrown while writing "; outputVolumeHeaderName; endl;
               show_exception excp; endl]) w1,
         Throw excp)
    | (w1, None) =>
        match has_valid_nifti_extension outputVolumeHeaderName w1 with
        | (w2, Done extensionPos) =>
            let outputFSLBValFilename :=
              sidecar_name outputBValues outputVolumeHeaderName extensionPos ".bval" in
            let outputFSLBVecFilename :=
              sidecar_name outputBVectors outputVolumeHeaderName extensionPos ".bvec" in
            match WriteBValues (m_BValues c) outputFSLBValFilename w2 with
            | (w3, EXIT_FAILURE) => (w3, Throw (FailedToWriteBVal outputFSLBValFilename))
            | (w3, EXIT_SUCCESS) =>
                match WriteBVectors (m_DiffusionVectors c) outputFSLBVecFilename w3 with
                | (w4, EXIT_FAILURE) =>
                    (w4, Throw (FailedToWriteBVec outputFSLBVecFilename))
                | (w4, EXIT_SUCCESS) => (w4, Done tt)
                end
            end
        | (w2, Throw e) => (w2, Throw e)
        | (w2, Exit code) => (w2, Exit code)
        | (w2, Undefined) => (w2, Undefined)
        end
    end.

End Serializers.

(** ** External gradient override

    [CheckArg], [ReadBVals] and [ReadBVecs] come from DWIConvertUtils.h and
    the path functions from itksys. A reader hands back its status, the
    list it filled and the count it reported. *)
Section GradientOverride.

Variable CheckArg : string -> string -> string -> exit_status.
Variable GetParentDirectory : string -> string.
Variable GetFilenameWithoutExtension : string -> string.
Variable JoinPath : list string -> string.
Variable ReadBVals : string -> World -> exit_status * list double * Z.
Variable ReadBVecs : string -> bool -> World -> exit_status * list Vec3 * Z.

(** The file a missing argument defaults to, next to the volume. *)
Definition sidecar_default (argName given inputVolumeNameTemplate suffix : string)
  : string :=
  match CheckArg argName given EmptyString with
  | EXIT_FAILURE =>
      JoinPath [GetParentDirectory inputVolumeNameTemplate; "/"%string;
                GetFilenameWithoutExtension inputVolumeNameTemplate +:+ suffix]
  | EXIT_SUCCESS => given
  end.

Definition ReadGradientInformation (c : DWIConverter)
    (inputBValues inputBVectors inputVolumeNameTemplate : string) (w : World)
  : DWIConverter * outcome unit :=
  let _inputBValues :=
    sidecar_default "B Values" inputBValues inputVolumeNameTemplate ".bval" in
  let _inputBVectors :=
    sidecar_default "B Vectors" inputBVectors inputVolumeNameTemplate ".bvec" in
  match ReadBVals _inputBValues w with
  | (EXIT_FAILURE, _, _) => (c, Throw (ErrorReadingBvals _inputBValues))
  | (EXIT_SUCCESS, BVals, bValCount) =>
      match ReadBVecs _inputBVectors true w with
      | (EXIT_FAILURE, _, _) => (c, Throw (ErrorReadingBvals _inputBVectors))
      | (EXIT_SUCCESS, BVecs, bVecCount) =>
          if decide (bValCount <> bVecCount)
          then (c, Throw (MismatchBVectorsBValues bVecCount bValCount))
          else
            let numGradients := Z.of_nat (length BVals) in
            if decide (numGradients <> GetNVolume c)
            then (c, Throw (GradientsVolumesMismatch numGradients (GetNVolume c)))
            else (set_BValues (set_DiffusionVectors c BVecs) BVals, Done tt)
      end
  end.

End GradientOverride.

(** ** The comment block *)

(** The literal [0.2]: the double nearest to 1/5. *)
Definition d0_2 : double := ddiv (double_of_Z 1) (double_of_Z 5).

Section FileComment.

(** [operator<<] of a [std::stringstream] for a [double]. *)
Variable show_double : double -> string.

Definition MakeFileComment (version : string)
    (useBMatrixGradientDirections useIdentityMeaseurementFrame : bool)
    (smallGradientThreshold : double) (conversionMode : string) : string :=
  concat_strings
    ["#"; endl; "#"; endl;
     "# This file was created by DWIConvert version "; version; endl;
     "# https://github.com/BRAINSia/BRAINSTools"; endl;
     "# part of the BRAINSTools package."; endl;
     "# Command line options:"; endl;
     "# --conversionMode "; conversionMode; endl;
     (if dgt (dabs (dsub smallGradientThreshold d0_2)) d1e_4
      then concat_strings
             ["# --smallGradientThreshold "; show_double smallGradientThreshold; endl]
      else EmptyString);
     (if useIdentityMeaseurementFrame
      then concat_strings ["# --useIdentityMeasurementFrame"; endl]
      else EmptyString);
     (if useBMatrixGradientDirections
      then concat_strings ["# --useBMatrixGradientDirections"; endl]
      else EmptyString)].

End FileComment.

(** A string without a line break. *)
Fixpoint no_newline (s : string) : bool :=
  match s with
  | EmptyString => true
  | String c rest => negb (Ascii.eqb c (ascii_of_nat 10)) && no_newline rest
  end.

(** ** Gradients in the identity measurement frame *)

Definition set_MeasurementFrame (c : DWIConverter) (frame : Mat3) : DWIConverter :=
  {| m_InputFileNames := m_InputFileNames c;
     m_allowLossyConversion := m_allowLossyConversion c;
     m_FSLFileFormatHorizontalBy3Rows := m_FSLFileFormatHorizontalBy3Rows c;
     m_SlicesPerVolume := m_SlicesPerVolume c;
     m_NSlice := m_NSlice c;
     m_NVolume := m_NVolume c;
     m_NRRDSpaceDefinition := m_NRRDSpaceDefinition c;
     m_Volume := m_Volume c;
     m_MeasurementFrame := frame;
     m_BValues := m_BValues c;
     m_DiffusionVectors := m_DiffusionVectors c;
     m_CommonDicomFieldsMap := m_CommonDicomFieldsMap c |}.

(** [itk::Matrix::GetInverse], which throws for a singular matrix, and the
    product of a [vnl_matrix_fixed] with a [vnl_vector_fixed] belong to ITK
    and VNL; the transform is stated for any implementation of them. *)
Section IdentityFrame.

Variable GetInverse : Mat3 -> outcome Mat3.
Variable Mat3_vec_mul : Mat3 -> Vec3 -> Vec3.

(** The loop state is the local [gradientVectors]; [m_DiffusionVectors]
    is only read. *)
Definition identity_frame_body (InverseMeasurementFrame : Mat3) (vectors : list Vec3)
    (k : nat) (gradientVectors : list Vec3) : outcome (list Vec3) :=
  match vectors !! k with
  | Some v =>
      let RotatedScaledDiffusionVectors := Mat3_vec_mul InverseMeasurementFrame v in
      Done (gradientVectors ++ [RotatedScaledDiffusionVectors])
  | None => Undefined
  end.

Definition ConvertBVectorsToIdentityMeasurementFrame (c : DWIConverter)
  : outcome DWIConverter :=
  InverseMeasurementFrame ← GetInverse (GetMeasurementFrame c);
  gradientVectors ←
    for_loop (length (m_DiffusionVectors c)) 0
      (identity_frame_body InverseMeasurementFrame (m_DiffusionVectors c)) [];
  Done (set_MeasurementFrame (set_DiffusionVectors c gradientVectors) Mat3_identity).

End IdentityFrame.

(** ** Sample data

    A small acquisition used to exercise the statements: seven volumes of
    one 2x2 slice each, one baseline and six weighted directions. *)

Definition dz (z : Z) : double := double_of_Z z.

Definition sample_volume : Image3D :=
  {| size3 := (2, 2, 7);
     direction3 := Mat3_identity;
     spacing3 := (d1, d1, dz 2);
     origin3 := (d0, d0, d0);
     meta3 := ∅;
     buffer3 := replicate 56 Byte.x2a |}.

Definition sample_vectors : list Vec3 :=
  [(d0, d0, d0); (d1, d0, d0); (d0, d1, d0); (d0, d0, d1);
   (dz (-1), d0, d0); (d0, dz (-1), d0); (d0, d0, dz (-1))].

Definition sample_converter (bValues : list double) (frame : Mat3) : DWIConverter :=
  {| m_InputFileNames := [];
     m_allowLossyConversion := false;
     m_FSLFileFormatHorizontalBy3Rows := false;
     m_SlicesPerVolume := 1;
     m_NSlice := 7;
     m_NVolume := 7;
     m_NRRDSpaceDefinition := "left-posterior-superior";
     m_Volume := sample_volume;
     m_MeasurementFrame := frame;
     m_BValues := bValues;
     m_DiffusionVectors := sample_vectors;
     m_CommonDicomFieldsMap := [] |}.

(** b-values [0, 1000, 1000, 1000, 1000, 1000, 1000] *)
Definition bvalues_single_shell : list double :=
  d0 :: replicate 6 (dz 1000).

(** b-values [0, 500, 1000, 500, 1000, 500, 1000] *)
Definition bvalues_two_shells : list double :=
  [d0; dz 500; dz 1000; dz 500; dz 1000; dz 500; dz 1000].

(** sqrt(0.5) as a [float] holds it, 11863283 * 2^-24, read as a double. *)
Definition sqrt_half_held : double := S754_finite false 6369051563524096 (-53).



(** 2^-400, a b-value whose ratio to 1.0 has a square root below the range
    of [float]. *)
Definition tiny_bvalue : double := S754_finite false 4503599627370496 (-452).

(** Sample library routines, following the documentation of VNL and ITK:
    the Euclidean norm, division by it unless it is zero, and rounding to
    the nearest integer with halves upward. *)
Definition sample_squared_magnitude (v : Vec3) : double :=
  let '(x, y, z) := v in dadd (dadd (dmul x x) (dmul y y)) (dmul z z).

Definition sample_magnitude (v : Vec3) : double := dsqrt (sample_squared_magnitude v).

Definition sample_normalize (v : Vec3) : Vec3 :=
  let '(x, y, z) := v in
  let norm := sample_magnitude v in
  match norm with
  | S754_zero _ => v
  | _ => let inv := ddiv d1 norm in (dmul x inv, dmul y inv, dmul z inv)
  end.

Definition sample_Round (x : double) : double :=
  match x with
  | S754_finite s m e =>
      if decide (0 <= e) then x
      else
        let twice := 2 * (if s then Z.neg m else Z.pos m) + 2 ^ (- e) in
        double_of_Z (twice / 2 ^ (1 - e))
  | _ => x
  end.

(** The acquisition of the end-to-end example: 96 x 96 x 60 samples, to be
    read as 5 volumes of 12 slices. *)
Definition volume_96_96_60 : Image3D :=
  {| size3 := (96, 96, 60);
     direction3 := Mat3_identity;
     spacing3 := (d1, d1, dz 2);
     origin3 := (d0, d0, d0);
     meta3 := ∅;
     buffer3 := replicate (Z.to_nat (96 * 96 * 60 * sizeof_PixelValueType)) Byte.x2a |}.

Definition converter_96_96_60 : DWIConverter :=
  {| m_InputFileNames := [];
     m_allowLossyConversion := false;
     m_FSLFileFormatHorizontalBy3Rows := false;
     m_SlicesPerVolume := 12;
     m_NSlice := 60;
     m_NVolume := 5;
     m_NRRDSpaceDefinition := "left-posterior-superior";
     m_Volume := volume_96_96_60;
     m_MeasurementFrame := Mat3_identity;
     m_BValues := [d0; dz 1000; dz 1000; dz 1000; dz 1000];
     m_DiffusionVectors := take 5 sample_vectors;
     m_CommonDicomFieldsMap := [] |}.

(** A 4D volume of 2 x 2 x 3 samples in 2 volumes. *)
Definition sample_volume4D : Image4D :=
  {| size4 := (2, 2, 3, 2);
     direction4 := direction_3_to_4 Mat3_identity;
     spacing4 := (d1, d1, dz 2, d1);
     origin4 := (d0, d0, d0, d0);
     meta4 := ∅;
     buffer4 := replicate 48 Byte.x2a |}.

(** Frames: a quarter turn and a half turn about the third axis. *)
Definition frame_quarter_turn : Mat3 :=
  ((d0, dz (-1), d0), (d1, d0, d0), (d0, d0, d1)).

Definition frame_half_turn : Mat3 :=
  ((dz (-1), d0, d0), (d0, dz (-1), d0), (d0, d0, d1)).

(** Stand-ins for the collaborators of the serializers. The number printer
    shows sign, mantissa and binary exponent; the image writers store the
    pixel buffer under the file name or fail without touching anything. *)
Definition sample_DoubleConvert (x : double) : string :=
  match x with
  | S754_zero false => "0"
  | S754_zero true => "-0"
  | S754_infinity false => "inf"
  | S754_infinity true => "-inf"
  | S754_nan => "nan"
  | S754_finite s m e =>
      (if s then "-" else EmptyString) +:+ show_unsigned (Z.pos m) +:+ "p" +:+
      (if decide (e < 0) then "-" +:+ show_unsigned (- e) else show_unsigned e)
  end.

Definition sample_dot (a b : Vec3) : double :=
  let '(a0, a1, a2) := a in
  let '(b0, b1, b2) := b in
  dadd (dadd (dmul a0 b0) (dmul a1 b1)) (dmul a2 b2).

Definition sample_Mat3_mul (a b : Mat3) : Mat3 :=
  let '(r0, r1, r2) := a in
  let '((b00, b01, b02), (b10, b11, b12), (b20, b21, b22)) := b in
  let c0 := (b00, b10, b20) in
  let c1 := (b01, b11, b21) in
  let c2 := (b02, b12, b22) in
  ((sample_dot r0 c0, sample_dot r0 c1, sample_dot r0 c2),
   (sample_dot r1 c0, sample_dot r1 c1, sample_dot r1 c2),
   (sample_dot r2 c0, sample_dot r2 c1, sample_dot r2 c2)).

(** The names used below have no directory part. *)
Definition sample_GetFilenameName (name : string) : string := name.

Definition writer_stores3 (name : string) (img : Image3D) (w : World)
  : World * option ExceptionObject :=
  (write_file name (buffer3 img) w, None).

Definition writer_stores4 (name : string) (img : Image4D) (w : World)
  : World * option ExceptionObject :=
  (write_file name (buffer4 img) w, None).

Definition disk_full : ExceptionObject := ImageIOException "no space left on device".

Definition writer_fails3 (name : string) (img : Image3D) (w : World)
  : World * option ExceptionObject :=
  (w, Some disk_full).

Definition writer_fails4 (name : string) (img : Image4D) (w : World)
  : World * option ExceptionObject :=
  (w, Some disk_full).

Definition sample_WriteBValues (bValues : list double) (name : string) (w : World)
  : World * exit_status :=
  (write_file name
     (list_byte_of_string
        (concat_strings (map (fun b => sample_DoubleConvert b +:+ endl) bValues))) w,
   EXIT_SUCCESS).

Definition sample_show_vector (v : Vec3) : string :=
  let '(x, y, z) := v in
  concat_strings
    [sample_DoubleConvert x; " "; sample_DoubleConvert y; " "; sample_DoubleConvert z; endl].

Definition sample_WriteBVectors (vectors : list Vec3) (name : string) (w : World)
  : World * exit_status :=
  (write_file name (list_byte_of_string (concat_strings (map sample_show_vector vectors))) w,
   EXIT_SUCCESS).

Definition sample_show_exception (e : ExceptionObject) : string :=
  match e with
  | ErrorReadingBvals file => "ERROR reading Bvals " +:+ file
  | MismatchBVectorsBValues _ _ => "Mismatch between count of B Vectors and B Values"
  | GradientsVolumesMismatch _ _ => "number of Gradients doesn't match number of volumes"
  | SlicesNotDivisible _ _ _ => "#of slices in volume not evenly divisible"
  | OnlyIdentityMeasurementFrame => "ERROR:  Only identity measurement frame allow"
  | FailedToWriteBVal file => "Failed to write FSL BVal File: " +:+ file
  | FailedToWriteBVec file => "Failed to write FSL BVec File: " +:+ file
  | ImageIOException description => description
  end.

Definition empty_world : World := {| files := ∅; cerr := EmptyString |}.

(** Stand-ins for the collaborators of the override loader: the readers
    know two b-value files and one vector file by name. *)
Definition sample_CheckArg (argName argVal emptyVal : string) : exit_status :=
  if decide (argVal = emptyVal) then EXIT_FAILURE else EXIT_SUCCESS.

Definition sample_GetParentDirectory (path : string) : string := ".".
Definition sample_GetFilenameWithoutExtension (path : string) : string := path.
Definition sample_JoinPath (parts : list string) : string := concat_strings parts.

Definition sample_ReadBVals (name : string) (w : World) : exit_status * list double * Z :=
  if decide (name = "six.bval"%string)
  then (EXIT_SUCCESS, replicate 6 (dz 1000), 6)
  else if decide (name = "seven.bval"%string)
  then (EXIT_SUCCESS, bvalues_single_shell, 7)
  else (EXIT_FAILURE, [], 0).

Definition sample_ReadBVecs (name : string) (horizontalBy3Rows : bool) (w : World)
  : exit_status * list Vec3 * Z :=
  if decide (name = "seven.bvec"%string)
  then (EXIT_SUCCESS, sample_vectors, 7)
  else (EXIT_FAILURE, [], 0).

(** *** Stand-ins and samples for the remaining routines *)

(** The inverse by cofactors, which refuses a matrix whose determinant is
    zero, with the message of ITK carried as the description of the
    exception, and the row-by-vector product. *)
Definition sample_determinant (m : Mat3) : double :=
  let '((a, b, c), (d, e, f), (g, h, i)) := m in
  dadd (dsub (dmul a (dsub (dmul e i) (dmul f h)))
             (dmul b (dsub (dmul d i) (dmul f g))))
       (dmul c (dsub (dmul d h) (dmul e g))).

Definition sample_GetInverse (m : Mat3) : outcome Mat3 :=
  let '((a, b, c), (d, e, f), (g, h, i)) := m in
  let det := sample_determinant m in
  match det with
  | S754_zero _ => Throw (ImageIOException "Singular matrix. Determinant is 0.")
  | _ =>
      Done ((ddiv (dsub (dmul e i) (dmul f h)) det,
             ddiv (dsub (dmul c h) (dmul b i)) det,
             ddiv (dsub (dmul b f) (dmul c e)) det),
            (ddiv (dsub (dmul f g) (dmul d i)) det,
             ddiv (dsub (dmul a i) (dmul c g)) det,
             ddiv (dsub (dmul c d) (dmul a f)) det),
            (ddiv (dsub (dmul d h) (dmul e g)) det,
             ddiv (dsub (dmul b g) (dmul a h)) det,
             ddiv (dsub (dmul a e) (dmul b d)) det))
  end.

Definition sample_Mat3_vec_mul (m : Mat3) (v : Vec3) : Vec3 :=
  let '(r0, r1, r2) := m in (sample_dot r0 v, sample_dot r1 v, sample_dot r2 v).

Definition frame_singular : Mat3 := ((d1, d0, d0), (d0, d1, d0), (d0, d0, d0)).

(** A volume whose dictionary carries a patient name and a stale code. *)
Definition sample_volume_with_meta : Image3D :=
  {| size3 := (2, 2, 7);
     direction3 := Mat3_identity;
     spacing3 := (d1, d1, dz 2);
     origin3 := (d0, d0, d0);
     meta3 := <["PatientName"%string := "anonymous"%string]>
                (<["qform_code_name"%string := "NIFTI_XFORM_UNKNOWN"%string]> ∅);
     buffer3 := replicate 56 Byte.x2a |}.

(** A 4D volume whose buffer holds two samples more than its region. *)
Definition sample_volume4D_long : Image4D :=
  {| size4 := (2, 2, 3, 2);
     direction4 := direction_3_to_4 Mat3_identity;
     spacing4 := (d1, d1, dz 2, d1);
     origin4 := (d0, d0, d0, d0);
     meta4 := ∅;
     buffer4 := replicate 48 Byte.x2a ++ replicate 4 Byte.x00 |}.

(** A 4D volume of 2 x 2 x 3 x 2 samples with a buffer of 40 bytes. *)
Definition sample_volume4D_short : Image4D :=
  {| size4 := (2, 2, 3, 2);
     direction4 := direction_3_to_4 Mat3_identity;
     spacing4 := (d1, d1, dz 2, d1);
     origin4 := (d0, d0, d0, d0);
     meta4 := ∅;
     buffer4 := replicate 40 Byte.x2a |}.

(** A volume whose region asks for 56 bytes and whose buffer holds 40. *)
Definition sample_volume_short : Image3D :=
  {| size3 := (2, 2, 7);
     direction3 := Mat3_identity;
     spacing3 := (d1, d1, dz 2);
     origin3 := (d0, d0, d0);
     meta3 := ∅;
     buffer3 := replicate 40 Byte.x2a |}.

Definition sample_converter_short : DWIConverter :=
  {| m_InputFileNames := [];
     m_allowLossyConversion := false;
     m_FSLFileFormatHorizontalBy3Rows := false;
     m_SlicesPerVolume := 1;
     m_NSlice := 7;
     m_NVolume := 7;
     m_NRRDSpaceDefinition := "left-posterior-superior";
     m_Volume := sample_volume_short;
     m_MeasurementFrame := Mat3_identity;
     m_BValues := bvalues_single_shell;
     m_DiffusionVectors := sample_vectors;
     m_CommonDicomFieldsMap := [] |}.

(** ** The layout rule as the design document words it

    Inline encoding for the single-file extension, detached encoding for
    any other name. *)
Fixpoint ends_with (suffix s : string) : bool :=
  if decide (s = suffix) then true
  else match s with
       | EmptyString => false
       | String _ rest => ends_with suffix rest
       end.

Definition documented_single_file (outputVolumeHeaderName : string) : bool :=
  ends_with ".nrrd" outputVolumeHeaderName.

(** * Properties *)

(** ** Order on doubles *)

Ltac cmp_step :=
  match goal with
  | |- context [Z.compare ?a ?b] => destruct (Z.compare_spec a b)
  | H : context [Z.compare ?a ?b] |- _ => destruct (Z.compare_spec a b)
  | |- context [Pos.compare_cont Eq ?a ?b] =>
      change (Pos.compare_cont Eq a b) with (Pos.compare a b) in *;
      destruct (Pos.compare_spec a b)
  | H : context [Pos.compare_cont Eq ?a ?b] |- _ =>
      change (Pos.compare_cont Eq a b) with (Pos.compare a b) in *;
      destruct (Pos.compare_spec a b)
  end; cbv beta iota delta [CompOpp] in *.

Lemma dlt_irrefl (x : double) : dlt x x = false.
Proof.
  unfold dlt, SFltb, SFcompare.
  destruct x as [[]|[]| |[] m e]; try reflexivity;
    repeat cmp_step; try reflexivity; lia.
Qed.

Lemma dlt_trans (x y z : double) : dlt x y = true -> dlt y z = true -> dlt x z = true.
Proof.
  unfold dlt, SFltb, SFcompare.
  destruct x as [[]|[]| |[] mx ex], y as [[]|[]| |[] my ey], z as [[]|[]| |[] mz ez];
    try discriminate; try reflexivity; intros Hxy Hyz;
    repeat cmp_step; try discriminate; try reflexivity; subst; lia.
Qed.

(** ** The running maximum *)

Lemma max_step_bound (m x b : double) :
  dlt m b = false -> dlt (if dgt x m then x else m) b = false.
Proof.
  intros Hmb. unfold dgt. destruct (dlt m x) eqn:Hmx; [|exact Hmb].
  destruct (dlt x b) eqn:Hxb; [|reflexivity].
  rewrite (dlt_trans m x b Hmx Hxb) in Hmb. discriminate.
Qed.

Lemma ComputeMaxBvalue_from_bound (l : list double) (m b : double) :
  dlt m b = false -> dlt (ComputeMaxBvalue_from m l) b = false.
Proof.
  revert m. induction l as [|x l IH]; intros m Hmb; simpl; [exact Hmb|].
  apply IH, max_step_bound, Hmb.
Qed.

Lemma ComputeMaxBvalue_from_upper (l : list double) (m b : double) :
  b ∈ l -> dlt (ComputeMaxBvalue_from m l) b = false.
Proof.
  revert m. induction l as [|x l IH]; intros m Hb.
  - inversion Hb.
  - simpl. apply elem_of_cons in Hb as [->|Hb]; [|apply IH, Hb].
    apply ComputeMaxBvalue_from_bound. unfold dgt.
    destruct (dlt m x) eqn:Hmx; [apply dlt_irrefl | exact Hmx].
Qed.

Lemma ComputeMaxBvalue_from_attained (l : list double) (m : double) :
  ComputeMaxBvalue_from m l = m \/ ComputeMaxBvalue_from m l ∈ l.
Proof.
  revert m. induction l as [|x l IH]; intros m; simpl; [left; reflexivity|].
  destruct (IH (if dgt x m then x else m)) as [H|H].
  - rewrite H. destruct (dgt x m); [right; apply list_elem_of_here | left; reflexivity].
  - right. apply list_elem_of_further, H.
Qed.

Lemma ComputeMaxBvalue_from_positive (l : list double) (m : double) :
  m = d0 \/ dgt m d0 = true ->
  ComputeMaxBvalue_from m l = d0 \/ dgt (ComputeMaxBvalue_from m l) d0 = true.
Proof.
  revert m. induction l as [|x l IH]; intros m Hm; simpl; [exact Hm|].
  apply IH. unfold dgt in *. destruct (dlt m x) eqn:Hmx; [|exact Hm].
  right. destruct Hm as [->|Hm]; [exact Hmx | exact (dlt_trans _ _ _ Hm Hmx)].
Qed.

Lemma ComputeMaxBvalue_zero_or_positive (l : list double) :
  ComputeMaxBvalue l = d0 \/ dgt (ComputeMaxBvalue l) d0 = true.
Proof. apply ComputeMaxBvalue_from_positive. left; reflexivity. Qed.

(** The test [maxBvalue > 0] fails exactly when the maximum is [0.0]. *)
Lemma scaleFactor_cases (l : list double) (b : double) :
  (ComputeMaxBvalue l = d0 -> scaleFactor (ComputeMaxBvalue l) b = f0) /\
  (ComputeMaxBvalue l <> d0 ->
   scaleFactor (ComputeMaxBvalue l) b =
   double_to_float (dsqrt (ddiv b (ComputeMaxBvalue l)))).
Proof.
  unfold scaleFactor. split.
  - intros ->. reflexivity.
  - intros Hne. destruct (ComputeMaxBvalue_zero_or_positive l) as [H|H];
      [contradiction | rewrite H; reflexivity].
Qed.

(** ** Rounding to a format

    The number of binary digits of a mantissa. *)
Lemma digits2_pos_bounds (m : positive) :
  2 ^ (Z.pos (digits2_pos m) - 1) <= Z.pos m < 2 ^ Z.pos (digits2_pos m).
Proof.
  induction m as [m IH|m IH|]; cbn [digits2_pos].
  - rewrite Pos2Z.inj_succ.
    replace (Z.succ (Z.pos (digits2_pos m)) - 1) with (Z.succ (Z.pos (digits2_pos m) - 1)) by lia.
    rewrite !Z.pow_succ_r by lia. lia.
  - rewrite Pos2Z.inj_succ.
    replace (Z.succ (Z.pos (digits2_pos m)) - 1) with (Z.succ (Z.pos (digits2_pos m) - 1)) by lia.
    rewrite !Z.pow_succ_r by lia. lia.
  - cbn. lia.
Qed.

Lemma digits2_pos_unique (m : positive) (d : Z) :
  2 ^ (d - 1) <= Z.pos m < 2 ^ d -> Z.pos (digits2_pos m) = d.
Proof.
  intros [Hlo Hhi]. pose proof (digits2_pos_bounds m) as [Hlo' Hhi'].
  assert (0 < d) as Hd.
  { destruct (Z_lt_le_dec 0 d) as [|Hle]; [assumption|].
    assert (2 ^ d <= 2 ^ 0) by (destruct (Z_lt_le_dec d 0); [rewrite Z.pow_neg_r by lia; cbn; lia| apply Z.pow_le_mono_r; lia]).
    cbn in H. lia. }
  set (d' := Z.pos (digits2_pos m)) in *.
  destruct (Z_lt_le_dec d d') as [Hlt|Hge].
  - assert (2 ^ d <= 2 ^ (d' - 1)) by (apply Z.pow_le_mono_r; lia). lia.
  - destruct (Z_lt_le_dec d' d) as [Hlt|Hge']; [|lia].
    assert (2 ^ d' <= 2 ^ (d - 1)) by (apply Z.pow_le_mono_r; lia). lia.
Qed.

Lemma located_exact (X : Z) : 0 <= X -> located X 0 (Build_shr_record X false false).
Proof. intros H. exists 0. cbn. lia. Qed.

Lemma located_shr_1 (X k : Z) (mrs : shr_record) :
  0 <= k -> located X k mrs -> located X (k + 1) (shr_1 mrs).
Proof.
  intros Hk (delta & HX & Hd & Hm & Hloc).
  destruct mrs as [m r s]. cbn [shr_m shr_r shr_s] in *.
  assert (2 ^ (k + 1) = 2 * 2 ^ k) as Hpow
    by (rewrite Z.pow_add_r, Z.pow_1_r by lia; lia).
  assert (0 < 2 ^ k) by (apply Z.pow_pos_nonneg; lia).
  unfold located. rewrite Hpow.
  destruct m as [|[p|p|]|p]; cbn [shr_1 shr_m shr_r shr_s]; try lia.
  - exists delta. destruct r, s; cbn [orb]; repeat split; try lia.
  - exists (2 ^ k + delta). rewrite Pos2Z.inj_xI in HX.
    destruct r, s; cbn [orb]; repeat split; try lia.
  - exists delta. rewrite Pos2Z.inj_xO in HX.
    destruct r, s; cbn [orb]; repeat split; try lia.
  - exists (2 ^ k + delta). destruct r, s; cbn [orb]; repeat split; try lia.
Qed.

Lemma located_iter (p : positive) (X k : Z) (mrs : shr_record) :
  0 <= k -> located X k mrs -> located X (k + Z.pos p) (SpecFloat.iter_pos shr_1 p mrs).
Proof.
  revert k mrs. induction p as [p IH|p IH|]; intros k mrs Hk Hloc; cbn [SpecFloat.iter_pos].
  - replace (k + Z.pos p~1) with (k + 1 + Z.pos p + Z.pos p) by lia.
    apply IH; [lia|]. apply IH; [lia|]. apply located_shr_1; assumption.
  - replace (k + Z.pos p~0) with (k + Z.pos p + Z.pos p) by lia.
    apply IH; [lia|]. apply IH; assumption.
  - apply located_shr_1; assumption.
Qed.

Lemma round_nearest_even_error (X k : Z) (mrs : shr_record) :
  located X k mrs ->
  let m' := round_nearest_even (shr_m mrs) (loc_of_shr_record mrs) in
  2 * Z.abs (m' * 2 ^ k - X) <= 2 ^ k /\ shr_m mrs <= m' <= shr_m mrs + 1 /\
  (k = 0 -> m' = X).
Proof.
  intros (delta & HX & Hd & Hm & Hloc). destruct mrs as [m r s].
  cbn [shr_m shr_r shr_s] in *.
  destruct r, s; cbn [loc_of_shr_record round_nearest_even]; cbv zeta;
    try destruct (Z.even m); repeat split; try lia;
    intros ->; rewrite Z.pow_0_r in *; lia.
Qed.

Lemma Pos_iter_xO (m d : positive) : Z.pos (Pos.iter xO m d) = Z.pos m * 2 ^ Z.pos d.
Proof.
  induction d as [|d IH] using Pos.peano_ind.
  - cbn [Pos.iter]. rewrite Pos2Z.inj_xO, Z.pow_1_r. lia.
  - rewrite Pos.iter_succ, Pos2Z.inj_xO, IH, Pos2Z.inj_succ, Z.pow_succ_r by lia. lia.
Qed.

Lemma digits2_pos_shift (m : positive) (d : Z) (mz : positive) :
  0 <= d -> Z.pos mz = Z.pos m * 2 ^ d ->
  Z.pos (digits2_pos mz) = Z.pos (digits2_pos m) + d.
Proof.
  intros Hd Hmz. apply digits2_pos_unique. rewrite Hmz.
  pose proof (digits2_pos_bounds m) as [Hlo Hhi].
  replace (Z.pos (digits2_pos m) + d - 1) with (Z.pos (digits2_pos m) - 1 + d) by lia.
  rewrite !Z.pow_add_r by lia.
  assert (0 < 2 ^ d) by (apply Z.pow_pos_nonneg; lia). nia.
Qed.

Section Rounding.

Variable prec emax : Z.
Hypothesis Hprec : 0 < prec.

Let fexp := fexp prec emax.
Let emin := emin prec emax.

Lemma fexp_ge_emin (e : Z) : emin <= fexp e.
Proof. unfold fexp, SpecFloat.fexp, emin. lia. Qed.

Lemma fexp_ge (e : Z) : e - prec <= fexp e.
Proof. unfold fexp, SpecFloat.fexp. lia. Qed.

Lemma fexp_small (d E : Z) : emin <= E -> d <= prec -> fexp (d + E) <= E.
Proof. unfold fexp, SpecFloat.fexp, emin. lia. Qed.

Lemma shr_fexp_no_shift (m E : Z) (p : positive) :
  m = Z.pos p -> fexp (Z.pos (digits2_pos p) + E) <= E ->
  shr_fexp prec emax m E loc_Exact = (Build_shr_record m false false, E).
Proof.
  intros -> Hle. unfold shr_fexp, shr. cbn [Zdigits2 shr_record_of_loc].
  fold fexp. destruct (fexp (Z.pos (digits2_pos p) + E) - E) eqn:Hd; try reflexivity.
  lia.
Qed.


Lemma shr_fexp_shift (m : positive) (e : Z) (p : positive) :
  fexp (Z.pos (digits2_pos m) + e) - e = Z.pos p ->
  shr_fexp prec emax (Z.pos m) e loc_Exact =
  (SpecFloat.iter_pos shr_1 p (Build_shr_record (Z.pos m) false false), e + Z.pos p).
Proof.
  intros Hshift. unfold shr_fexp, shr. cbn [Zdigits2 shr_record_of_loc].
  fold fexp. rewrite Hshift. reflexivity.
Qed.

Lemma digits2_pos_le (q : positive) (d : Z) : Z.pos q < 2 ^ d -> Z.pos (digits2_pos q) <= d.
Proof.
  intros Hq. pose proof (digits2_pos_bounds q) as [Hlo _].
  destruct (Z_lt_le_dec d (Z.pos (digits2_pos q))) as [Hlt|]; [|lia].
  assert (2 ^ d <= 2 ^ (Z.pos (digits2_pos q) - 1)).
  { destruct (Z_lt_le_dec d 0); [rewrite (Z.pow_neg_r 2 d) by lia; apply Z.pow_nonneg; lia|].
    apply Z.pow_le_mono_r; lia. }
  lia.
Qed.

(** Rounding a finite value to the format: the sign is kept; when the
    exponent of the format is not above the exponent of the value the
    result is the same number, otherwise it is within half a unit of that
    exponent. *)
Lemma binary_round_spec (s : bool) (m : positive) (e : Z) :
  let E := fexp (Z.pos (digits2_pos m) + e) in
  match binary_round prec emax s m e with
  | S754_nan => False
  | S754_infinity s' => s' = s /\ emax - prec <= E
  | S754_zero s' => s' = s /\ e < E /\ 2 * Z.pos m <= 2 ^ (E - e)
  | S754_finite s' m' e' =>
      s' = s /\ E <= e' <= emax - prec /\ Z.pos (digits2_pos m') <= prec /\
      ((E <= e /\ e' = E /\ Z.pos m' = Z.pos m * 2 ^ (e - E)) \/
       (e < E /\ 2 * Z.abs (Z.pos m' * 2 ^ (e' - e) - Z.pos m) <= 2 ^ (E - e)))
  end.
Proof.
  intros E. unfold binary_round, shl_align. fold fexp. fold E.
  pose proof (fexp_ge_emin (Z.pos (digits2_pos m) + e)) as Hemin. fold E in Hemin.
  pose proof (fexp_ge (Z.pos (digits2_pos m) + e)) as Hge. fold E in Hge.
  destruct (E - e) as [|p|d] eqn:Hshift.
  - (* the exponents agree *)
    assert (E = e) as HE by lia.
    unfold binary_round_aux.
    rewrite (shr_fexp_no_shift (Z.pos m) e m eq_refl) by (fold E; lia).
    cbn [shr_m loc_of_shr_record round_nearest_even].
    rewrite (shr_fexp_no_shift (Z.pos m) e m eq_refl) by (fold E; lia).
    cbn [shr_m]. destruct (Z.leb_spec e (emax - prec)); [|split; [reflexivity | lia]].
    split; [reflexivity|]. split; [lia|]. split; [lia|]. left.
    rewrite HE, Z.sub_diag, Z.pow_0_r. lia.
  - (* the value is shifted right and rounded *)
    assert (E = e + Z.pos p) as HE by lia.
    unfold binary_round_aux.
    rewrite (shr_fexp_shift m e p) by (fold E; exact Hshift).
    pose proof (located_iter p (Z.pos m) 0 (Build_shr_record (Z.pos m) false false)
                  ltac:(lia) (located_exact (Z.pos m) ltac:(lia))) as Hloc.
    rewrite Z.add_0_l in Hloc.
    set (mrs1 := SpecFloat.iter_pos shr_1 p (Build_shr_record (Z.pos m) false false)) in *.
    pose proof (round_nearest_even_error (Z.pos m) (Z.pos p) mrs1 Hloc)
      as (Herr & Hm2 & _).
    remember (round_nearest_even (shr_m mrs1) (loc_of_shr_record mrs1)) as m2 eqn:Hm2def.
    clear Hm2def.
    destruct Hloc as (delta & HX & Hdelta & Hm1 & _).
    pose proof (digits2_pos_bounds m) as [_ Hhi].
    assert (0 < 2 ^ Z.pos p) as Hpow by (apply Z.pow_pos_nonneg; lia).
    assert (2 ^ Z.pos (digits2_pos m) <= 2 ^ (Z.pos p + prec)) as Hdig
      by (apply Z.pow_le_mono_r; lia).
    rewrite Z.pow_add_r in Hdig by lia.
    assert (shr_m mrs1 < 2 ^ prec) as Hm1hi by nia.
    rewrite <- HE.
    destruct m2 as [|q|q]; [| |lia].
    + (* rounded to zero *)
      unfold shr_fexp, shr. cbn [Zdigits2 shr_record_of_loc]. fold fexp.
      pose proof (fexp_small 0 E Hemin ltac:(lia)) as Hsmall. rewrite Z.add_0_l in Hsmall.
      rewrite Z.add_0_l.
      destruct (fexp E - E) eqn:Hd; [|exfalso; lia|]; cbn [shr_m];
        (split; [reflexivity|]; split; lia).
    + destruct (Z_lt_le_dec (Z.pos q) (2 ^ prec)) as [Hlt|Hcarry].
      * (* no carry *)
        pose proof (digits2_pos_le q prec Hlt) as Hdq.
        rewrite (shr_fexp_no_shift (Z.pos q) E q eq_refl)
          by (apply fexp_small; lia).
        cbn [shr_m]. destruct (Z.leb_spec E (emax - prec)); [|split; [reflexivity | lia]].
        split; [reflexivity|]. split; [lia|]. split; [exact Hdq|]. right.
        split; [lia|].
        replace (E - e) with (Z.pos p) by lia. exact Herr.
      * (* carry into the next binade *)
        assert (Z.pos q = 2 ^ prec) as Hq2 by lia.
        assert (Z.pos (digits2_pos q) = prec + 1) as Hdq.
        { apply digits2_pos_unique. rewrite Hq2.
          replace (prec + 1 - 1) with prec by lia.
          split; [lia|]. apply Z.pow_lt_mono_r; lia. }
        assert (fexp (Z.pos (digits2_pos q) + E) - E = 1) as Hone.
        { rewrite Hdq. unfold fexp, SpecFloat.fexp. fold emin. lia. }
        unfold shr_fexp, shr. cbn [Zdigits2 shr_record_of_loc]. fold fexp.
        rewrite Hone. cbn [SpecFloat.iter_pos].
        assert (2 ^ prec = 2 * 2 ^ (prec - 1)) as Hhalf.
        { replace prec with (Z.succ (prec - 1)) at 1 by lia.
          apply Z.pow_succ_r. lia. }
        assert (0 < 2 ^ (prec - 1)) by (apply Z.pow_pos_nonneg; lia).
        destruct q as [q'|q'|]; [rewrite Pos2Z.inj_xI in Hq2; lia| |lia].
        cbn [shr_1 shr_m]. rewrite Pos2Z.inj_xO in Hq2.
        destruct (Z.leb_spec (E + 1) (emax - prec)); [|split; [reflexivity | lia]].
        split; [reflexivity|]. split; [lia|].
        split; [apply digits2_pos_le; lia|]. right. split; [lia|].
        replace (E + 1 - e) with (Z.succ (Z.pos p)) by lia.
        rewrite Z.pow_succ_r by lia.
        replace (Z.pos q' * (2 * 2 ^ Z.pos p)) with (Z.pos q'~0 * 2 ^ Z.pos p)
          by (rewrite Pos2Z.inj_xO; ring).
        exact Herr.
  - (* the value is shifted left *)
    assert (Z.pos (Pos.iter xO m d) = Z.pos m * 2 ^ (e - E)) as Hmz
      by (rewrite Pos_iter_xO; f_equal; f_equal; lia).
    assert (Z.pos (digits2_pos (Pos.iter xO m d)) = Z.pos (digits2_pos m) + (e - E))
      as Hdig by (apply digits2_pos_shift; [lia | exact Hmz]).
    assert (fexp (Z.pos (digits2_pos (Pos.iter xO m d)) + E) <= E) as Hno.
    { rewrite Hdig. replace (Z.pos (digits2_pos m) + (e - E) + E)
        with (Z.pos (digits2_pos m) + e) by lia. fold E. lia. }
    unfold binary_round_aux.
    rewrite (shr_fexp_no_shift _ E _ eq_refl) by exact Hno.
    cbn [shr_m loc_of_shr_record round_nearest_even].
    rewrite (shr_fexp_no_shift _ E _ eq_refl) by exact Hno.
    cbn [shr_m]. destruct (Z.leb_spec E (emax - prec)); [|split; [reflexivity | lia]].
    split; [reflexivity|]. split; [lia|]. split; [lia|]. left.
    split; [lia|]. split; [reflexivity | exact Hmz].
Qed.

End Rounding.


(** ** Single precision as an approximation *)

Section SinglePrecision.

Local Open Scope R_scope.

Lemma IZR_pow2 (k : Z) : (0 <= k)%Z -> IZR (2 ^ k) = powerRZ 2 k.
Proof.
  intros Hk. destruct k as [|p|p]; [reflexivity| |lia].
  change (2 ^ Z.pos p)%Z with (Z.pow_pos 2 p). apply Zpower_pos_powerRZ.
Qed.

Lemma powerRZ_2_pos (k : Z) : 0 < powerRZ 2 k.
Proof. apply powerRZ_lt. lra. Qed.

Lemma powerRZ_2_add (a b : Z) : powerRZ 2 (a + b) = powerRZ 2 a * powerRZ 2 b.
Proof. apply powerRZ_add. lra. Qed.

Lemma powerRZ_2_le (a b : Z) : (a <= b)%Z -> powerRZ 2 a <= powerRZ 2 b.
Proof.
  intros Hab. replace b with (a + (b - a))%Z by lia.
  rewrite powerRZ_2_add, <- (IZR_pow2 (b - a)) by lia.
  assert (1 <= 2 ^ (b - a))%Z as Hone
    by (pose proof (Z.pow_pos_nonneg 2 (b - a)); lia).
  apply IZR_le in Hone. pose proof (powerRZ_2_pos a). nra.
Qed.

(** A value scaled exactly to a lower exponent stands for the same number. *)
Lemma SF2R_shift (s : bool) (m m' : positive) (e e' : Z) :
  (e' <= e)%Z -> (Z.pos m' = Z.pos m * 2 ^ (e - e'))%Z ->
  SF2R (S754_finite s m' e') = SF2R (S754_finite s m e).
Proof.
  intros Hle Hm. unfold SF2R. rewrite Hm, mult_IZR, IZR_pow2 by lia.
  replace e with ((e - e') + e')%Z at 2 by lia. rewrite powerRZ_2_add. ring.
Qed.

Lemma single_precision_round_trip_error (s : bool) (m : positive) (e : Z) :
  (-125 <= Z.pos (digits2_pos m) + e <= 127)%Z ->
  Rabs (SF2R (float_to_double (double_to_float (S754_finite s m e))) -
        SF2R (S754_finite s m e)) <=
  powerRZ 2 (-24) * Rabs (SF2R (S754_finite s m e)).
Proof.
  intros Hrange.
  unfold float_to_double, double_to_float, prec32, emax32, prec64, emax64.
  cbn [round_to].
  pose proof (binary_round_spec 24 128 ltac:(lia) s m e) as Hf. cbv zeta in Hf.
  unfold fexp, emin in Hf.
  replace (Z.max (Z.pos (digits2_pos m) + e - 24) (3 - 128 - 24))
    with (Z.pos (digits2_pos m) + e - 24)%Z in Hf by lia.
  pose proof (digits2_pos_bounds m) as [Hlo Hhi].
  destruct (binary_round 24 128 s m e) as [s'|s'| |s' m' e'].
  - (* a value in range does not round to zero *)
    exfalso. destruct Hf as (_ & Hlt & Hsmall).
    replace (Z.pos (digits2_pos m) + e - 24 - e)%Z
      with (Z.pos (digits2_pos m) - 24)%Z in Hsmall by lia.
    assert (2 ^ (Z.pos (digits2_pos m) - 24) <= 2 ^ (Z.pos (digits2_pos m) - 1))%Z
      by (apply Z.pow_le_mono_r; lia).
    assert (0 < 2 ^ (Z.pos (digits2_pos m) - 1))%Z by (apply Z.pow_pos_nonneg; lia).
    lia.
  - exfalso. lia.
  - contradiction.
  - destruct Hf as (-> & He' & Hdig' & Hcases). cbn [round_to].
    (* the promotion is exact *)
    pose proof (binary_round_spec 53 1024 ltac:(lia) s m' e') as Hd. cbv zeta in Hd.
    unfold fexp, emin in Hd.
    set (E64 := Z.max (Z.pos (digits2_pos m') + e' - 53) (3 - 1024 - 53)) in *.
    assert (E64 <= e')%Z as HE64 by lia.
    destruct (binary_round 53 1024 s m' e') as [s''|s''| |s'' m'' e''];
      [exfalso; lia | exfalso; lia | contradiction |].
    destruct Hd as (-> & _ & _ & [(_ & -> & Hm'')|(Hlt & _)]); [|exfalso; lia].
    rewrite (SF2R_shift s m' m'' e' E64 HE64 Hm'').
    (* the error of the rounding *)
    assert (powerRZ 2 (-24) * Rabs (SF2R (S754_finite s m e)) =
            powerRZ 2 (-24) * (IZR (Z.pos m) * powerRZ 2 e)) as ->.
    { f_equal. unfold SF2R. pose proof (powerRZ_2_pos e).
      assert (0 < IZR (Z.pos m)) by (apply IZR_lt; lia).
      destruct s; rewrite Rabs_mult, Rabs_mult;
        rewrite ?Rabs_Ropp, ?Rabs_R1, (Rabs_pos_eq (IZR (Z.pos m))),
          (Rabs_pos_eq (powerRZ 2 e)) by lra; [|ring].
      replace (-1) with (- (1)) by ring. rewrite Rabs_Ropp, Rabs_R1. ring. }
    destruct Hcases as [(Hle & -> & Hm')|(Hlt & Herr)].
    + rewrite (SF2R_shift s m m' e _ Hle Hm').
      replace (SF2R (S754_finite s m e) - SF2R (S754_finite s m e)) with 0 by ring.
      rewrite Rabs_R0. pose proof (powerRZ_2_pos (-24)). pose proof (powerRZ_2_pos e).
      assert (0 < IZR (Z.pos m)) by (apply IZR_lt; lia).
      apply Rmult_le_pos; [lra | apply Rmult_le_pos; lra].
    + set (d := Z.pos (digits2_pos m)) in *.
      set (D := (Z.pos m' * 2 ^ (e' - e) - Z.pos m)%Z) in *.
      replace (d + e - 24 - e)%Z with (d - 24)%Z in Herr by lia.
      assert (2 * IZR (Z.abs D) <= powerRZ 2 (d - 24)) as HD.
      { rewrite <- IZR_pow2 by lia. rewrite <- mult_IZR. apply IZR_le. exact Herr. }
      assert (powerRZ 2 (d - 1) <= IZR (Z.pos m)) as Hm.
      { rewrite <- IZR_pow2 by lia. apply IZR_le. exact Hlo. }
      assert (SF2R (S754_finite s m' e') - SF2R (S754_finite s m e) =
              (if s then -1 else 1) * powerRZ 2 e * IZR D) as ->.
      { unfold SF2R, D. rewrite minus_IZR, mult_IZR, IZR_pow2 by lia.
        replace e' with (e + (e' - e))%Z at 1 by lia. rewrite powerRZ_2_add. ring. }
      assert (Rabs ((if s then -1 else 1) * powerRZ 2 e * IZR D) =
              powerRZ 2 e * IZR (Z.abs D)) as ->.
      { rewrite !Rabs_mult, <- abs_IZR, (Rabs_pos_eq (powerRZ 2 e))
          by (apply Rlt_le, powerRZ_2_pos).
        destruct s; [|rewrite Rabs_R1; ring].
        replace (-1) with (- (1)) by ring. rewrite Rabs_Ropp, Rabs_R1. ring. }
      replace (d - 24)%Z with (-24 + (1 + (d - 1)))%Z in HD by lia.
      rewrite !powerRZ_2_add in HD. change (powerRZ 2 1) with (2 * 1) in HD.
      pose proof (powerRZ_2_pos (-24)) as H24. pose proof (powerRZ_2_pos e) as He.
      pose proof (powerRZ_2_pos (d - 1)) as Hd1.
      assert (IZR (Z.abs D) <= powerRZ 2 (-24) * IZR (Z.pos m)) as Hfinal by nra.
      replace (powerRZ 2 (-24) * (IZR (Z.pos m) * powerRZ 2 e))
        with (powerRZ 2 e * (powerRZ 2 (-24) * IZR (Z.pos m))) by ring.
      apply Rmult_le_compat_l; [lra | exact Hfinal].
Qed.

Lemma Rabs_SF2R_finite (s : bool) (m : positive) (e : Z) :
  Rabs (SF2R (S754_finite s m e)) = IZR (Z.pos m) * powerRZ 2 e.
Proof.
  unfold SF2R. pose proof (powerRZ_2_pos e).
  assert (0 < IZR (Z.pos m)) by (apply IZR_lt; lia).
  rewrite !Rabs_mult, (Rabs_pos_eq (IZR (Z.pos m))), (Rabs_pos_eq (powerRZ 2 e)) by lra.
  destruct s; [|rewrite Rabs_R1; ring].
  replace (-1) with (- (1)) by ring. rewrite Rabs_Ropp, Rabs_R1. ring.
Qed.

Lemma powerRZ_2_lt_inv (a b : Z) : powerRZ 2 a < powerRZ 2 b -> (a < b)%Z.
Proof.
  intros Hlt. destruct (Z_lt_le_dec a b) as [|Hle]; [assumption|].
  apply powerRZ_2_le in Hle. lra.
Qed.

(** A double between 2^-126 and 2^127 in magnitude, stored in a [float]
    and read back, is off by at most 2^-24 of its magnitude. *)
Lemma double_to_float_error (x : double) :
  powerRZ 2 (-126) <= Rabs (SF2R x) < powerRZ 2 127 ->
  Rabs (SF2R (float_to_double (double_to_float x)) - SF2R x) <=
  powerRZ 2 (-24) * Rabs (SF2R x).
Proof.
  intros [Hlo Hhi]. pose proof (powerRZ_2_pos (-126)) as Hpos.
  destruct x as [sx|sx| |s m e];
    try (cbn [SF2R] in Hlo; rewrite Rabs_R0 in Hlo; lra).
  apply (single_precision_round_trip_error s m e).
  rewrite Rabs_SF2R_finite in Hlo, Hhi.
  pose proof (digits2_pos_bounds m) as [Hmlo Hmhi].
  set (d := Z.pos (digits2_pos m)) in *.
  apply IZR_le in Hmlo. apply IZR_lt in Hmhi.
  rewrite IZR_pow2 in Hmlo, Hmhi by lia.
  pose proof (powerRZ_2_pos e) as He.
  assert (powerRZ 2 (-126) < powerRZ 2 (d + e)) as H1
    by (rewrite powerRZ_2_add; nra).
  assert (powerRZ 2 (d - 1 + e) < powerRZ 2 127) as H2
    by (rewrite powerRZ_2_add; nra).
  apply powerRZ_2_lt_inv in H1, H2. lia.
Qed.

(** Below the normal range of [float] the representable values are 2^-149
    apart: the value read back is within 2^-150 of the double, and is 0.0
    for a double of at most that magnitude. *)
Lemma single_precision_round_trip_underflow (s : bool) (m : positive) (e : Z) :
  (Z.pos (digits2_pos m) + e <= -125)%Z ->
  Rabs (SF2R (float_to_double (double_to_float (S754_finite s m e))) -
        SF2R (S754_finite s m e)) <= powerRZ 2 (-150).
Proof.
  intros Hrange.
  unfold float_to_double, double_to_float, prec32, emax32, prec64, emax64.
  cbn [round_to].
  pose proof (binary_round_spec 24 128 ltac:(lia) s m e) as Hf. cbv zeta in Hf.
  unfold fexp, emin in Hf.
  replace (Z.max (Z.pos (digits2_pos m) + e - 24) (3 - 128 - 24))
    with (-149)%Z in Hf by lia.
  pose proof (powerRZ_2_pos e) as He.
  assert (powerRZ 2 (-149 - e) * powerRZ 2 e = 2 * powerRZ 2 (-150)) as Hsplit.
  { rewrite <- powerRZ_2_add. replace (-149 - e + e)%Z with (1 + -150)%Z by lia.
    rewrite powerRZ_2_add. change (powerRZ 2 1) with (2 * 1). ring. }
  destruct (binary_round 24 128 s m e) as [s'|s'| |s' m' e'].
  - (* flushed to zero: the double is at most 2^-150 *)
    destruct Hf as (_ & Hlt & Hsmall). cbn [round_to].
    replace (SF2R (S754_zero s') - SF2R (S754_finite s m e))
      with (- SF2R (S754_finite s m e)) by (cbn [SF2R]; ring).
    rewrite Rabs_Ropp, Rabs_SF2R_finite.
    assert (2 * IZR (Z.pos m) <= powerRZ 2 (-149 - e)) as Hm.
    { rewrite <- IZR_pow2 by lia. rewrite <- mult_IZR. apply IZR_le. exact Hsmall. }
    nra.
  - exfalso. lia.
  - contradiction.
  - destruct Hf as (-> & He' & Hdig' & Hcases). cbn [round_to].
    (* the promotion is exact *)
    pose proof (binary_round_spec 53 1024 ltac:(lia) s m' e') as Hd. cbv zeta in Hd.
    unfold fexp, emin in Hd.
    set (E64 := Z.max (Z.pos (digits2_pos m') + e' - 53) (3 - 1024 - 53)) in *.
    assert (E64 <= e')%Z as HE64 by lia.
    destruct (binary_round 53 1024 s m' e') as [s''|s''| |s'' m'' e''];
      [exfalso; lia | exfalso; lia | contradiction |].
    destruct Hd as (-> & _ & _ & [(_ & -> & Hm'')|(Hlt & _)]); [|exfalso; lia].
    rewrite (SF2R_shift s m' m'' e' E64 HE64 Hm'').
    pose proof (powerRZ_2_pos (-150)) as H150.
    destruct Hcases as [(Hle & -> & Hm')|(Hlt & Herr)].
    + rewrite (SF2R_shift s m m' e _ Hle Hm').
      replace (SF2R (S754_finite s m e) - SF2R (S754_finite s m e)) with 0 by ring.
      rewrite Rabs_R0. lra.
    + set (D := (Z.pos m' * 2 ^ (e' - e) - Z.pos m)%Z) in *.
      assert (2 * IZR (Z.abs D) <= powerRZ 2 (-149 - e)) as HD.
      { rewrite <- IZR_pow2 by lia. rewrite <- mult_IZR. apply IZR_le. exact Herr. }
      assert (SF2R (S754_finite s m' e') - SF2R (S754_finite s m e) =
              (if s then -1 else 1) * powerRZ 2 e * IZR D) as ->.
      { unfold SF2R, D. rewrite minus_IZR, mult_IZR, IZR_pow2 by lia.
        replace e' with (e + (e' - e))%Z at 1 by lia. rewrite powerRZ_2_add. ring. }
      assert (Rabs ((if s then -1 else 1) * powerRZ 2 e * IZR D) =
              powerRZ 2 e * IZR (Z.abs D)) as ->.
      { rewrite !Rabs_mult, <- abs_IZR, (Rabs_pos_eq (powerRZ 2 e))
          by (apply Rlt_le, powerRZ_2_pos).
        destruct s; [|rewrite Rabs_R1; ring].
        replace (-1) with (- (1)) by ring. rewrite Rabs_Ropp, Rabs_R1. ring. }
      assert (0 <= IZR (Z.abs D)) by (apply IZR_le; lia).
      nra.
Qed.

(** A double below 2^-126 in magnitude, stored in a [float] and read back,
    is off by at most 2^-150. *)
Lemma double_to_float_underflow (x : double) :
  Rabs (SF2R x) < powerRZ 2 (-126) ->
  Rabs (SF2R (float_to_double (double_to_float x)) - SF2R x) <= powerRZ 2 (-150).
Proof.
  intros Hhi. pose proof (powerRZ_2_pos (-150)) as Hpos.
  destruct x as [sx|sx| |s m e];
    try (cbn [float_to_double double_to_float round_to SF2R];
         rewrite Rminus_diag, Rabs_R0; lra).
  apply (single_precision_round_trip_underflow s m e).
  rewrite Rabs_SF2R_finite in Hhi.
  pose proof (digits2_pos_bounds m) as [Hmlo _].
  set (d := Z.pos (digits2_pos m)) in *.
  apply IZR_le in Hmlo. rewrite IZR_pow2 in Hmlo by lia.
  pose proof (powerRZ_2_pos e) as He.
  assert (powerRZ 2 (d - 1 + e) < powerRZ 2 (-126)) as H2
    by (rewrite powerRZ_2_add; nra).
  apply powerRZ_2_lt_inv in H2. lia.
Qed.

End SinglePrecision.

(** ** Scale to a single b-value *)

Lemma single_bvalue_loop (maxB : double) (vectors : list Vec3) (n k : nat)
    (scaled : list Vec3) (bValues : list double) :
  length vectors = (k + n)%nat -> length bValues = (k + n)%nat ->
  for_loop n k (single_bvalue_body maxB vectors) (scaled, bValues) =
  Done (scaled ++ zip_with (fun v b => scale_vector v (scaleFactor maxB b))
                    (drop k vectors) (drop k bValues),
        take k bValues ++ replicate n maxB).
Proof.
  revert k scaled bValues. induction n as [|n IH]; intros k scaled bValues Hv Hb.
  - simpl. rewrite !drop_ge, take_ge by lia. simpl. rewrite !app_nil_r. reflexivity.
  - simpl.
    destruct (lookup_lt_is_Some_2 bValues k ltac:(lia)) as [b Hbk].
    destruct (lookup_lt_is_Some_2 vectors k ltac:(lia)) as [v Hvk].
    unfold single_bvalue_body at 1. rewrite Hbk, Hvk. simpl.
    rewrite IH by (rewrite ?length_insert; lia).
    rewrite (drop_S vectors v k Hvk), (drop_S bValues b k Hbk). simpl.
    rewrite drop_insert_lt by lia.
    rewrite (take_S_r (<[k:=maxB]> bValues) k maxB)
      by (apply list_lookup_insert_eq; lia).
    rewrite take_insert_ge by lia.
    rewrite <- !app_assoc. reflexivity.
Qed.

Lemma ConvertToSingleBValue_result (c : DWIConverter) :
  length (m_BValues c) = length (m_DiffusionVectors c) ->
  ConvertToSingleBValueScaledDiffusionVectors c =
  Done (set_DiffusionVectors
          (set_BValues c (replicate (length (m_DiffusionVectors c)) (GetMaxBValue c)))
          (zip_with (fun v b => scale_vector v (scaleFactor (GetMaxBValue c) b))
             (m_DiffusionVectors c) (m_BValues c))).
Proof.
  intros Hlen. unfold ConvertToSingleBValueScaledDiffusionVectors.
  rewrite single_bvalue_loop by (simpl; lia). reflexivity.
Qed.

(** C1 (amended). Scale-to-single-b-value: with maxB the maximum of the
    b-values (an upper bound of all of them, and one of them unless it is
    the initial 0.0), every component of vector k is multiplied by the scale
    factor as the [float] local holds it: 0 when maxB is 0, otherwise
    sqrt(bValues[k] / maxB) rounded to single precision and promoted back.
    The factor held is within 2^-24 of the square root's magnitude when
    that magnitude is between 2^-126 and 2^127, and within 2^-150 of the
    square root when it is smaller. No vector is renormalised, every
    b-value becomes maxB and nothing else in the converter changes. *)
Theorem ConvertToSingleBValueScaledDiffusionVectors_spec (c : DWIConverter) :
  length (m_BValues c) = length (m_DiffusionVectors c) ->
  let maxB := GetMaxBValue c in
  exists c',
    ConvertToSingleBValueScaledDiffusionVectors c = Done c' /\
    same_volume_state c c' /\
    length (m_DiffusionVectors c') = length (m_DiffusionVectors c) /\
    length (m_BValues c') = length (m_BValues c) /\
    (forall k x y z b,
        m_DiffusionVectors c !! k = Some (x, y, z) -> m_BValues c !! k = Some b ->
        (maxB = d0 ->
         m_DiffusionVectors c' !! k =
         Some (dmul x (float_to_double f0), dmul y (float_to_double f0),
               dmul z (float_to_double f0))) /\
        (maxB <> d0 ->
         let held := float_to_double (double_to_float (dsqrt (ddiv b maxB))) in
         m_DiffusionVectors c' !! k = Some (dmul x held, dmul y held, dmul z held)) /\
        m_BValues c' !! k = Some maxB) /\
    (forall b,
        let exact := dsqrt (ddiv b maxB) in
        let held := float_to_double (double_to_float exact) in
        ((powerRZ 2 (-126) <= Rabs (SF2R exact) < powerRZ 2 127)%R ->
         (Rabs (SF2R held - SF2R exact) <= powerRZ 2 (-24) * Rabs (SF2R exact))%R) /\
        ((Rabs (SF2R exact) < powerRZ 2 (-126))%R ->
         (Rabs (SF2R held - SF2R exact) <= powerRZ 2 (-150))%R)) /\
    (forall b, b ∈ m_BValues c' -> b = maxB) /\
    (forall b, b ∈ m_BValues c -> dgt b maxB = false) /\
    (maxB = d0 \/ maxB ∈ m_BValues c).
Proof.
  intros Hlen maxB. eexists. split; [apply ConvertToSingleBValue_result, Hlen|].
  simpl. split; [repeat split|].
  split; [rewrite length_zip_with_l_eq; [reflexivity | lia]|].
  split; [rewrite length_replicate; lia|].
  split; [|split; [|split; [|split]]].
  - intros k x y z b Hxyz Hb.
    assert (exists v : Vec3, v = (x, y, z) /\ m_DiffusionVectors c !! k = Some v)
      as (v & Hv_eq & Hv) by (eexists; split; [reflexivity | exact Hxyz]).
    destruct (scaleFactor_cases (m_BValues c) b) as [Hzero Hpos].
    fold (GetMaxBValue c) in Hzero, Hpos. fold maxB in Hzero, Hpos.
    split; [|split].
    + intros Hz. rewrite lookup_zip_with, Hv, Hb, Hv_eq. simpl.
      fold maxB. rewrite (Hzero Hz). reflexivity.
    + intros Hnz. rewrite lookup_zip_with, Hv, Hb, Hv_eq. simpl.
      fold maxB. rewrite (Hpos Hnz). reflexivity.
    + apply lookup_replicate_2. apply lookup_lt_Some in Hv. exact Hv.
  - intros b. split.
    + intros Hrange. apply double_to_float_error, Hrange.
    + intros Hrange. apply double_to_float_underflow, Hrange.
  - intros b Hb. apply elem_of_replicate_inv in Hb. exact Hb.
  - intros b Hb. apply ComputeMaxBvalue_from_upper, Hb.
  - apply ComputeMaxBvalue_from_attained.
Qed.

Lemma ConvertToSingleBValueScaledDiffusionVectors_witness :
  let c := sample_converter bvalues_two_shells Mat3_identity in
  length (m_BValues c) = length (m_DiffusionVectors c) /\
  GetMaxBValue c = dz 1000 /\
  exists c',
    ConvertToSingleBValueScaledDiffusionVectors c = Done c' /\
    same_volume_state c c' /\
    m_BValues c !! 1%nat = Some (dz 500) /\
    m_DiffusionVectors c !! 1%nat = Some (d1, d0, d0) /\
    m_DiffusionVectors c' !! 1%nat = Some (sqrt_half_held, d0, d0) /\
    m_DiffusionVectors c !! 2%nat = Some (d0, d1, d0) /\
    m_DiffusionVectors c' !! 2%nat = Some (d0, d1, d0) /\
    (forall k v, m_DiffusionVectors c !! k = Some v ->
                 m_BValues c' !! k = Some (dz 1000)) /\
    (forall b, b ∈ m_BValues c' -> b = dz 1000) /\
    (forall b, b ∈ m_BValues c -> dgt b (dz 1000) = false) /\
    dz 1000 ∈ m_BValues c.
Proof.
  intros c.
  assert (length (m_BValues c) = length (m_DiffusionVectors c)) as Hlen by reflexivity.
  assert (GetMaxBValue c = dz 1000) as Hmax by (vm_compute; reflexivity).
  split; [exact Hlen|]. split; [exact Hmax|].
  destruct (ConvertToSingleBValueScaledDiffusionVectors_spec c Hlen)
    as (c' & Hrun & Hsame & _ & _ & Hvectors & _ & Hall & Hupper & Hin).
  rewrite Hmax in Hvectors, Hall, Hupper, Hin.
  assert (dz 1000 <> d0) as Hnz by discriminate.
  exists c'. split; [exact Hrun|]. split; [exact Hsame|].
  split; [reflexivity|]. split; [reflexivity|].
  split.
  { destruct (Hvectors 1%nat d1 d0 d0 (dz 500) eq_refl eq_refl) as (_ & Hscaled & _).
    etrans; [exact (Hscaled Hnz)|]. vm_compute. reflexivity. }
  split; [reflexivity|].
  split.
  { destruct (Hvectors 2%nat d0 d1 d0 (dz 1000) eq_refl eq_refl) as (_ & Hscaled & _).
    etrans; [exact (Hscaled Hnz)|]. vm_compute. reflexivity. }
  split.
  { intros k [[x y] z] Hv.
    destruct (lookup_lt_is_Some_2 (m_BValues c) k) as [b Hb].
    { rewrite Hlen. apply lookup_lt_Some in Hv. exact Hv. }
    destruct (Hvectors k x y z b Hv Hb) as (_ & _ & Hmaxb). exact Hmaxb. }
  split; [exact Hall|]. split; [exact Hupper|].
  destruct Hin as [Hzero|Hin]; [discriminate Hzero | exact Hin].
Defined.

(** The factor is not the double that [sqrt] returned. In the two-shell
    table the vector (1, 0, 0) of b-value 500 becomes
    (6369051563524096 * 2^-53, 0, 0), whereas its product with
    sqrt(500 / 1000) is (6369051672525773 * 2^-53, 0, 0). For a b-value of
    2^-400 against a maximum of 1.0 the square root is 2^-200 and the
    factor held is 0. *)
Lemma ConvertToSingleBValueScaledDiffusionVectors_factor_is_not_the_double :
  let c := sample_converter bvalues_two_shells Mat3_identity in
  let exact := dsqrt (ddiv (dz 500) (dz 1000)) in
  GetMaxBValue c = dz 1000 /\
  m_BValues c !! 1%nat = Some (dz 500) /\
  m_DiffusionVectors c !! 1%nat = Some (d1, d0, d0) /\
  (dmul d1 exact, dmul d0 exact, dmul d0 exact) =
  (S754_finite false 6369051672525773 (-53), d0, d0) /\
  (exists c',
      ConvertToSingleBValueScaledDiffusionVectors c = Done c' /\
      m_DiffusionVectors c' !! 1%nat =
      Some (S754_finite false 6369051563524096 (-53), d0, d0) /\
      m_DiffusionVectors c' !! 1%nat <> Some (dmul d1 exact, dmul d0 exact, dmul d0 exact)) /\
  dsqrt (ddiv tiny_bvalue d1) = S754_finite false 4503599627370496 (-252) /\
  scaleFactor d1 tiny_bvalue = f0.
Proof.
  intros c exact.
  split; [vm_compute; reflexivity|]. split; [reflexivity|]. split; [reflexivity|].
  split; [vm_compute; reflexivity|].
  split; [|split; vm_compute; reflexivity].
  eexists. split; [vm_compute; reflexivity|].
  split; [vm_compute; reflexivity|].
  vm_compute. discriminate.
Qed.

(** The end-to-end example of the design document: with b-values
    0, 1000, ..., 1000 every b-value becomes 1000, the baseline vector is
    scaled by 0 and the weighted ones by 1. *)
Lemma single_shell_example :
  let c := sample_converter bvalues_single_shell Mat3_identity in
  ConvertToSingleBValueScaledDiffusionVectors c =
  Done (set_DiffusionVectors (set_BValues c (replicate 7 (dz 1000))) sample_vectors).
Proof. vm_compute. reflexivity. Qed.

(** Two shells: the vectors of the 500 shell are scaled by sqrt(0.5) as a
    [float] holds it, 11863283 * 2^-24, which is not the double
    6369051672525773 * 2^-53 that [sqrt] returned. *)
Lemma two_shells_example :
  let c := sample_converter bvalues_two_shells Mat3_identity in
  exists c',
    ConvertToSingleBValueScaledDiffusionVectors c = Done c' /\
    m_BValues c' = replicate 7 (dz 1000) /\
    m_DiffusionVectors c' !! 1%nat =
    Some (S754_finite false 6369051563524096 (-53), d0, d0) /\
    double_to_float (dsqrt (ddiv (dz 500) (dz 1000))) =
    S754_finite false 11863283 (-24) /\
    dsqrt (ddiv (dz 500) (dz 1000)) = S754_finite false 6369051672525773 (-53).
Proof.
  intros c. eexists. split; [vm_compute; reflexivity|].
  repeat split; vm_compute; reflexivity.
Qed.

(** ** Scale to unit vectors with one b-value each *)

Section UnitVectorsProperties.

Variable magnitude : Vec3 -> double.
Variable normalize : Vec3 -> Vec3.
Variable Round : double -> double.

Let bvalue_of (maxB : double) (v : Vec3) : double :=
  unit_bvalue Round maxB (snap_magnitude (magnitude v)).

Lemma multiple_bvalues_loop (maxB : double) (n k : nat)
    (vectors : list Vec3) (bValues : list double) :
  length vectors = (k + n)%nat -> length bValues = (k + n)%nat ->
  for_loop n k (multiple_bvalues_body magnitude normalize Round maxB)
    (vectors, bValues) =
  Done (take k vectors ++ map normalize (drop k vectors),
        take k bValues ++ map (bvalue_of maxB) (drop k vectors)).
Proof.
  revert k vectors bValues.
  induction n as [|n IH]; intros k vectors bValues Hv Hb.
  - simpl. rewrite !drop_ge, !take_ge by lia. simpl. rewrite !app_nil_r. reflexivity.
  - simpl.
    destruct (lookup_lt_is_Some_2 vectors k ltac:(lia)) as [v Hvk].
    unfold multiple_bvalues_body at 1. rewrite Hvk.
    destruct (decide (k < length bValues)%nat) as [_|Hge]; [|lia]. simpl.
    rewrite IH by (rewrite ?length_insert; lia).
    rewrite (drop_S vectors v k Hvk). simpl.
    rewrite drop_insert_lt by lia.
    rewrite (take_S_r (<[k:=normalize v]> vectors) k (normalize v))
      by (apply list_lookup_insert_eq; lia).
    rewrite (take_S_r (<[k:=_]> bValues) k (bvalue_of maxB v))
      by (apply list_lookup_insert_eq; lia).
    rewrite !take_insert_ge by lia.
    rewrite <- !app_assoc. reflexivity.
Qed.


End UnitVectorsProperties.



(** ** Reshaping between the unwrapped 3D volume and the 4D volume *)

Lemma wrap64_small (z : Z) : 0 <= z < 2 ^ 64 -> wrap64 z = z.
Proof. intros H. unfold wrap64. apply Z.mod_small, H. Qed.

Lemma to_int_small (z : Z) : 0 <= z < 2 ^ 31 -> to_int z = z.
Proof.
  intros H. unfold to_int. rewrite Z.mod_small by lia.
  destruct (decide (z < 2 ^ 31)); [reflexivity | lia].
Qed.

Lemma NumberOfPixels3_mod (s0 s1 s2 : Z) :
  NumberOfPixels3 (s0, s1, s2) = (s0 * s1 * s2) mod 2 ^ 64.
Proof.
  unfold NumberOfPixels3, wrap64. rewrite Z.mul_1_l.
  rewrite (Z.mul_mod_idemp_l s0 s1) by lia.
  rewrite (Z.mul_mod_idemp_l (s0 * s1) s2) by lia. reflexivity.
Qed.

Lemma NumberOfPixels4_mod (s0 s1 s2 s3 : Z) :
  NumberOfPixels4 (s0, s1, s2, s3) = (s0 * s1 * s2 * s3) mod 2 ^ 64.
Proof.
  unfold NumberOfPixels4, wrap64. rewrite Z.mul_1_l.
  rewrite (Z.mul_mod_idemp_l s0 s1) by lia.
  rewrite (Z.mul_mod_idemp_l (s0 * s1) s2) by lia.
  rewrite (Z.mul_mod_idemp_l (s0 * s1 * s2) s3) by lia. reflexivity.
Qed.

(** Copying as many bytes as both buffers hold replaces the destination. *)
Lemma memcpy_whole (src : list Byte.byte) (pixels : Z) :
  0 <= pixels ->
  Z.of_nat (length src) = pixels * sizeof_PixelValueType ->
  memcpy (Allocate pixels) src (pixels * sizeof_PixelValueType) = Done src.
Proof.
  intros Hp Hlen. unfold memcpy, Allocate.
  rewrite length_replicate, Z2Nat.id by (unfold sizeof_PixelValueType; lia).
  destruct (decide _) as [_|Hn]; [|lia].
  rewrite <- Hlen, Nat2Z.id, take_ge, drop_ge by (rewrite ?length_replicate; lia).
  rewrite app_nil_r. reflexivity.
Qed.

Lemma direction_4_to_3_to_4 (d : Mat3) : direction_4_to_3 (direction_3_to_4 d) = d.
Proof. destruct d as [[[[? ?] ?] [[? ?] ?]] [[? ?] ?]]. reflexivity. Qed.

Lemma spacing_4_to_3_to_4 (s : Vec3) : spacing_4_to_3 (spacing_3_to_4 s) = s.
Proof. destruct s as [[? ?] ?]. reflexivity. Qed.

Lemma origin_4_to_3_to_4 (o : Vec3) : origin_4_to_3 (origin_3_to_4 o) = o.
Proof. destruct o as [[? ?] ?]. reflexivity. Qed.

Lemma stamp_xform_codes_idemp (dict : gmap string string) :
  stamp_xform_codes (stamp_xform_codes dict) = stamp_xform_codes dict.
Proof.
  unfold stamp_xform_codes. apply map_eq. intros key.
  rewrite !lookup_insert. repeat case_decide; reflexivity.
Qed.

(** What [ThreeDToFourDImage] does for a volume count that is a positive
    [int]: the quotient test, then the copy. *)
Lemma ThreeDToFourDImage_unfold (c : DWIConverter) (img : Image3D)
    (cols rows totalSlices : Z) :
  size3 img = (cols, rows, totalSlices) ->
  allocated3 img ->
  0 < m_NVolume c < 2 ^ 31 ->
  ThreeDToFourDImage c img =
  if decide (totalSlices mod m_NVolume c = 0)
  then Done {| size4 := (cols, rows, totalSlices / m_NVolume c, m_NVolume c);
               direction4 := direction_3_to_4 (direction3 img);
               spacing4 := spacing_3_to_4 (spacing3 img);
               origin4 := origin_3_to_4 (origin3 img);
               meta4 := stamp_xform_codes (meta3 img);
               buffer4 := buffer3 img |}
  else Throw (SlicesNotDivisible totalSlices (m_NVolume c)
                (totalSlices mod m_NVolume c)).
Proof.
  intros Hsize Halloc Hnv. unfold allocated3 in Halloc. rewrite Hsize in Halloc.
  destruct Halloc as (H0 & H1 & H2 & Hbytes & Hlen).
  unfold ThreeDToFourDImage, GetNVolume. rewrite Hsize.
  rewrite to_int_small by lia. rewrite (wrap64_small (m_NVolume c)) by lia.
  destruct (decide (m_NVolume c = 0)) as [?|_]; [lia|].
  set (nv := m_NVolume c) in *.
  pose proof (Z.div_mod totalSlices nv ltac:(lia)) as Hdm.
  pose proof (Z.mod_pos_bound totalSlices nv ltac:(lia)) as Hmod.
  assert (0 <= totalSlices / nv) as Hq by (apply Z.div_pos; lia).
  rewrite (wrap64_small (totalSlices / nv * nv)) by nia.
  destruct (decide (totalSlices / nv * nv <> totalSlices)) as [Hne|Heq];
    destruct (decide (totalSlices mod nv = 0)) as [Hz|Hnz]; try lia.
  - reflexivity.
  - assert (totalSlices / nv * nv = totalSlices) as Hexact by lia.
    rewrite NumberOfPixels4_mod.
    replace (cols * rows * (totalSlices / nv) * nv) with (cols * rows * totalSlices)
      by (rewrite <- Hexact at 1; ring).
    assert (0 <= cols * rows * totalSlices) as Hnonneg
      by (apply Z.mul_nonneg_nonneg; [apply Z.mul_nonneg_nonneg|]; lia).
    rewrite (Z.mod_small (cols * rows * totalSlices))
      by (unfold sizeof_PixelValueType in Hbytes; lia).
    rewrite wrap64_small by (unfold sizeof_PixelValueType in *; lia).
    rewrite memcpy_whole by assumption.
    reflexivity.
Qed.

(** What [FourDToThreeDImage] does for an allocated volume whose volume
    count is an [int]. *)
Lemma FourDToThreeDImage_unfold (img4D : Image4D) (s0 s1 s2 s3 : Z) :
  size4 img4D = (s0, s1, s2, s3) ->
  allocated4 img4D ->
  s3 < 2 ^ 31 ->
  FourDToThreeDImage img4D =
  Done {| size3 := (s0, s1, wrap64 (s2 * s3));
          direction3 := direction_4_to_3 (direction4 img4D);
          spacing3 := spacing_4_to_3 (spacing4 img4D);
          origin3 := origin_4_to_3 (origin4 img4D);
          meta3 := stamp_xform_codes (meta4 img4D);
          buffer3 := buffer4 img4D |}.
Proof.
  intros Hsize Halloc Hnv. unfold allocated4 in Halloc. rewrite Hsize in Halloc.
  destruct Halloc as (H0 & H1 & H2 & H3 & Hbytes & Hlen).
  unfold FourDToThreeDImage. rewrite Hsize.
  rewrite to_int_small by lia. rewrite (wrap64_small s3) by lia.
  destruct (decide (wrap64 (s2 * s3) <> wrap64 (s2 * s3))) as [Hne|_];
    [contradiction|].
  assert (0 <= s0 * s1 * s2 * s3) as Hnonneg
    by (repeat apply Z.mul_nonneg_nonneg; lia).
  assert (NumberOfPixels3 (s0, s1, wrap64 (s2 * s3)) = s0 * s1 * s2 * s3) as ->.
  { rewrite NumberOfPixels3_mod. unfold wrap64.
    rewrite (Z.mul_mod_idemp_r (s0 * s1) (s2 * s3)) by lia.
    rewrite !Z.mul_assoc. apply Z.mod_small.
    unfold sizeof_PixelValueType in Hbytes. lia. }
  rewrite (wrap64_small (s0 * s1 * s2 * s3 * sizeof_PixelValueType))
    by (unfold sizeof_PixelValueType in *; lia).
  rewrite memcpy_whole by assumption.
  reflexivity.
Qed.

(** The guard of [FourDToThreeDImage] compares a value with itself: the
    call ends in a volume or, if the copy runs past a buffer, undefined. *)
Lemma FourDToThreeDImage_outcomes (img4D : Image4D) :
  (exists img, FourDToThreeDImage img4D = Done img) \/
  FourDToThreeDImage img4D = Undefined.
Proof.
  unfold FourDToThreeDImage.
  destruct (size4 img4D) as [[[s0 s1] s2] s3].
  destruct (decide _) as [Hne|_]; [contradiction|].
  unfold memcpy. destruct (decide (_ /\ _)); simpl; eauto.
Qed.

(** A converter that has loaded nothing has [m_NVolume] 0, and the quotient
    size3D[2]/nVolumes divides by zero. *)
Lemma ThreeDToFourDImage_no_volumes (c : DWIConverter) (img : Image3D) :
  m_NVolume c = 0 -> ThreeDToFourDImage c img = Undefined.
Proof.
  intros Hnv. unfold ThreeDToFourDImage, GetNVolume. rewrite Hnv.
  destruct (size3 img) as [[s0 s1] s2]. reflexivity.
Qed.

Lemma volume_96_96_60_allocated : allocated3 volume_96_96_60.
Proof.
  unfold allocated3, volume_96_96_60. cbn [size3 buffer3].
  rewrite length_replicate, Z2Nat.id by (unfold sizeof_PixelValueType; lia).
  unfold sizeof_PixelValueType. lia.
Qed.

(** C3. For an allocated 3D volume and a volume count that is a positive
    [int], [ThreeDToFourDImage] throws, reporting the slices, the volumes
    and the remainder, when the slice count is not a multiple of the volume
    count; otherwise it returns a 4D volume of size (cols, rows,
    totalSlices/numVolumes, numVolumes) whose first three axes carry the
    direction, spacing and origin of the 3D volume, whose fourth axis has
    identity direction, spacing 1 and origin 0, and whose buffer is the 3D
    buffer. *)
Theorem ThreeDToFourDImage_spec (c : DWIConverter) (img : Image3D)
    (cols rows totalSlices : Z) :
  size3 img = (cols, rows, totalSlices) ->
  allocated3 img ->
  0 < m_NVolume c < 2 ^ 31 ->
  let numVolumes := m_NVolume c in
  (totalSlices mod numVolumes <> 0 ->
   ThreeDToFourDImage c img =
   Throw (SlicesNotDivisible totalSlices numVolumes (totalSlices mod numVolumes))) /\
  (totalSlices mod numVolumes = 0 ->
   exists img4D,
     ThreeDToFourDImage c img = Done img4D /\
     size4 img4D = (cols, rows, totalSlices / numVolumes, numVolumes) /\
     (forall d00 d01 d02 d10 d11 d12 d20 d21 d22,
         direction3 img = ((d00, d01, d02), (d10, d11, d12), (d20, d21, d22)) ->
         direction4 img4D =
         ((d00, d01, d02, d0), (d10, d11, d12, d0), (d20, d21, d22, d0),
          (d0, d0, d0, d1))) /\
     (forall s0 s1 s2,
         spacing3 img = (s0, s1, s2) -> spacing4 img4D = (s0, s1, s2, d1)) /\
     (forall o0 o1 o2,
         origin3 img = (o0, o1, o2) -> origin4 img4D = (o0, o1, o2, d0)) /\
     buffer4 img4D = buffer3 img).
Proof.
  intros Hsize Halloc Hnv numVolumes.
  rewrite (ThreeDToFourDImage_unfold c img cols rows totalSlices Hsize Halloc Hnv).
  fold numVolumes. split.
  - intros Hrem. destruct (decide (totalSlices mod numVolumes = 0)); [contradiction|].
    reflexivity.
  - intros Hdiv. destruct (decide (totalSlices mod numVolumes = 0)); [|contradiction].
    eexists. split; [reflexivity|]. cbn [size4 direction4 spacing4 origin4 buffer4].
    split; [reflexivity|]. split; [|split; [|split]].
    + intros * ->. reflexivity.
    + intros * ->. reflexivity.
    + intros * ->. reflexivity.
    + reflexivity.
Qed.

Lemma ThreeDToFourDImage_witness :
  let c := converter_96_96_60 in
  let img := volume_96_96_60 in
  size3 img = (96, 96, 60) /\
  allocated3 img /\
  0 < m_NVolume c < 2 ^ 31 /\
  exists img4D,
    ThreeDToFourDImage c img = Done img4D /\
    size4 img4D = (96, 96, 12, 5) /\
    direction4 img4D =
    ((d1, d0, d0, d0), (d0, d1, d0, d0), (d0, d0, d1, d0), (d0, d0, d0, d1)) /\
    spacing4 img4D = (d1, d1, dz 2, d1) /\
    origin4 img4D = (d0, d0, d0, d0) /\
    buffer4 img4D = buffer3 img.
Proof.
  intros c img.
  assert (size3 img = (96, 96, 60)) as Hsize by reflexivity.
  assert (0 < m_NVolume c < 2 ^ 31) as Hnv by (cbn; lia).
  split; [exact Hsize|]. split; [exact volume_96_96_60_allocated|].
  split; [exact Hnv|].
  destruct (ThreeDToFourDImage_spec c img 96 96 60 Hsize volume_96_96_60_allocated Hnv)
    as [_ Hdivisible].
  destruct (Hdivisible eq_refl)
    as (img4D & Hrun & Hsize4 & Hdirection & Hspacing & Horigin & Hbuffer).
  exists img4D. split; [exact Hrun|]. split; [exact Hsize4|].
  split; [apply Hdirection; reflexivity|].
  split; [apply Hspacing; reflexivity|].
  split; [apply Horigin; reflexivity | exact Hbuffer].
Defined.

(** C2. Wrapping an allocated 3D volume whose slice count is a multiple of
    the volume count and flattening the result gives back the size, the
    geometry and, byte for byte, the sample buffer; a 96 x 96 x 60 volume
    with 5 volumes wraps to size (96, 96, 12, 5) and flattens to 60 slices
    again. *)
Theorem FourDToThreeD_ThreeDToFourD_round_trip (c : DWIConverter) (img : Image3D)
    (cols rows totalSlices : Z) :
  size3 img = (cols, rows, totalSlices) ->
  allocated3 img ->
  0 < m_NVolume c < 2 ^ 31 ->
  (m_NVolume c | totalSlices) ->
  exists img4D img',
    ThreeDToFourDImage c img = Done img4D /\
    FourDToThreeDImage img4D = Done img' /\
    buffer4 img4D = buffer3 img /\
    buffer3 img' = buffer3 img /\
    size3 img' = size3 img /\
    direction3 img' = direction3 img /\
    spacing3 img' = spacing3 img /\
    origin3 img' = origin3 img /\
    size4 img4D = (cols, rows, totalSlices / m_NVolume c, m_NVolume c) /\
    (cols = 96 -> rows = 96 -> totalSlices = 60 -> m_NVolume c = 5 ->
     size4 img4D = (96, 96, 12, 5) /\ size3 img' = (96, 96, 60)).
Proof.
  intros Hsize Halloc Hnv Hdiv.
  pose proof Halloc as Halloc3. unfold allocated3 in Halloc3.
  rewrite Hsize in Halloc3. destruct Halloc3 as (H0 & H1 & H2 & Hbytes & Hlen).
  set (nv := m_NVolume c) in *.
  assert (totalSlices mod nv = 0) as Hmod by (apply Z.mod_divide; [lia | exact Hdiv]).
  assert (totalSlices / nv * nv = totalSlices) as Hexact.
  { pose proof (Z.div_mod totalSlices nv ltac:(lia)). lia. }
  assert (0 <= totalSlices / nv) as Hq by (apply Z.div_pos; lia).
  rewrite (ThreeDToFourDImage_unfold c img cols rows totalSlices Hsize Halloc Hnv).
  fold nv. destruct (decide (totalSlices mod nv = 0)); [|contradiction].
  eexists. eexists. split; [reflexivity|].
  split.
  { apply (FourDToThreeDImage_unfold _ cols rows (totalSlices / nv) nv);
      [reflexivity | | lia].
    unfold allocated4. cbn [size4 buffer4].
    replace (cols * rows * (totalSlices / nv) * nv) with (cols * rows * totalSlices)
      by (rewrite <- Hexact at 1; ring).
    repeat split; try lia; nia. }
  cbn [size3 size4 buffer3 buffer4 direction3 direction4 spacing3 spacing4
       origin3 origin4].
  rewrite Hexact, (wrap64_small totalSlices) by lia.
  rewrite direction_4_to_3_to_4, spacing_4_to_3_to_4, origin_4_to_3_to_4.
  split; [reflexivity|]. split; [reflexivity|].
  split; [symmetry; exact Hsize|].
  split; [reflexivity|]. split; [reflexivity|]. split; [reflexivity|].
  split; [reflexivity|].
  intros -> -> -> Hfive. rewrite Hfive. split; reflexivity.
Qed.

Lemma FourDToThreeD_ThreeDToFourD_round_trip_witness :
  let c := converter_96_96_60 in
  let img := volume_96_96_60 in
  size3 img = (96, 96, 60) /\
  allocated3 img /\
  0 < m_NVolume c < 2 ^ 31 /\
  (m_NVolume c | 60) /\
  exists img4D img',
    ThreeDToFourDImage c img = Done img4D /\
    FourDToThreeDImage img4D = Done img' /\
    size4 img4D = (96, 96, 12, 5) /\
    size3 img' = (96, 96, 60) /\
    buffer3 img' = buffer3 img.
Proof.
  intros c img.
  assert (size3 img = (96, 96, 60)) as Hsize by reflexivity.
  assert (0 < m_NVolume c < 2 ^ 31) as Hnv by (cbn; lia).
  assert (m_NVolume c | 60) as Hdiv by (exists 12; reflexivity).
  split; [exact Hsize|]. split; [exact volume_96_96_60_allocated|].
  split; [exact Hnv|]. split; [exact Hdiv|].
  destruct (FourDToThreeD_ThreeDToFourD_round_trip c img 96 96 60
              Hsize volume_96_96_60_allocated Hnv Hdiv)
    as (img4D & img' & Hwrap & Hflat & _ & Hbuffer & _ & _ & _ & _ & _ & Hexample).
  destruct (Hexample eq_refl eq_refl eq_refl eq_refl) as [Hsize4 Hsize3].
  exists img4D, img'. split; [exact Hwrap|]. split; [exact Hflat|].
  split; [exact Hsize4|]. split; [exact Hsize3 | exact Hbuffer].
Defined.

(** C10. [FourDToThreeDImage] never throws (so never its non-divisibility
    error) and never exits: its guard compares size4D[2] * nVolumes with the
    slice count computed as that same product. For every allocated 4D
    volume whose volume count is an [int], it returns the flattened volume,
    with the 4D buffer. *)
Theorem FourDToThreeDImage_guard_unreachable (img4D : Image4D) :
  (forall e, FourDToThreeDImage img4D <> Throw e) /\
  (forall code, FourDToThreeDImage img4D <> Exit code) /\
  (forall s0 s1 s2 s3,
      size4 img4D = (s0, s1, s2, s3) -> allocated4 img4D -> s3 < 2 ^ 31 ->
      exists img,
        FourDToThreeDImage img4D = Done img /\
        size3 img = (s0, s1, wrap64 (s2 * s3)) /\
        buffer3 img = buffer4 img4D).
Proof.
  split; [|split].
  - intros e He. destruct (FourDToThreeDImage_outcomes img4D) as [[img H]|H];
      rewrite H in He; discriminate.
  - intros code He. destruct (FourDToThreeDImage_outcomes img4D) as [[img H]|H];
      rewrite H in He; discriminate.
  - intros s0 s1 s2 s3 Hsize Halloc Hnv.
    rewrite (FourDToThreeDImage_unfold img4D s0 s1 s2 s3 Hsize Halloc Hnv).
    eexists. split; [reflexivity|]. split; reflexivity.
Qed.

Lemma sample_volume4D_allocated : allocated4 sample_volume4D.
Proof.
  unfold allocated4, sample_volume4D, sizeof_PixelValueType. cbn [size4 buffer4].
  rewrite length_replicate. lia.
Qed.

Lemma FourDToThreeDImage_guard_unreachable_witness :
  (forall e, FourDToThreeDImage sample_volume4D <> Throw e) /\
  (forall code, FourDToThreeDImage sample_volume4D <> Exit code) /\
  exists img,
    FourDToThreeDImage sample_volume4D = Done img /\
    size3 img = (2, 2, 6) /\
    buffer3 img = buffer4 sample_volume4D.
Proof.
  destruct (FourDToThreeDImage_guard_unreachable sample_volume4D) as (Hthrow & Hexit & Hdone).
  split; [exact Hthrow|]. split; [exact Hexit|].
  apply (Hdone 2 2 3 2); [reflexivity | exact sample_volume4D_allocated | lia].
Defined.

(** ** The NRRD writer *)

Lemma string_app_assoc (a b c : string) : (a +:+ b) +:+ c = a +:+ b +:+ c.
Proof.
  induction a as [|ch a IH]; [reflexivity|].
  change (String ch ((a +:+ b) +:+ c) = String ch (a +:+ b +:+ c)).
  rewrite IH. reflexivity.
Qed.

Lemma concat_strings_app (l1 l2 : list string) :
  concat_strings (l1 ++ l2) = concat_strings l1 +:+ concat_strings l2.
Proof.
  induction l1 as [|s l1 IH]; [reflexivity|].
  change (s +:+ concat_strings (l1 ++ l2) =
          (s +:+ concat_strings l1) +:+ concat_strings l2).
  rewrite IH, string_app_assoc. reflexivity.
Qed.

Lemma concat_strings_elem (l : list string) (x : string) :
  x ∈ l -> exists before after, concat_strings l = before +:+ x +:+ after.
Proof.
  intros Hx. apply list_elem_of_split in Hx as (l1 & l2 & ->).
  exists (concat_strings l1), (concat_strings l2).
  rewrite concat_strings_app. reflexivity.
Qed.

Section SerializersProperties.

Variable DoubleConvert : double -> string.
Variable Mat3_mul : Mat3 -> Mat3 -> Mat3.
Variable GetFilenameName : string -> string.
Variable RawImageWriter_Update :
  string -> Image3D -> World -> World * option ExceptionObject.
Variable ImageFileWriter_Update :
  string -> Image4D -> World -> World * option ExceptionObject.
Variable WriteBValues : list double -> string -> World -> World * exit_status.
Variable WriteBVectors : list Vec3 -> string -> World -> World * exit_status.
Variable show_exception : ExceptionObject -> string.

Lemma nrrd_header_names_data_file (c : DWIConverter) (commentstring dataName : string) :
  exists before after,
    nrrd_header_text DoubleConvert Mat3_mul GetFilenameName c commentstring
      (Some dataName) =
    before +:+ ("data file: " +:+ GetFilenameName dataName +:+ endl) +:+ after.
Proof.
  unfold nrrd_header_text.
  destruct (GetSpacing c) as [[sp0 sp1] sp2], (GetOrigin c) as [[o0 o1] o2].
  apply concat_strings_elem.
  change ("data file: " +:+ GetFilenameName dataName +:+ endl)
    with (data_file_line GetFilenameName (Some dataName)).
  repeat first [apply list_elem_of_here | apply list_elem_of_further].
Qed.

Lemma single_file_count (img : Image3D) :
  allocated3 img ->
  wrap64 (NumberOfPixels3 (size3 img) * sizeof_PixelValueType) =
  Z.of_nat (length (buffer3 img)).
Proof.
  unfold allocated3. destruct (size3 img) as [[s0 s1] s2].
  intros (H0 & H1 & H2 & Hbytes & Hlen).
  assert (0 <= s0 * s1 * s2) by (repeat apply Z.mul_nonneg_nonneg; lia).
  rewrite NumberOfPixels3_mod, Hlen.
  unfold sizeof_PixelValueType in *.
  rewrite (Z.mod_small (s0 * s1 * s2)) by lia.
  apply wrap64_small. lia.
Qed.

(** C5 (amended). The layout follows from whether ".nhdr" occurs in the
    destination name. When it does, at position p, the header is written
    with a line naming the data file, and the raw writer is run on the
    name cut at p with ".raw" appended; when it does not, whatever the
    extension, the one file holds the header text followed by the sample
    buffer. *)
Theorem ManualWriteNRRDFile_layout (c : DWIConverter)
    (outputVolumeHeaderName commentstring : string) (w : World) :
  allocated3 (m_Volume c) ->
  let written :=
    ManualWriteNRRDFile DoubleConvert Mat3_mul GetFilenameName RawImageWriter_Update
      show_exception c outputVolumeHeaderName commentstring w in
  (find outputVolumeHeaderName ".nhdr" = None ->
   written =
   (write_file outputVolumeHeaderName
      (list_byte_of_string
         (nrrd_header_text DoubleConvert Mat3_mul GetFilenameName c commentstring None)
       ++ buffer3 (m_Volume c)) w,
    Done tt)) /\
  (forall extensionPos,
      find outputVolumeHeaderName ".nhdr" = Some extensionPos ->
      let dataName := substr0 outputVolumeHeaderName extensionPos +:+ ".raw" in
      let text :=
        nrrd_header_text DoubleConvert Mat3_mul GetFilenameName c commentstring
          (Some dataName) in
      (exists before after,
          text = before +:+ ("data file: " +:+ GetFilenameName dataName +:+ endl)
                 +:+ after) /\
      exists w2 thrown,
        RawImageWriter_Update dataName (m_Volume c)
          (write_file outputVolumeHeaderName (list_byte_of_string text) w) =
        (w2, thrown) /\
        files (fst written) = files w2 /\
        (thrown = None -> fst written = w2)).
Proof.
  intros Halloc written. subst written. unfold ManualWriteNRRDFile.
  unfold nrrdSingleFileFormat, nrrd_data_name. split.
  - intros ->. unfold GetDiffusionVolume.
    rewrite (single_file_count _ Halloc).
    destruct (decide _) as [_|Hn]; [|lia].
    rewrite Nat2Z.id, take_ge by lia. reflexivity.
  - intros extensionPos ->. cbn [default].
    split; [apply nrrd_header_names_data_file|].
    unfold GetDiffusionVolume.
    destruct (RawImageWriter_Update _ _ _) as [w2 [excp|]].
    + exists w2, (Some excp). split; [reflexivity|]. split; [reflexivity|].
      discriminate.
    + exists w2, None. repeat split; reflexivity.
Qed.


(** What the FSL writer does once the frame has passed the test. *)
Lemma WriteFSLFormattedFileSet_frame_accepted (c : DWIConverter)
    (outputVolumeHeaderName outputBValues outputBVectors : string)
    (img4D : Image4D) (w : World) :
  frame_rejected (m_MeasurementFrame c) = false ->
  WriteFSLFormattedFileSet ImageFileWriter_Update WriteBValues WriteBVectors
    show_exception c outputVolumeHeaderName outputBValues outputBVectors img4D w =
  match ImageFileWriter_Update outputVolumeHeaderName (stamp_xform_codes4 img4D) w with
  | (w1, Some excp) =>
      (write_cerr
         (concat_strings
            ["Exception thrown while writing "; outputVolumeHeaderName; endl;
             show_exception excp; endl]) w1,
       Throw excp)
  | (w1, None) =>
      match first_extension extList outputVolumeHeaderName with
      | None =>
          (write_cerr
             (concat_strings
                ["FSL Format output chosen, "; "but output Volume not a recognized ";
                 "NIfTI filename "; outputVolumeHeaderName; endl]) w1,
           Exit 1)
      | Some extensionPos =>
          match WriteBValues (m_BValues c)
                  (sidecar_name outputBValues outputVolumeHeaderName extensionPos ".bval")
                  w1 with
          | (w3, EXIT_FAILURE) =>
              (w3, Throw (FailedToWriteBVal
                            (sidecar_name outputBValues outputVolumeHeaderName
                               extensionPos ".bval")))
          | (w3, EXIT_SUCCESS) =>
              match WriteBVectors (m_DiffusionVectors c)
                      (sidecar_name outputBVectors outputVolumeHeaderName
                         extensionPos ".bvec") w3 with
              | (w4, EXIT_FAILURE) =>
                  (w4, Throw (FailedToWriteBVec
                                (sidecar_name outputBVectors outputVolumeHeaderName
                                   extensionPos ".bvec")))
              | (w4, EXIT_SUCCESS) => (w4, Done tt)
              end
          end
      end
  end.
Proof.
  intros Hframe. unfold WriteFSLFormattedFileSet. rewrite Hframe.
  destruct (ImageFileWriter_Update _ _ _) as [w1 [excp|]]; [reflexivity|].
  unfold has_valid_nifti_extension.
  destruct (first_extension extList outputVolumeHeaderName); reflexivity.
Qed.

(** C6 (amended). When the product of the diagonal entries of the
    measurement frame differs from 1.0 by more than 1e-4, as it does for a
    quarter turn, the FSL writer throws the identity-frame error and
    leaves the file system and the error stream as they were. The test is
    that product test and nothing more. *)
Theorem WriteFSLFormattedFileSet_frame_check (c : DWIConverter)
    (outputVolumeHeaderName outputBValues outputBVectors : string)
    (img4D : Image4D) (w : World) :
  frame_rejected (m_MeasurementFrame c) = true ->
  WriteFSLFormattedFileSet ImageFileWriter_Update WriteBValues WriteBVectors
    show_exception c outputVolumeHeaderName outputBValues outputBVectors img4D w =
  (w, Throw OnlyIdentityMeasurementFrame) /\
  frame_rejected frame_quarter_turn = true /\
  (forall m00 m01 m02 m10 m11 m12 m20 m21 m22,
      frame_rejected ((m00, m01, m02), (m10, m11, m12), (m20, m21, m22)) =
      dgt (dabs (dsub (dmul (dmul m00 m11) m22) d1)) d1e_4).
Proof.
  intros Hframe. split; [|split].
  - unfold WriteFSLFormattedFileSet. rewrite Hframe. reflexivity.
  - vm_compute. reflexivity.
  - intros. reflexivity.
Qed.

(** C7 (amended). When neither ".nii.gz" nor ".nii" occurs in the main
    output name and the frame has passed its test, the image writer runs
    first. If it returns, the export reports the unrecognised name on the
    error stream and ends the process with status 1; if it throws, the
    exception is passed on. Either way the files are those the image
    writer left: no sidecar is written. *)
Theorem WriteFSLFormattedFileSet_unrecognized_name (c : DWIConverter)
    (outputVolumeHeaderName outputBValues outputBVectors : string)
    (img4D : Image4D) (w : World) :
  frame_rejected (m_MeasurementFrame c) = false ->
  find outputVolumeHeaderName ".nii.gz" = None ->
  find outputVolumeHeaderName ".nii" = None ->
  let exported :=
    WriteFSLFormattedFileSet ImageFileWriter_Update WriteBValues WriteBVectors
      show_exception c outputVolumeHeaderName outputBValues outputBVectors img4D w in
  exists w1 thrown,
    ImageFileWriter_Update outputVolumeHeaderName (stamp_xform_codes4 img4D) w =
    (w1, thrown) /\
    files (fst exported) = files w1 /\
    (thrown = None ->
     exported =
     (write_cerr
        (concat_strings
           ["FSL Format output chosen, "; "but output Volume not a recognized ";
            "NIfTI filename "; outputVolumeHeaderName; endl]) w1,
      Exit 1)) /\
    (forall excp, thrown = Some excp -> snd exported = Throw excp).
Proof.
  intros Hframe Hgz Hnii exported. subst exported.
  rewrite WriteFSLFormattedFileSet_frame_accepted by exact Hframe.
  unfold extList, first_extension. rewrite Hgz, Hnii.
  destruct (ImageFileWriter_Update _ _ _) as [w1 [excp|]].
  - exists w1, (Some excp). split; [reflexivity|]. split; [reflexivity|].
    split; [discriminate|]. intros excp' [= <-]. reflexivity.
  - exists w1, None. split; [reflexivity|]. split; [reflexivity|].
    split; [reflexivity|]. discriminate.
Qed.

(** C8. An exception of the image writer inside [WriteFSLFormattedFileSet]
    is reported on the error stream and thrown again; an exception of the
    raw writer inside [ManualWriteNRRDFile] is reported on the error stream
    and then dropped: the call returns normally. *)
Theorem writer_exception_handling (c : DWIConverter)
    (outputVolumeHeaderName commentstring outputBValues outputBVectors : string)
    (img4D : Image4D) (w : World) :
  (forall w1 excp,
      frame_rejected (m_MeasurementFrame c) = false ->
      ImageFileWriter_Update outputVolumeHeaderName (stamp_xform_codes4 img4D) w =
      (w1, Some excp) ->
      WriteFSLFormattedFileSet ImageFileWriter_Update WriteBValues WriteBVectors
        show_exception c outputVolumeHeaderName outputBValues outputBVectors img4D w =
      (write_cerr
         (concat_strings
            ["Exception thrown while writing "; outputVolumeHeaderName; endl;
             show_exception excp; endl]) w1,
       Throw excp)) /\
  (forall extensionPos w2 excp,
      find outputVolumeHeaderName ".nhdr" = Some extensionPos ->
      let dataName := substr0 outputVolumeHeaderName extensionPos +:+ ".raw" in
      RawImageWriter_Update dataName (m_Volume c)
        (write_file outputVolumeHeaderName
           (list_byte_of_string
              (nrrd_header_text DoubleConvert Mat3_mul GetFilenameName c commentstring
                 (Some dataName))) w) =
      (w2, Some excp) ->
      ManualWriteNRRDFile DoubleConvert Mat3_mul GetFilenameName RawImageWriter_Update
        show_exception c outputVolumeHeaderName commentstring w =
      (write_cerr
         (concat_strings
            ["Exception thrown while writing the series to"; dataName; " ";
             show_exception excp; endl; show_exception excp; endl]) w2,
       Done tt)).
Proof.
  split.
  - intros w1 excp Hframe Hwriter.
    rewrite WriteFSLFormattedFileSet_frame_accepted by exact Hframe.
    rewrite Hwriter. reflexivity.
  - intros extensionPos w2 excp Hfind dataName Hwriter. subst dataName.
    unfold ManualWriteNRRDFile, nrrdSingleFileFormat, nrrd_data_name.
    rewrite Hfind. cbn [default from_option Datatypes.id]. unfold GetDiffusionVolume.
    rewrite Hwriter. reflexivity.
Qed.

End SerializersProperties.

Lemma sample_volume_allocated : allocated3 sample_volume.
Proof.
  unfold allocated3, sample_volume, sizeof_PixelValueType. cbn [size3 buffer3].
  rewrite length_replicate. lia.
Qed.

Lemma ManualWriteNRRDFile_layout_witness :
  let c := sample_converter bvalues_single_shell Mat3_identity in
  let written name :=
    ManualWriteNRRDFile sample_DoubleConvert sample_Mat3_mul sample_GetFilenameName
      writer_stores3 sample_show_exception c name EmptyString empty_world in
  allocated3 (m_Volume c) /\
  written "dwi.nrrd"%string =
  (write_file "dwi.nrrd"
     (list_byte_of_string
        (nrrd_header_text sample_DoubleConvert sample_Mat3_mul sample_GetFilenameName
           c EmptyString None)
      ++ buffer3 (m_Volume c)) empty_world,
   Done tt) /\
  exists w2 thrown,
    writer_stores3 "dwi.raw" (m_Volume c)
      (write_file "dwi.nhdr"
         (list_byte_of_string
            (nrrd_header_text sample_DoubleConvert sample_Mat3_mul
               sample_GetFilenameName c EmptyString (Some "dwi.raw"%string)))
         empty_world) =
    (w2, thrown) /\
    files (fst (written "dwi.nhdr"%string)) = files w2 /\
    (thrown = None -> fst (written "dwi.nhdr"%string) = w2).
Proof.
  intros c written.
  assert (allocated3 (m_Volume c)) as Halloc by exact sample_volume_allocated.
  destruct (ManualWriteNRRDFile_layout sample_DoubleConvert sample_Mat3_mul
              sample_GetFilenameName writer_stores3 sample_show_exception
              c "dwi.nrrd" EmptyString empty_world Halloc) as [Hinline _].
  destruct (ManualWriteNRRDFile_layout sample_DoubleConvert sample_Mat3_mul
              sample_GetFilenameName writer_stores3 sample_show_exception
              c "dwi.nhdr" EmptyString empty_world Halloc) as [_ Hdetached].
  split; [exact Halloc|]. split; [exact (Hinline eq_refl)|].
  destruct (Hdetached 3%nat eq_refl) as [_ Hraw]. exact Hraw.
Defined.

(** The layout the document words differs from the layout chosen: a name
    with another extension is written as a single file, with no raw file
    beside it, and a name that ends in ".nrrd" but contains ".nhdr" is
    written detached. *)
Lemma ManualWriteNRRDFile_other_extension_inline :
  let c := sample_converter bvalues_single_shell Mat3_identity in
  let written name :=
    ManualWriteNRRDFile sample_DoubleConvert sample_Mat3_mul sample_GetFilenameName
      writer_stores3 sample_show_exception c name EmptyString empty_world in
  documented_single_file "dwi.nii.gz" = false /\
  written "dwi.nii.gz"%string =
  (write_file "dwi.nii.gz"
     (list_byte_of_string
        (nrrd_header_text sample_DoubleConvert sample_Mat3_mul sample_GetFilenameName
           c EmptyString None)
      ++ buffer3 (m_Volume c)) empty_world,
   Done tt) /\
  dom (files (fst (written "dwi.nii.gz"%string))) = {["dwi.nii.gz"%string]} /\
  documented_single_file "dwi.nhdr.nrrd" = true /\
  nrrdSingleFileFormat "dwi.nhdr.nrrd" = false /\
  dom (files (fst (written "dwi.nhdr.nrrd"%string))) =
  {["dwi.nhdr.nrrd"%string; "dwi.raw"%string]}.
Proof.
  intros c written. subst written. cbv beta.
  split; [reflexivity|]. split; [vm_compute; reflexivity|].
  split; [vm_compute; reflexivity|]. split; [reflexivity|].
  split; [reflexivity|]. vm_compute. reflexivity.
Qed.

Lemma WriteFSLFormattedFileSet_frame_check_witness :
  let c := sample_converter bvalues_single_shell frame_quarter_turn in
  frame_rejected (m_MeasurementFrame c) = true /\
  WriteFSLFormattedFileSet writer_stores4 sample_WriteBValues sample_WriteBVectors
    sample_show_exception c "dwi.nii.gz" EmptyString EmptyString sample_volume4D
    empty_world =
  (empty_world, Throw OnlyIdentityMeasurementFrame) /\
  frame_rejected frame_quarter_turn = true /\
  (forall m00 m01 m02 m10 m11 m12 m20 m21 m22,
      frame_rejected ((m00, m01, m02), (m10, m11, m12), (m20, m21, m22)) =
      dgt (dabs (dsub (dmul (dmul m00 m11) m22) d1)) d1e_4).
Proof.
  intros c.
  assert (frame_rejected (m_MeasurementFrame c) = true) as Hframe
    by (vm_compute; reflexivity).
  split; [exact Hframe|].
  exact (WriteFSLFormattedFileSet_frame_check writer_stores4 sample_WriteBValues
           sample_WriteBVectors sample_show_exception c "dwi.nii.gz" EmptyString
           EmptyString sample_volume4D empty_world Hframe).
Defined.

(** A half turn about the third axis is not the identity, its diagonal
    product is 1, and the export goes through: the volume and both sidecars
    are written. *)
Lemma WriteFSLFormattedFileSet_half_turn_accepted :
  let c := sample_converter bvalues_single_shell frame_half_turn in
  let exported :=
    WriteFSLFormattedFileSet writer_stores4 sample_WriteBValues sample_WriteBVectors
      sample_show_exception c "dwi.nii.gz" EmptyString EmptyString sample_volume4D
      empty_world in
  m_MeasurementFrame c <> Mat3_identity /\
  frame_rejected (m_MeasurementFrame c) = false /\
  snd exported = Done tt /\
  files (fst exported) !! "dwi.nii.gz"%string = Some (buffer4 sample_volume4D) /\
  is_Some (files (fst exported) !! "dwi.bval"%string) /\
  is_Some (files (fst exported) !! "dwi.bvec"%string).
Proof.
  intros c exported. subst exported.
  split; [discriminate|]. split; [vm_compute; reflexivity|].
  split; [vm_compute; reflexivity|]. split; [vm_compute; reflexivity|].
  split; vm_compute; eexists; reflexivity.
Qed.

Lemma WriteFSLFormattedFileSet_unrecognized_name_witness :
  let c := sample_converter bvalues_single_shell Mat3_identity in
  let exported :=
    WriteFSLFormattedFileSet writer_stores4 sample_WriteBValues sample_WriteBVectors
      sample_show_exception c "dwi.mha" EmptyString EmptyString sample_volume4D
      empty_world in
  frame_rejected (m_MeasurementFrame c) = false /\
  find "dwi.mha" ".nii.gz" = None /\
  find "dwi.mha" ".nii" = None /\
  exists w1 thrown,
    writer_stores4 "dwi.mha" (stamp_xform_codes4 sample_volume4D) empty_world =
    (w1, thrown) /\
    files (fst exported) = files w1 /\
    (thrown = None ->
     exported =
     (write_cerr
        (concat_strings
           ["FSL Format output chosen, "; "but output Volume not a recognized ";
            "NIfTI filename "; "dwi.mha"; endl]) w1,
      Exit 1)) /\
    (forall excp, thrown = Some excp -> snd exported = Throw excp).
Proof.
  intros c exported.
  assert (frame_rejected (m_MeasurementFrame c) = false) as Hframe
    by (vm_compute; reflexivity).
  split; [exact Hframe|]. split; [reflexivity|]. split; [reflexivity|].
  exact (WriteFSLFormattedFileSet_unrecognized_name writer_stores4 sample_WriteBValues
           sample_WriteBVectors sample_show_exception c "dwi.mha" EmptyString
           EmptyString sample_volume4D empty_world Hframe eq_refl eq_refl).
Defined.

(** With a name that is no NIfTI name the export ends in [exit(1)], and by
    then the image writer has created the volume file. *)
Lemma WriteFSLFormattedFileSet_volume_written_before_exit :
  let c := sample_converter bvalues_single_shell Mat3_identity in
  let exported :=
    WriteFSLFormattedFileSet writer_stores4 sample_WriteBValues sample_WriteBVectors
      sample_show_exception c "dwi.mha" EmptyString EmptyString sample_volume4D
      empty_world in
  find "dwi.mha" ".nii.gz" = None /\
  find "dwi.mha" ".nii" = None /\
  files empty_world !! "dwi.mha"%string = None /\
  snd exported = Exit 1 /\
  files (fst exported) !! "dwi.mha"%string = Some (buffer4 sample_volume4D).
Proof.
  intros c exported. subst exported.
  split; [reflexivity|]. split; [reflexivity|]. split; [reflexivity|].
  split; vm_compute; reflexivity.
Qed.

Lemma writer_exception_handling_witness :
  let c := sample_converter bvalues_single_shell Mat3_identity in
  WriteFSLFormattedFileSet writer_fails4 sample_WriteBValues sample_WriteBVectors
    sample_show_exception c "dwi.nii.gz" EmptyString EmptyString sample_volume4D
    empty_world =
  (write_cerr
     (concat_strings
        ["Exception thrown while writing "; "dwi.nii.gz"; endl;
         sample_show_exception disk_full; endl]) empty_world,
   Throw disk_full) /\
  ManualWriteNRRDFile sample_DoubleConvert sample_Mat3_mul sample_GetFilenameName
    writer_fails3 sample_show_exception c "dwi.nhdr" EmptyString empty_world =
  (write_cerr
     (concat_strings
        ["Exception thrown while writing the series to"; "dwi.raw"; " ";
         sample_show_exception disk_full; endl; sample_show_exception disk_full; endl])
     (write_file "dwi.nhdr"
        (list_byte_of_string
           (nrrd_header_text sample_DoubleConvert sample_Mat3_mul sample_GetFilenameName
              c EmptyString (Some "dwi.raw"%string))) empty_world),
   Done tt).
Proof.
  intros c.
  destruct (writer_exception_handling sample_DoubleConvert sample_Mat3_mul
              sample_GetFilenameName writer_fails3 writer_fails4 sample_WriteBValues
              sample_WriteBVectors sample_show_exception c "dwi.nii.gz" EmptyString
              EmptyString EmptyString sample_volume4D empty_world) as [Hfsl _].
  destruct (writer_exception_handling sample_DoubleConvert sample_Mat3_mul
              sample_GetFilenameName writer_fails3 writer_fails4 sample_WriteBValues
              sample_WriteBVectors sample_show_exception c "dwi.nhdr" EmptyString
              EmptyString EmptyString sample_volume4D empty_world) as [_ Hnrrd].
  split.
  - apply Hfsl; [vm_compute; reflexivity | reflexivity].
  - apply (Hnrrd 3%nat); reflexivity.
Defined.

(** ** External gradient override *)

Section GradientOverrideProperties.

Variable CheckArg : string -> string -> string -> exit_status.
Variable GetParentDirectory : string -> string.
Variable GetFilenameWithoutExtension : string -> string.
Variable JoinPath : list string -> string.
Variable ReadBVals : string -> World -> exit_status * list double * Z.
Variable ReadBVecs : string -> bool -> World -> exit_status * list Vec3 * Z.

(** C9. Let the readers succeed and report as counts the lengths of the
    lists they filled. If the two lengths differ, the load throws the
    mismatch error carrying both counts; if they agree but differ from
    the number of volumes, it throws the error carrying that count and the
    number of volumes; in both cases the converter is unchanged. Otherwise
    both sequences are replaced, together, and nothing else changes. *)
Theorem ReadGradientInformation_spec (c : DWIConverter)
    (inputBValues inputBVectors inputVolumeNameTemplate : string) (w : World)
    (BVals : list double) (BVecs : list Vec3) (bValCount bVecCount : Z) :
  let bvalFile :=
    sidecar_default CheckArg GetParentDirectory GetFilenameWithoutExtension JoinPath
      "B Values" inputBValues inputVolumeNameTemplate ".bval" in
  let bvecFile :=
    sidecar_default CheckArg GetParentDirectory GetFilenameWithoutExtension JoinPath
      "B Vectors" inputBVectors inputVolumeNameTemplate ".bvec" in
  let loaded :=
    ReadGradientInformation CheckArg GetParentDirectory GetFilenameWithoutExtension
      JoinPath ReadBVals ReadBVecs c inputBValues inputBVectors
      inputVolumeNameTemplate w in
  ReadBVals bvalFile w = (EXIT_SUCCESS, BVals, bValCount) ->
  ReadBVecs bvecFile true w = (EXIT_SUCCESS, BVecs, bVecCount) ->
  bValCount = Z.of_nat (length BVals) ->
  bVecCount = Z.of_nat (length BVecs) ->
  (length BVals <> length BVecs ->
   loaded =
   (c, Throw (MismatchBVectorsBValues (Z.of_nat (length BVecs))
                (Z.of_nat (length BVals))))) /\
  (length BVals = length BVecs ->
   Z.of_nat (length BVals) <> m_NVolume c ->
   loaded =
   (c, Throw (GradientsVolumesMismatch (Z.of_nat (length BVals)) (m_NVolume c)))) /\
  (length BVals = length BVecs ->
   Z.of_nat (length BVals) = m_NVolume c ->
   exists c',
     loaded = (c', Done tt) /\
     m_BValues c' = BVals /\
     m_DiffusionVectors c' = BVecs /\
     same_volume_state c c').
Proof.
  intros bvalFile bvecFile loaded Hvals Hvecs -> ->. subst loaded.
  unfold ReadGradientInformation. fold bvalFile bvecFile.
  rewrite Hvals, Hvecs. unfold GetNVolume. split; [|split].
  - intros Hne. destruct (decide _) as [_|Heq]; [reflexivity | lia].
  - intros Hlen Hnv. destruct (decide _) as [Hne|_]; [lia|].
    destruct (decide _) as [_|Heq]; [reflexivity | contradiction].
  - intros Hlen Hnv. destruct (decide _) as [Hne|_]; [lia|].
    destruct (decide _) as [Hne|_]; [contradiction|].
    eexists. split; [reflexivity|]. repeat split.
Qed.

(** X20. Whatever the readers do, a load that does not return normally
    has thrown, and it leaves the converter as it was. *)
Lemma ReadGradientInformation_failure_keeps_converter (c : DWIConverter)
    (inputBValues inputBVectors inputVolumeNameTemplate : string) (w : World) :
  let loaded :=
    ReadGradientInformation CheckArg GetParentDirectory GetFilenameWithoutExtension
      JoinPath ReadBVals ReadBVecs c inputBValues inputBVectors
      inputVolumeNameTemplate w in
  snd loaded = Done tt \/ (fst loaded = c /\ exists e, snd loaded = Throw e).
Proof.
  cbv zeta. unfold ReadGradientInformation.
  destruct (ReadBVals _ _) as [[[|] BVals] bValCount];
    [|right; split; [reflexivity | eexists; reflexivity]].
  destruct (ReadBVecs _ _ _) as [[[|] BVecs] bVecCount];
    [|right; split; [reflexivity | eexists; reflexivity]].
  destruct (decide _); [right; split; [reflexivity | eexists; reflexivity]|].
  destruct (decide _); [right; split; [reflexivity | eexists; reflexivity]|].
  left. reflexivity.
Qed.

End GradientOverrideProperties.

Lemma ReadGradientInformation_witness :
  let c := sample_converter bvalues_two_shells Mat3_identity in
  let loaded bvals :=
    ReadGradientInformation sample_CheckArg sample_GetParentDirectory
      sample_GetFilenameWithoutExtension sample_JoinPath sample_ReadBVals
      sample_ReadBVecs c bvals "seven.bvec" "dwi" empty_world in
  sample_ReadBVals "six.bval" empty_world = (EXIT_SUCCESS, replicate 6 (dz 1000), 6) /\
  sample_ReadBVals "seven.bval" empty_world = (EXIT_SUCCESS, bvalues_single_shell, 7) /\
  sample_ReadBVecs "seven.bvec" true empty_world = (EXIT_SUCCESS, sample_vectors, 7) /\
  loaded "six.bval"%string = (c, Throw (MismatchBVectorsBValues 7 6)) /\
  exists c',
    loaded "seven.bval"%string = (c', Done tt) /\
    m_BValues c' = bvalues_single_shell /\
    m_DiffusionVectors c' = sample_vectors /\
    same_volume_state c c'.
Proof.
  intros c loaded.
  split; [reflexivity|]. split; [reflexivity|]. split; [reflexivity|].
  destruct (ReadGradientInformation_spec sample_CheckArg sample_GetParentDirectory
              sample_GetFilenameWithoutExtension sample_JoinPath sample_ReadBVals
              sample_ReadBVecs c "six.bval" "seven.bvec" "dwi" empty_world
              (replicate 6 (dz 1000)) sample_vectors 6 7
              eq_refl eq_refl eq_refl eq_refl) as (Hmismatch & _ & _).
  destruct (ReadGradientInformation_spec sample_CheckArg sample_GetParentDirectory
              sample_GetFilenameWithoutExtension sample_JoinPath sample_ReadBVals
              sample_ReadBVecs c "seven.bval" "seven.bvec" "dwi" empty_world
              bvalues_single_shell sample_vectors 7 7
              eq_refl eq_refl eq_refl eq_refl) as (_ & _ & Hloaded).
  split.
  - apply Hmismatch. cbn. lia.
  - apply Hloaded; reflexivity.
Defined.

(** * Further properties *)

(** ** The largest b-value, once more *)

Lemma ComputeMaxBvalue_from_none_greater (l : list double) (m : double) :
  (forall b, b ∈ l -> dgt b m = false) -> ComputeMaxBvalue_from m l = m.
Proof.
  induction l as [|x l IH]; intros Hall; [reflexivity|].
  cbn [ComputeMaxBvalue_from]. rewrite (Hall x) by apply list_elem_of_here.
  apply IH. intros b Hb. apply Hall. apply list_elem_of_further. exact Hb.
Qed.

Lemma dgt_d0_not_nan (m : double) : dgt m d0 = true -> m <> S754_nan /\ m <> d0.
Proof.
  intros Hgt. split; intros ->; vm_compute in Hgt; discriminate.
Qed.

(** X1. [ComputeMaxBvalue] returns [0.0] exactly when no entry is greater
    than [0.0] (an empty list, entries that are zero, negative or NaN);
    otherwise it returns an entry of the list that is greater than [0.0].
    It never returns NaN and never a value below [0.0]. *)
Theorem ComputeMaxBvalue_zero_iff (bValues : list double) :
  let maxBvalue := ComputeMaxBvalue bValues in
  (maxBvalue = d0 <-> forall b, b ∈ bValues -> dgt b d0 = false) /\
  (maxBvalue = d0 \/ (maxBvalue ∈ bValues /\ dgt maxBvalue d0 = true)) /\
  maxBvalue <> S754_nan /\
  dlt maxBvalue d0 = false.
Proof.
  intros maxBvalue. subst maxBvalue.
  assert (ComputeMaxBvalue bValues = d0 \/
          (ComputeMaxBvalue bValues ∈ bValues /\ dgt (ComputeMaxBvalue bValues) d0 = true))
    as Hcases.
  { destruct (ComputeMaxBvalue_zero_or_positive bValues) as [Hz|Hpos]; [left; exact Hz|].
    destruct (ComputeMaxBvalue_from_attained bValues d0) as [Hz|Hin]; [left; exact Hz|].
    right. split; assumption. }
  split; [|split; [exact Hcases|split]].
  - split.
    + intros Hz b Hb. rewrite <- Hz. unfold dgt.
      apply ComputeMaxBvalue_from_upper. exact Hb.
    + intros Hall. apply ComputeMaxBvalue_from_none_greater. exact Hall.
  - destruct Hcases as [-> | [_ Hpos]]; [discriminate|].
    apply dgt_d0_not_nan. exact Hpos.
  - destruct Hcases as [-> | [_ Hpos]]; [reflexivity|].
    unfold dgt in Hpos. unfold dlt in *.
    destruct (ComputeMaxBvalue bValues) as [[|]|[|]| |[|] m e];
      vm_compute in Hpos; try discriminate; reflexivity.
Qed.

(** The maximum of a list of copies of the maximum. *)
Lemma ComputeMaxBvalue_replicate (l : list double) (n : nat) :
  (n = 0%nat -> l = []) ->
  ComputeMaxBvalue (replicate n (ComputeMaxBvalue l)) = ComputeMaxBvalue l.
Proof.
  intros Hn. destruct n as [|n].
  - rewrite Hn by reflexivity. reflexivity.
  - unfold ComputeMaxBvalue at 1. cbn [replicate ComputeMaxBvalue_from].
    destruct (ComputeMaxBvalue_zero_or_positive l) as [Hz|Hpos].
    + rewrite Hz. change (dgt d0 d0) with false. cbv iota.
      apply ComputeMaxBvalue_from_none_greater.
      intros b Hb. apply elem_of_replicate in Hb as [-> _]. reflexivity.
    + rewrite Hpos.
      apply ComputeMaxBvalue_from_none_greater.
      intros b Hb. apply elem_of_replicate in Hb as [-> _].
      unfold dgt. apply dlt_irrefl.
Qed.

(** X2. Scaling to a single b-value keeps the largest b-value: the value
    [GetMaxBValue] reports (and the NRRD header prints) is the same before
    and after the transform. *)
Theorem ConvertToSingleBValueScaledDiffusionVectors_keeps_max (c : DWIConverter) :
  length (m_BValues c) = length (m_DiffusionVectors c) ->
  exists c',
    ConvertToSingleBValueScaledDiffusionVectors c = Done c' /\
    GetMaxBValue c' = GetMaxBValue c.
Proof.
  intros Hlen. rewrite ConvertToSingleBValue_result by exact Hlen.
  eexists. split; [reflexivity|].
  unfold GetMaxBValue at 1. cbn [m_BValues set_DiffusionVectors set_BValues].
  unfold GetMaxBValue. apply ComputeMaxBvalue_replicate.
  intros Hz. rewrite <- Hlen in Hz. destruct (m_BValues c); [reflexivity | discriminate].
Qed.

Lemma ConvertToSingleBValueScaledDiffusionVectors_keeps_max_witness :
  let c := sample_converter bvalues_two_shells Mat3_identity in
  length (m_BValues c) = length (m_DiffusionVectors c) /\
  GetMaxBValue c = dz 1000 /\
  exists c',
    ConvertToSingleBValueScaledDiffusionVectors c = Done c' /\
    GetMaxBValue c' = GetMaxBValue c.
Proof.
  intros c. split; [reflexivity|]. split; [vm_compute; reflexivity|].
  apply (ConvertToSingleBValueScaledDiffusionVectors_keeps_max c). reflexivity.
Defined.

(** ** Gradient tables whose two sequences differ in length *)

Lemma single_bvalue_loop_short (maxB : double) (vectors : list Vec3) (n k : nat)
    (scaled : list Vec3) (bValues : list double) :
  length vectors = (k + n)%nat ->
  (k <= length bValues)%nat -> (length bValues < k + n)%nat ->
  for_loop n k (single_bvalue_body maxB vectors) (scaled, bValues) = Undefined.
Proof.
  revert k scaled bValues.
  induction n as [|n IH]; intros k scaled bValues Hv Hle Hlt; [lia|].
  simpl. unfold single_bvalue_body at 1.
  destruct (bValues !! k) as [b|] eqn:Hb; [|reflexivity].
  destruct (vectors !! k) as [v|] eqn:Hvk; [|reflexivity].
  apply lookup_lt_Some in Hb. simpl.
  apply IH; rewrite ?length_insert; lia.
Qed.

Lemma single_bvalue_loop_long (maxB : double) (vectors : list Vec3) (n k : nat)
    (scaled : list Vec3) (bValues : list double) :
  length vectors = (k + n)%nat -> (k + n <= length bValues)%nat ->
  for_loop n k (single_bvalue_body maxB vectors) (scaled, bValues) =
  Done (scaled ++ zip_with (fun v b => scale_vector v (scaleFactor maxB b))
                    (drop k vectors) (drop k bValues),
        take k bValues ++ replicate n maxB ++ drop (k + n) bValues).
Proof.
  revert k scaled bValues.
  induction n as [|n IH]; intros k scaled bValues Hv Hb.
  - cbn [for_loop replicate]. rewrite Nat.add_0_r in *.
    rewrite (drop_ge vectors k) by lia. cbn [zip_with].
    rewrite app_nil_r, app_nil_l, take_drop. reflexivity.
  - simpl.
    destruct (lookup_lt_is_Some_2 bValues k ltac:(lia)) as [b Hbk].
    destruct (lookup_lt_is_Some_2 vectors k ltac:(lia)) as [v Hvk].
    unfold single_bvalue_body at 1. rewrite Hbk, Hvk. simpl.
    rewrite IH by (rewrite ?length_insert; lia).
    rewrite (drop_S vectors v k Hvk), (drop_S bValues b k Hbk). simpl.
    rewrite !drop_insert_lt by lia.
    rewrite (take_S_r (<[k:=maxB]> bValues) k maxB)
      by (apply list_lookup_insert_eq; lia).
    rewrite take_insert_ge by lia.
    replace (S (k + n)) with (k + S n)%nat by lia.
    rewrite <- !app_assoc. reflexivity.
Qed.

(** X3. With fewer b-values than gradient vectors,
    [ConvertToSingleBValueScaledDiffusionVectors] reads [m_BValues[k]] past
    the end of the vector: the behaviour is undefined. *)
Theorem ConvertToSingleBValueScaledDiffusionVectors_too_few_bvalues (c : DWIConverter) :
  (length (m_BValues c) < length (m_DiffusionVectors c))%nat ->
  ConvertToSingleBValueScaledDiffusionVectors c = Undefined.
Proof.
  intros Hlt. unfold ConvertToSingleBValueScaledDiffusionVectors.
  cbv zeta. rewrite single_bvalue_loop_short; [reflexivity | reflexivity | lia | lia].
Qed.

Lemma ConvertToSingleBValueScaledDiffusionVectors_too_few_bvalues_witness :
  let c := sample_converter (replicate 6 (dz 1000)) Mat3_identity in
  (length (m_BValues c) < length (m_DiffusionVectors c))%nat /\
  ConvertToSingleBValueScaledDiffusionVectors c = Undefined.
Proof.
  intros c.
  assert (length (m_BValues c) < length (m_DiffusionVectors c))%nat as Hlt
    by (cbn; lia).
  split; [exact Hlt|].
  exact (ConvertToSingleBValueScaledDiffusionVectors_too_few_bvalues c Hlt).
Defined.

(** X4. With more b-values than gradient vectors the transform returns:
    there are as many scaled vectors as before, the b-values that have a
    vector are overwritten with the maximum taken over all b-values, and
    the b-values beyond the last vector are left as they were. *)
Theorem ConvertToSingleBValueScaledDiffusionVectors_surplus_bvalues (c : DWIConverter) :
  (length (m_DiffusionVectors c) <= length (m_BValues c))%nat ->
  let n := length (m_DiffusionVectors c) in
  exists c',
    ConvertToSingleBValueScaledDiffusionVectors c = Done c' /\
    length (m_DiffusionVectors c') = n /\
    length (m_BValues c') = length (m_BValues c) /\
    (forall k, (k < n)%nat -> m_BValues c' !! k = Some (GetMaxBValue c)) /\
    (forall k, (n <= k)%nat -> m_BValues c' !! k = m_BValues c !! k).
Proof.
  intros Hle n. subst n. unfold ConvertToSingleBValueScaledDiffusionVectors.
  cbv zeta. rewrite single_bvalue_loop_long by (cbn; lia).
  cbn [mbind outcome_bind]. eexists. split; [reflexivity|].
  cbn [m_DiffusionVectors m_BValues set_DiffusionVectors set_BValues].
  rewrite !drop_0, take_0, !app_nil_l. cbn [plus].
  split; [|split; [|split]].
  - rewrite length_zip_with. lia.
  - rewrite length_app, length_replicate, length_drop. lia.
  - intros k Hk. rewrite lookup_app_l by (rewrite length_replicate; exact Hk).
    apply lookup_replicate_2. exact Hk.
  - intros k Hk. rewrite lookup_app_r by (rewrite length_replicate; exact Hk).
    rewrite length_replicate, lookup_drop. f_equal. lia.
Qed.

Lemma ConvertToSingleBValueScaledDiffusionVectors_surplus_bvalues_witness :
  let c := sample_converter (bvalues_two_shells ++ [dz 3000]) Mat3_identity in
  (length (m_DiffusionVectors c) <= length (m_BValues c))%nat /\
  GetMaxBValue c = dz 3000 /\
  exists c',
    ConvertToSingleBValueScaledDiffusionVectors c = Done c' /\
    length (m_DiffusionVectors c') = 7%nat /\
    length (m_BValues c') = 8%nat /\
    (forall k, (k < 7)%nat -> m_BValues c' !! k = Some (GetMaxBValue c)) /\
    (forall k, (7 <= k)%nat -> m_BValues c' !! k = m_BValues c !! k).
Proof.
  intros c.
  assert (length (m_DiffusionVectors c) <= length (m_BValues c))%nat as Hle
    by (cbn; lia).
  split; [exact Hle|]. split; [vm_compute; reflexivity|].
  exact (ConvertToSingleBValueScaledDiffusionVectors_surplus_bvalues c Hle).
Defined.

Section UnitVectorsBounds.

Variable magnitude : Vec3 -> double.
Variable normalize : Vec3 -> Vec3.
Variable Round : double -> double.

Lemma multiple_bvalues_loop_short (maxB : double) (n k : nat)
    (vectors : list Vec3) (bValues : list double) :
  length vectors = (k + n)%nat ->
  (k <= length bValues)%nat -> (length bValues < k + n)%nat ->
  for_loop n k (multiple_bvalues_body magnitude normalize Round maxB)
    (vectors, bValues) = Undefined.
Proof.
  revert k vectors bValues.
  induction n as [|n IH]; intros k vectors bValues Hv Hle Hlt; [lia|].
  simpl. unfold multiple_bvalues_body at 1.
  destruct (vectors !! k) as [v|] eqn:Hvk; [|reflexivity].
  cbv zeta. destruct (decide (k < length bValues)%nat) as [Hk|Hk]; [|reflexivity].
  simpl.
  apply IH; rewrite ?length_insert; lia.
Qed.

(** X5. With fewer b-values than gradient vectors,
    [ConvertToMutipleBValuesUnitScaledBVectors] writes [m_BValues[k]] past
    the end of the vector: the behaviour is undefined. *)
Theorem ConvertToMutipleBValuesUnitScaledBVectors_too_few_bvalues (c : DWIConverter) :
  (length (m_BValues c) < length (m_DiffusionVectors c))%nat ->
  ConvertToMutipleBValuesUnitScaledBVectors magnitude normalize Round c = Undefined.
Proof.
  intros Hlt. unfold ConvertToMutipleBValuesUnitScaledBVectors.
  cbv zeta. rewrite multiple_bvalues_loop_short; [reflexivity | reflexivity | lia | lia].
Qed.

End UnitVectorsBounds.

Lemma ConvertToMutipleBValuesUnitScaledBVectors_too_few_bvalues_witness :
  let c := sample_converter (replicate 6 (dz 1000)) Mat3_identity in
  (length (m_BValues c) < length (m_DiffusionVectors c))%nat /\
  ConvertToMutipleBValuesUnitScaledBVectors
    sample_magnitude sample_normalize sample_Round c = Undefined.
Proof.
  intros c.
  assert (length (m_BValues c) < length (m_DiffusionVectors c))%nat as Hlt
    by (cbn; lia).
  split; [exact Hlt|].
  exact (ConvertToMutipleBValuesUnitScaledBVectors_too_few_bvalues
           sample_magnitude sample_normalize sample_Round c Hlt).
Defined.

(** ** The reshapers, the other way round *)

(** X6. Unwrapping an allocated 4D volume and wrapping the result again,
    with the converter's volume count equal to the fourth size, gives back
    the sizes and the pixel buffer. The geometry of the first three axes is
    kept and that of the fourth axis is reset (identity direction, spacing
    1, origin 0); when the 4D volume already had that fourth axis, the
    result is the 4D volume itself with the two transform codes stamped. *)
Theorem ThreeDToFourD_FourDToThreeD_round_trip (c : DWIConverter) (img4D : Image4D)
    (s0 s1 s2 s3 : Z) :
  size4 img4D = (s0, s1, s2, s3) ->
  allocated4 img4D ->
  0 < s3 < 2 ^ 31 ->
  s2 * s3 < 2 ^ 64 ->
  m_NVolume c = s3 ->
  exists img img4D',
    FourDToThreeDImage img4D = Done img /\
    ThreeDToFourDImage c img = Done img4D' /\
    size3 img = (s0, s1, s2 * s3) /\
    size4 img4D' = size4 img4D /\
    buffer4 img4D' = buffer4 img4D /\
    direction4 img4D' = direction_3_to_4 (direction_4_to_3 (direction4 img4D)) /\
    spacing4 img4D' = spacing_3_to_4 (spacing_4_to_3 (spacing4 img4D)) /\
    origin4 img4D' = origin_3_to_4 (origin_4_to_3 (origin4 img4D)) /\
    (forall d s o,
        direction4 img4D = direction_3_to_4 d ->
        spacing4 img4D = spacing_3_to_4 s ->
        origin4 img4D = origin_3_to_4 o ->
        img4D' = stamp_xform_codes4 img4D).
Proof.
  intros Hsize Halloc Hs3 Hslices Hnv.
  pose proof Halloc as Halloc'. unfold allocated4 in Halloc'. rewrite Hsize in Halloc'.
  destruct Halloc' as (H0 & H1 & H2 & H3 & Hbytes & Hlen).
  rewrite (FourDToThreeDImage_unfold img4D s0 s1 s2 s3 Hsize Halloc) by lia.
  rewrite (wrap64_small (s2 * s3)) by nia.
  eexists. eexists. split; [reflexivity|].
  rewrite (ThreeDToFourDImage_unfold c _ s0 s1 (s2 * s3)); [|reflexivity| |lia].
  - rewrite Hnv, Z.mod_mul, Z.div_mul by lia.
    destruct (decide (0 = 0)) as [_|Hne]; [|contradiction].
    split; [reflexivity|]. cbn [size3 size4 buffer4 direction4 spacing4 origin4
                                  direction3 spacing3 origin3 buffer3 meta3].
    split; [reflexivity|]. split; [symmetry; exact Hsize|].
    split; [reflexivity|]. split; [reflexivity|]. split; [reflexivity|].
    split; [reflexivity|].
    intros d s o Hd Hsp Ho. unfold stamp_xform_codes4.
    rewrite Hsize, stamp_xform_codes_idemp.
    rewrite Hd, Hsp, Ho.
    rewrite direction_4_to_3_to_4, spacing_4_to_3_to_4, origin_4_to_3_to_4.
    reflexivity.
  - unfold allocated3. cbn [size3 buffer3].
    split; [lia|]. split; [lia|]. split; [nia|].
    rewrite !Z.mul_assoc. split; [exact Hbytes | exact Hlen].
Qed.

Lemma ThreeDToFourD_FourDToThreeD_round_trip_witness :
  let c := sample_converter bvalues_single_shell Mat3_identity in
  let img4D :=
    {| size4 := (2, 2, 1, 7);
       direction4 := direction_3_to_4 Mat3_identity;
       spacing4 := spacing_3_to_4 (d1, d1, dz 2);
       origin4 := origin_3_to_4 (d0, d0, d0);
       meta4 := ∅;
       buffer4 := replicate 56 Byte.x2a |} in
  allocated4 img4D /\
  m_NVolume c = 7 /\
  exists img img4D',
    FourDToThreeDImage img4D = Done img /\
    ThreeDToFourDImage c img = Done img4D' /\
    size3 img = (2, 2, 7) /\
    img4D' = stamp_xform_codes4 img4D.
Proof.
  intros c img4D.
  assert (allocated4 img4D) as Halloc.
  { unfold allocated4, sizeof_PixelValueType. cbn [size4 img4D buffer4].
    rewrite length_replicate. lia. }
  split; [exact Halloc|]. split; [reflexivity|].
  destruct (ThreeDToFourD_FourDToThreeD_round_trip c img4D 2 2 1 7 eq_refl Halloc
              ltac:(lia) ltac:(lia) eq_refl)
    as (img & img4D' & H43 & H34 & Hs3 & _ & _ & _ & _ & _ & Hsame).
  exists img, img4D'. split; [exact H43|]. split; [exact H34|].
  split; [exact Hs3|].
  exact (Hsame Mat3_identity (d1, d1, dz 2) (d0, d0, d0) eq_refl eq_refl eq_refl).
Defined.

(** ** The metadata dictionary of a reshaped volume *)

Lemma stamp_xform_codes_lookup (dict : gmap string string) :
  stamp_xform_codes dict !! "qform_code_name"%string =
    Some "NIFTI_XFORM_SCANNER_ANAT"%string /\
  stamp_xform_codes dict !! "sform_code_name"%string =
    Some "NIFTI_XFORM_SCANNER_ANAT"%string /\
  forall key : string,
    key <> "qform_code_name"%string -> key <> "sform_code_name"%string ->
    stamp_xform_codes dict !! key = dict !! key.
Proof.
  unfold stamp_xform_codes. split; [|split].
  - rewrite lookup_insert_ne by discriminate. apply lookup_insert_eq.
  - apply lookup_insert_eq.
  - intros key Hq Hs. rewrite !lookup_insert_ne by congruence. reflexivity.
Qed.

Lemma ThreeDToFourDImage_meta (c : DWIConverter) (img : Image3D) (out : Image4D) :
  ThreeDToFourDImage c img = Done out -> meta4 out = stamp_xform_codes (meta3 img).
Proof.
  unfold ThreeDToFourDImage. destruct (size3 img) as [[s0 s1] s2]. cbv zeta.
  destruct (decide _); [discriminate|]. destruct (decide _); [discriminate|].
  destruct (memcpy _ _ _); simpl; intros [= <-]. reflexivity.
Qed.

Lemma FourDToThreeDImage_meta (img4D : Image4D) (out : Image3D) :
  FourDToThreeDImage img4D = Done out -> meta3 out = stamp_xform_codes (meta4 img4D).
Proof.
  unfold FourDToThreeDImage. destruct (size4 img4D) as [[[s0 s1] s2] s3]. cbv zeta.
  destruct (decide _); [discriminate|].
  destruct (memcpy _ _ _); simpl; intros [= <-]. reflexivity.
Qed.

(** X7. Whenever a reshaper returns a volume, the dictionary of that
    volume holds "NIFTI_XFORM_SCANNER_ANAT" under both "qform_code_name"
    and "sform_code_name", whatever the source held there, and every other
    key is as in the dictionary of the source volume. *)
Theorem reshapers_stamp_transform_codes (c : DWIConverter) (img : Image3D)
    (img4D : Image4D) :
  (forall out,
      ThreeDToFourDImage c img = Done out ->
      meta4 out !! "qform_code_name"%string = Some "NIFTI_XFORM_SCANNER_ANAT"%string /\
      meta4 out !! "sform_code_name"%string = Some "NIFTI_XFORM_SCANNER_ANAT"%string /\
      forall key : string,
        key <> "qform_code_name"%string -> key <> "sform_code_name"%string ->
        meta4 out !! key = meta3 img !! key) /\
  (forall out,
      FourDToThreeDImage img4D = Done out ->
      meta3 out !! "qform_code_name"%string = Some "NIFTI_XFORM_SCANNER_ANAT"%string /\
      meta3 out !! "sform_code_name"%string = Some "NIFTI_XFORM_SCANNER_ANAT"%string /\
      forall key : string,
        key <> "qform_code_name"%string -> key <> "sform_code_name"%string ->
        meta3 out !! key = meta4 img4D !! key).
Proof.
  split; intros out Hout.
  - rewrite (ThreeDToFourDImage_meta c img out Hout). apply stamp_xform_codes_lookup.
  - rewrite (FourDToThreeDImage_meta img4D out Hout). apply stamp_xform_codes_lookup.
Qed.

Lemma reshapers_stamp_transform_codes_witness :
  let c := sample_converter bvalues_single_shell Mat3_identity in
  exists out,
    ThreeDToFourDImage c sample_volume_with_meta = Done out /\
    meta3 sample_volume_with_meta !! "qform_code_name"%string =
      Some "NIFTI_XFORM_UNKNOWN"%string /\
    meta4 out !! "qform_code_name"%string = Some "NIFTI_XFORM_SCANNER_ANAT"%string /\
    meta4 out !! "sform_code_name"%string = Some "NIFTI_XFORM_SCANNER_ANAT"%string /\
    meta4 out !! "PatientName"%string = Some "anonymous"%string.
Proof.
  intros c.
  assert (exists out, ThreeDToFourDImage c sample_volume_with_meta = Done out)
    as [out Hout] by (eexists; vm_compute; reflexivity).
  destruct (reshapers_stamp_transform_codes c sample_volume_with_meta sample_volume4D)
    as [H34 _].
  destruct (H34 out Hout) as (Hq & Hs & Hother).
  exists out. split; [exact Hout|]. split; [reflexivity|].
  split; [exact Hq|]. split; [exact Hs|].
  rewrite Hother by discriminate. reflexivity.
Defined.

(** ** The pixel buffer of a reshaped volume *)

Lemma NumberOfPixels4_bounds (s : Z * Z * Z * Z) : 0 <= NumberOfPixels4 s < 2 ^ 64.
Proof.
  destruct s as [[[s0 s1] s2] s3]. rewrite NumberOfPixels4_mod.
  apply Z.mod_pos_bound. lia.
Qed.

Lemma NumberOfPixels3_bounds (s : Z * Z * Z) : 0 <= NumberOfPixels3 s < 2 ^ 64.
Proof.
  destruct s as [[s0 s1] s2]. rewrite NumberOfPixels3_mod.
  apply Z.mod_pos_bound. lia.
Qed.

(** The copy into a freshly allocated buffer of [pixels] samples. *)
Lemma memcpy_allocated (src out : list Byte.byte) (pixels : Z) :
  0 <= pixels < 2 ^ 64 ->
  memcpy (Allocate pixels) src (wrap64 (pixels * sizeof_PixelValueType)) = Done out ->
  Z.of_nat (length out) = pixels * sizeof_PixelValueType /\
  (pixels * sizeof_PixelValueType < 2 ^ 64 ->
   out = take (Z.to_nat (pixels * sizeof_PixelValueType)) src /\
   pixels * sizeof_PixelValueType <= Z.of_nat (length src)).
Proof.
  intros Hp. unfold memcpy, Allocate, sizeof_PixelValueType.
  assert (0 <= wrap64 (pixels * 2) <= pixels * 2) as Hn.
  { unfold wrap64. split; [apply Z.mod_pos_bound; lia|].
    apply Z.mod_le; lia. }
  destruct (decide _) as [[Hdst Hsrc]|]; [|discriminate].
  intros [= <-]. split.
  - rewrite length_app, length_take, length_drop, length_replicate. lia.
  - intros Hsmall. rewrite wrap64_small in * by lia.
    rewrite drop_ge by (rewrite length_replicate; lia).
    rewrite app_nil_r. split; [reflexivity | exact Hsrc].
Qed.

(** X8. Whenever a reshaper returns a volume whose byte count fits
    [size_t], the buffer of that volume holds exactly one sample for every
    pixel of its region and is the leading part of the source buffer, also
    when the source buffer is longer than the region needs; the source
    buffer is at least that long. *)
Theorem reshapers_fill_the_region (c : DWIConverter) (img : Image3D) (img4D : Image4D) :
  (forall out,
      ThreeDToFourDImage c img = Done out ->
      let bytes := NumberOfPixels4 (size4 out) * sizeof_PixelValueType in
      bytes < 2 ^ 64 ->
      Z.of_nat (length (buffer4 out)) = bytes /\
      buffer4 out = take (Z.to_nat bytes) (buffer3 img) /\
      bytes <= Z.of_nat (length (buffer3 img))) /\
  (forall out,
      FourDToThreeDImage img4D = Done out ->
      let bytes := NumberOfPixels3 (size3 out) * sizeof_PixelValueType in
      bytes < 2 ^ 64 ->
      Z.of_nat (length (buffer3 out)) = bytes /\
      buffer3 out = take (Z.to_nat bytes) (buffer4 img4D) /\
      bytes <= Z.of_nat (length (buffer4 img4D))).
Proof.
  split; intros out.
  - unfold ThreeDToFourDImage. destruct (size3 img) as [[s0 s1] s2]. cbv zeta.
    destruct (decide _); [discriminate|]. destruct (decide _); [discriminate|].
    destruct (memcpy _ _ _) as [buffer| | |] eqn:Hcopy; simpl; try discriminate.
    intros [= <-]. cbn [size4 buffer4]. intros Hfits.
    apply memcpy_allocated in Hcopy as [Hlen Htake]; [|apply NumberOfPixels4_bounds].
    split; [exact Hlen | exact (Htake Hfits)].
  - unfold FourDToThreeDImage. destruct (size4 img4D) as [[[s0 s1] s2] s3]. cbv zeta.
    destruct (decide _); [discriminate|].
    destruct (memcpy _ _ _) as [buffer| | |] eqn:Hcopy; simpl; try discriminate.
    intros [= <-]. cbn [size3 buffer3]. intros Hfits.
    apply memcpy_allocated in Hcopy as [Hlen Htake]; [|apply NumberOfPixels3_bounds].
    split; [exact Hlen | exact (Htake Hfits)].
Qed.

Lemma reshapers_fill_the_region_witness :
  exists out,
    FourDToThreeDImage sample_volume4D_long = Done out /\
    length (buffer4 sample_volume4D_long) = 52%nat /\
    size3 out = (2, 2, 6) /\
    Z.of_nat (length (buffer3 out)) = 48 /\
    buffer3 out = replicate 48 Byte.x2a.
Proof.
  assert (exists out, FourDToThreeDImage sample_volume4D_long = Done out /\
                      size3 out = (2, 2, 6)) as (out & Hout & Hsize).
  { destruct (FourDToThreeDImage_outcomes sample_volume4D_long) as [[out Hout]|Hundef];
      [|vm_compute in Hundef; discriminate].
    exists out. split; [exact Hout|].
    revert Hout. unfold FourDToThreeDImage, sample_volume4D_long. cbn [size4]. cbv zeta.
    destruct (decide _); [discriminate|].
    destruct (memcpy _ _ _); simpl; try discriminate.
    intros [= <-]. vm_compute. reflexivity. }
  destruct (reshapers_fill_the_region (sample_converter [] Mat3_identity) sample_volume
              sample_volume4D_long) as [_ H43].
  pose proof (H43 out Hout) as Hfill. cbv zeta in Hfill. rewrite Hsize in Hfill.
  destruct Hfill as (Hlen & Htake & _); [vm_compute; reflexivity|].
  exists out. split; [exact Hout|]. split; [reflexivity|]. split; [exact Hsize|].
  split; [exact Hlen|]. rewrite Htake. vm_compute. reflexivity.
Defined.

(** X9. [FourDToThreeDImage] has undefined behaviour exactly when the
    buffer of the 4D volume is shorter than the byte count of the 3D
    region: the copy then reads past its end. In every other case it
    returns a volume. *)
Theorem FourDToThreeDImage_undefined_iff (img4D : Image4D) :
  let '(s0, s1, s2, s3) := size4 img4D in
  let size3D := (s0, s1, wrap64 (s2 * wrap64 (to_int s3))) in
  let bytecount := wrap64 (NumberOfPixels3 size3D * sizeof_PixelValueType) in
  (FourDToThreeDImage img4D = Undefined <->
   Z.of_nat (length (buffer4 img4D)) < bytecount) /\
  (bytecount <= Z.of_nat (length (buffer4 img4D)) ->
   exists out, FourDToThreeDImage img4D = Done out /\ size3 out = size3D).
Proof.
  unfold FourDToThreeDImage. destruct (size4 img4D) as [[[s0 s1] s2] s3]. cbv zeta.
  destruct (decide _) as [Hne|_]; [contradiction|].
  set (size3D := (s0, s1, wrap64 (s2 * wrap64 (to_int s3)))).
  pose proof (NumberOfPixels3_bounds size3D) as Hpix.
  unfold memcpy, Allocate. rewrite length_replicate.
  assert (0 <= wrap64 (NumberOfPixels3 size3D * sizeof_PixelValueType)
          <= NumberOfPixels3 size3D * sizeof_PixelValueType) as Hn.
  { unfold wrap64, sizeof_PixelValueType.
    split; [apply Z.mod_pos_bound; lia | apply Z.mod_le; lia]. }
  set (n := wrap64 (NumberOfPixels3 size3D * sizeof_PixelValueType)) in *.
  assert (n <= Z.of_nat (Z.to_nat (NumberOfPixels3 size3D * sizeof_PixelValueType)))
    as Hdst by (unfold sizeof_PixelValueType in *; lia).
  destruct (decide _) as [[_ Hsrc]|Hshort]; cbn [mbind outcome_bind].
  - split; [split; [discriminate | intros Hlt; exfalso; lia]|].
    intros _. eexists. split; reflexivity.
  - assert (Z.of_nat (length (buffer4 img4D)) < n) as Hlt.
    { apply Z.nle_gt. intros Hle. apply Hshort. split; assumption. }
    split; [split; [intros _; exact Hlt | reflexivity]|].
    intros Hge. exfalso. lia.
Qed.

Lemma FourDToThreeDImage_undefined_iff_witness :
  FourDToThreeDImage sample_volume4D_short = Undefined /\
  exists out, FourDToThreeDImage sample_volume4D = Done out /\ size3 out = (2, 2, 6).
Proof.
  split.
  - apply (FourDToThreeDImage_undefined_iff sample_volume4D_short). vm_compute. reflexivity.
  - apply (FourDToThreeDImage_undefined_iff sample_volume4D). vm_compute. discriminate.
Defined.

(** X10. Volume counts that are no positive [int]. With no volume
    ([m_NVolume] 0) the quotient size3D[2]/nVolumes divides by zero. With
    a count of 2^31 or more the [int] local is negative, its conversion to
    the unsigned size type is larger than any slice count, the quotient is
    0, and a volume with at least one slice is refused as not divisible,
    the message carrying the negative count. *)
Theorem ThreeDToFourDImage_degenerate_volume_count (c : DWIConverter) (img : Image3D)
    (cols rows totalSlices : Z) :
  size3 img = (cols, rows, totalSlices) ->
  (m_NVolume c = 0 -> ThreeDToFourDImage c img = Undefined) /\
  (2 ^ 31 <= m_NVolume c < 2 ^ 32 ->
   0 < totalSlices < 2 ^ 63 ->
   ThreeDToFourDImage c img =
   Throw (SlicesNotDivisible totalSlices (m_NVolume c - 2 ^ 32) totalSlices)).
Proof.
  intros Hsize. unfold ThreeDToFourDImage, GetNVolume. rewrite Hsize. split.
  - intros ->. reflexivity.
  - intros Hnv Hslices. cbv zeta.
    assert (to_int (m_NVolume c) = m_NVolume c - 2 ^ 32) as ->.
    { unfold to_int. rewrite Z.mod_small by lia.
      destruct (decide _); [lia | reflexivity]. }
    assert (wrap64 (m_NVolume c - 2 ^ 32) = 2 ^ 64 + (m_NVolume c - 2 ^ 32)) as ->.
    { unfold wrap64. symmetry. apply (Z.mod_unique_pos _ _ (-1)); lia. }
    set (nv := 2 ^ 64 + (m_NVolume c - 2 ^ 32)).
    destruct (decide (nv = 0)) as [Hz|_]; [subst nv; lia|].
    rewrite (Z.div_small totalSlices nv) by (subst nv; lia).
    rewrite (Z.mod_small totalSlices nv) by (subst nv; lia).
    change (wrap64 (0 * nv)) with 0.
    destruct (decide (0 <> totalSlices)) as [_|Heq]; [reflexivity | lia].
Qed.

Lemma ThreeDToFourDImage_degenerate_volume_count_witness :
  let unloaded :=
    {| m_InputFileNames := [];
       m_allowLossyConversion := false;
       m_FSLFileFormatHorizontalBy3Rows := false;
       m_SlicesPerVolume := 0;
       m_NSlice := 0;
       m_NVolume := 0;
       m_NRRDSpaceDefinition := "left-posterior-superior";
       m_Volume := sample_volume;
       m_MeasurementFrame := Mat3_identity;
       m_BValues := [];
       m_DiffusionVectors := [];
       m_CommonDicomFieldsMap := [] |} in
  size3 sample_volume = (2, 2, 7) /\
  m_NVolume unloaded = 0 /\
  ThreeDToFourDImage unloaded sample_volume = Undefined.
Proof.
  intros unloaded. split; [reflexivity|]. split; [reflexivity|].
  apply (ThreeDToFourDImage_degenerate_volume_count unloaded sample_volume 2 2 7);
    reflexivity.
Defined.

(** ** Positions in file names *)

Lemma string_app_inv_head (a b c : string) : a +:+ b = a +:+ c -> b = c.
Proof.
  induction a as [|x a IH]; intros H; [exact H|].
  change (String x (a +:+ b) = String x (a +:+ c)) in H.
  injection H as H. apply IH, H.
Qed.

Lemma string_length_app (a b : string) :
  String.length (a +:+ b) = (String.length a + String.length b)%nat.
Proof.
  induction a as [|x a IH]; [reflexivity|].
  change (S (String.length (a +:+ b)) = S (String.length a + String.length b)).
  rewrite IH. reflexivity.
Qed.

Lemma substring_0_app (a b : string) : substring 0 (String.length a) (a +:+ b) = a.
Proof.
  induction a as [|x a IH]; [destruct b; reflexivity|].
  change (String x (substring 0 (String.length a) (a +:+ b)) = String x a).
  rewrite IH. reflexivity.
Qed.

Lemma substring_app_right (a b : string) (n : nat) :
  substring (String.length a) n (a +:+ b) = substring 0 n b.
Proof.
  induction a as [|x a IH]; [reflexivity|].
  change (substring (String.length a) n (a +:+ b) = substring 0 n b). exact IH.
Qed.

Lemma length_substring_le (s : string) (q n : nat) :
  (String.length (substring q n s) <= String.length s - q)%nat /\
  (String.length (substring q n s) <= n)%nat.
Proof.
  revert q n. induction s as [|x s IH]; intros q n.
  - destruct q, n; cbn; lia.
  - destruct q as [|q].
    + destruct n as [|n]; [cbn; lia|].
      change (substring 0 (S n) (String x s)) with (String x (substring 0 n s)).
      destruct (IH 0%nat n) as [H1 H2]. cbn [String.length]. lia.
    + change (substring (S q) n (String x s)) with (substring q n s).
      destruct (IH q n) as [H1 H2]. cbn [String.length]. lia.
Qed.

(** An occurrence lies inside the string. *)
Lemma occurrence_inside (s pat : string) (q : nat) :
  substring q (String.length pat) s = pat -> (q + String.length pat <= String.length s)%nat
                                             \/ pat = EmptyString.
Proof.
  intros Hocc. destruct pat as [|x pat]; [right; reflexivity|left].
  pose proof (length_substring_le s q (String.length (String x pat))) as [Hle _].
  rewrite Hocc in Hle. cbn [String.length] in *. lia.
Qed.

Lemma occurrence_get (s pat : string) (q j : nat) :
  substring q (String.length pat) s = pat -> (j < String.length pat)%nat ->
  String.get (j + q) s = String.get j pat.
Proof.
  intros Hocc Hj.
  rewrite <- (substring_correct1 s q (String.length pat) j Hj), Hocc. reflexivity.
Qed.

Lemma substring_app_left (a b : string) (q n : nat) :
  (q + n <= String.length a)%nat -> substring q n (a +:+ b) = substring q n a.
Proof.
  intros Hle. apply get_correct. intros p.
  destruct (Nat.lt_ge_cases p n) as [Hp|Hp].
  - rewrite !substring_correct1 by exact Hp. symmetry. apply append_correct1. lia.
  - rewrite !substring_correct2 by exact Hp. reflexivity.
Qed.

(** The leading part of an occurrence is an occurrence of the leading
    part of the pattern. *)
Lemma substring_shorter (s t : string) (q n m : nat) :
  substring q n s = t -> (m <= n)%nat -> substring q m s = substring 0 m t.
Proof.
  intros Hocc Hm. apply get_correct. intros p.
  destruct (Nat.lt_ge_cases p m) as [Hp|Hp].
  - rewrite !substring_correct1 by exact Hp. rewrite <- Hocc.
    rewrite substring_correct1 by lia. rewrite Nat.add_0_r. reflexivity.
  - rewrite !substring_correct2 by exact Hp. reflexivity.
Qed.

(** A string with an occurrence at [p] is the part before it, the pattern
    and a rest. *)
Lemma occurrence_split (pat s : string) (p : nat) :
  substring p (String.length pat) s = pat ->
  exists rest, s = substring 0 p s +:+ pat +:+ rest.
Proof.
  revert s. induction p as [|p IH]; intros s Hocc.
  - assert (substring 0 0 s = EmptyString) as -> by (destruct s; reflexivity).
    change (exists rest, s = pat +:+ rest).
    revert s Hocc. induction pat as [|x pat IHpat]; intros s Hocc.
    + exists s. reflexivity.
    + destruct s as [|y s]; [discriminate|].
      change (String y (substring 0 (String.length pat) s) = String x pat) in Hocc.
      injection Hocc as -> Hocc. destruct (IHpat s Hocc) as [rest Hrest].
      exists rest. change (String x s = String x (pat +:+ rest)). rewrite <- Hrest.
      reflexivity.
  - destruct s as [|y s].
    + cbn in Hocc. subst pat. exists EmptyString. reflexivity.
    + change (substring p (String.length pat) s = pat) in Hocc.
      destruct (IH s Hocc) as [rest Hrest]. exists rest.
      change (String y s = String y (substring 0 p s +:+ pat +:+ rest)).
      rewrite <- Hrest. reflexivity.
Qed.

(** [find] returns the position of an occurrence that has none before it,
    and [npos] when there is no occurrence. *)
Lemma find_first (s pat : string) (p : nat) :
  pat <> EmptyString ->
  substring p (String.length pat) s = pat ->
  (forall q, (q < p)%nat -> substring q (String.length pat) s <> pat) ->
  find s pat = Some p.
Proof.
  intros Hpat Hocc Hfirst. unfold find.
  destruct (index 0 pat s) as [p'|] eqn:Hidx.
  - f_equal. destruct (Nat.lt_trichotomy p' p) as [Hlt|[Heq|Hgt]]; [|exact Heq|].
    + exfalso. apply (Hfirst p' Hlt). apply (index_correct1 0). exact Hidx.
    + exfalso. apply (index_correct2 0 p' pat s Hidx p); [lia | exact Hgt | exact Hocc].
  - exfalso. apply (index_correct3 0 p pat s Hidx Hpat); [lia | exact Hocc].
Qed.

Lemma find_none (s pat : string) :
  (forall q, substring q (String.length pat) s <> pat) -> find s pat = None.
Proof.
  intros Hnone. unfold find. destruct (index 0 pat s) as [p|] eqn:Hidx; [|reflexivity].
  exfalso. apply (Hnone p). apply (index_correct1 0). exact Hidx.
Qed.

Lemma find_Some_occurrence (s pat : string) (p : nat) :
  find s pat = Some p ->
  substring p (String.length pat) s = pat /\
  forall q, (q < p)%nat -> substring q (String.length pat) s <> pat.
Proof.
  unfold find. intros Hidx. split; [apply (index_correct1 0); exact Hidx|].
  intros q Hq. apply (index_correct2 0 p pat s Hidx q); [lia | exact Hq].
Qed.

Lemma find_None_occurrence (s pat : string) (q : nat) :
  pat <> EmptyString -> find s pat = None -> substring q (String.length pat) s <> pat.
Proof.
  unfold find. intros Hpat Hidx. apply (index_correct3 0 q pat s Hidx Hpat). lia.
Qed.

(** A pattern whose first character occurs nowhere else in it, put behind
    a stem that does not contain it: the first occurrence is at the end of
    the stem. *)
Lemma find_behind_stem (stem pat rest : string) (c : ascii) :
  String.get 0 pat = Some c ->
  (forall j, (0 < j < String.length pat)%nat -> String.get j pat <> Some c) ->
  find stem pat = None ->
  find (stem +:+ pat +:+ rest) pat = Some (String.length stem).
Proof.
  intros Hc Hother Hstem.
  assert (pat <> EmptyString) as Hpat by (intros ->; discriminate).
  apply find_first; [exact Hpat | |].
  - rewrite substring_app_right. apply substring_0_app.
  - intros q Hq Hocc.
    destruct (Nat.le_gt_cases (q + String.length pat) (String.length stem)) as [Hin|Hover].
    + rewrite substring_app_left in Hocc by exact Hin.
      exact (find_None_occurrence stem pat q Hpat Hstem Hocc).
    + apply (Hother (String.length stem - q)%nat); [lia|].
      rewrite <- (occurrence_get _ pat q _ Hocc) by lia.
      replace (String.length stem - q + q)%nat with (0 + String.length stem)%nat by lia.
      rewrite <- append_correct2.
      destruct pat as [|x pat]; [discriminate|]. exact Hc.
Qed.

Lemma find_in_stem (stem rest pat : string) (p : nat) :
  pat <> EmptyString ->
  find (stem +:+ rest) pat = Some p -> (String.length stem <= p)%nat ->
  find stem pat = None.
Proof.
  intros Hpat Hfind Hp. apply find_none. intros q Hocc.
  destruct (occurrence_inside stem pat q Hocc) as [Hin|Hempty]; [|contradiction].
  destruct (find_Some_occurrence _ _ _ Hfind) as [_ Hfirst].
  apply (Hfirst q); [|rewrite substring_app_left by exact Hin; exact Hocc].
  destruct pat; [contradiction|]. cbn [String.length] in Hin. lia.
Qed.

Lemma find_nhdr_behind_stem (stem rest : string) :
  find stem ".nhdr" = None ->
  find (stem +:+ ".nhdr" +:+ rest) ".nhdr" = Some (String.length stem).
Proof.
  apply (find_behind_stem stem ".nhdr" rest "."%char); [reflexivity|].
  intros j Hj. cbn [String.length] in Hj.
  do 5 (destruct j as [|j]; [first [lia | discriminate]|]). lia.
Qed.

Lemma find_nii_behind_stem (stem rest : string) :
  find stem ".nii" = None ->
  find (stem +:+ ".nii" +:+ rest) ".nii" = Some (String.length stem).
Proof.
  apply (find_behind_stem stem ".nii" rest "."%char); [reflexivity|].
  intros j Hj. cbn [String.length] in Hj.
  do 4 (destruct j as [|j]; [first [lia | discriminate]|]). lia.
Qed.

(** Where ".nii.gz" occurs, ".nii" occurs. *)
Lemma nii_gz_occurrence (s : string) (q : nat) :
  substring q 7 s = ".nii.gz"%string -> substring q 4 s = ".nii"%string.
Proof.
  intros Hocc. rewrite (substring_shorter s ".nii.gz" q 7 4 Hocc) by lia. reflexivity.
Qed.

Lemma find_nii_gz_behind_stem (stem rest : string) :
  find stem ".nii" = None ->
  find (stem +:+ ".nii.gz" +:+ rest) ".nii.gz" = Some (String.length stem).
Proof.
  intros Hstem. apply find_first; [discriminate | |].
  - rewrite substring_app_right. apply (substring_0_app ".nii.gz").
  - intros q Hq Hocc. apply nii_gz_occurrence in Hocc.
    pose proof (find_nii_behind_stem stem (".gz" +:+ rest) Hstem) as Hnii.
    destruct (find_Some_occurrence _ _ _ Hnii) as [_ Hfirst].
    exact (Hfirst q Hq Hocc).
Qed.

Lemma find_nii_gz_absent (stem : string) :
  find stem ".nii" = None -> find (stem +:+ ".nii") ".nii.gz" = None.
Proof.
  intros Hstem. apply find_none. intros q Hocc.
  destruct (occurrence_inside _ ".nii.gz" q Hocc) as [Hin|Hempty]; [|discriminate].
  rewrite string_length_app in Hin. cbn [String.length] in Hin.
  apply nii_gz_occurrence in Hocc.
  pose proof (find_nii_behind_stem stem EmptyString Hstem) as Hnii.
  destruct (find_Some_occurrence _ _ _ Hnii) as [_ Hfirst].
  apply (Hfirst q); [lia | exact Hocc].
Qed.

(** ** The data file beside a detached NRRD header *)

(** X11. [ManualWriteNRRDFile] names a data file exactly when the header
    name is a stem free of ".nhdr", then ".nhdr", then any rest; the data
    file is the stem with ".raw", so whatever follows the first ".nhdr" is
    dropped. The data file name is never the header name: the pixel data
    never replaces the header. *)
Theorem nrrd_data_name_spec (outputVolumeHeaderName dataName : string) :
  (nrrd_data_name outputVolumeHeaderName = Some dataName <->
   exists stem rest,
     outputVolumeHeaderName = stem +:+ ".nhdr" +:+ rest /\
     find stem ".nhdr" = None /\
     dataName = stem +:+ ".raw") /\
  (nrrd_data_name outputVolumeHeaderName = Some dataName ->
   dataName <> outputVolumeHeaderName).
Proof.
  assert (nrrd_data_name outputVolumeHeaderName = Some dataName ->
          exists stem rest,
            outputVolumeHeaderName = stem +:+ ".nhdr" +:+ rest /\
            find stem ".nhdr" = None /\
            dataName = stem +:+ ".raw") as Hsplit.
  { unfold nrrd_data_name.
    destruct (find outputVolumeHeaderName ".nhdr") as [p|] eqn:Hfind; [|discriminate].
    intros [= <-].
    destruct (find_Some_occurrence _ _ _ Hfind) as [Hocc _].
    destruct (occurrence_split ".nhdr" outputVolumeHeaderName p Hocc) as [rest Hrest].
    exists (substr0 outputVolumeHeaderName p), rest.
    split; [exact Hrest|]. split; [|reflexivity].
    unfold substr0. rewrite Hrest in Hfind.
    apply (find_in_stem _ _ _ p) in Hfind; [exact Hfind | discriminate |].
    pose proof (length_substring_le outputVolumeHeaderName 0 p) as [_ Hle]. exact Hle. }
  split; [split; [exact Hsplit|]|].
  - intros (stem & rest & -> & Hstem & ->). unfold nrrd_data_name.
    rewrite (find_nhdr_behind_stem stem rest Hstem).
    unfold substr0. rewrite substring_0_app. reflexivity.
  - intros Hname. destruct (Hsplit Hname) as (stem & rest & -> & _ & ->).
    intros Heq. apply string_app_inv_head in Heq. discriminate.
Qed.

Lemma nrrd_data_name_spec_witness :
  nrrd_data_name "scan.nhdr.old" = Some "scan.raw"%string /\
  "scan.raw"%string <> "scan.nhdr.old"%string /\
  exists stem rest,
    "scan.nhdr.old"%string = stem +:+ ".nhdr" +:+ rest /\
    find stem ".nhdr" = None /\
    "scan.raw"%string = stem +:+ ".raw".
Proof.
  destruct (nrrd_data_name_spec "scan.nhdr.old" "scan.raw") as [[Hsplit _] Hdiffers].
  split; [reflexivity|]. split; [exact (Hdiffers eq_refl) | exact (Hsplit eq_refl)].
Defined.

(** ** NIfTI names *)

Section NiftiNames.

Variable ImageFileWriter_Update :
  string -> Image4D -> World -> World * option ExceptionObject.
Variable WriteBValues : list double -> string -> World -> World * exit_status.
Variable WriteBVectors : list Vec3 -> string -> World -> World * exit_status.
Variable show_exception : ExceptionObject -> string.

(** X12. [has_valid_nifti_extension] ends the process exactly when ".nii"
    occurs nowhere in the name: listing ".nii.gz" first changes the
    position that is returned, never the verdict. A position it returns is
    that of an occurrence of ".nii", at or after the first one. *)
Theorem has_valid_nifti_extension_verdict (outputVolumeHeaderName : string) (w : World) :
  (find outputVolumeHeaderName ".nii" = None ->
   has_valid_nifti_extension outputVolumeHeaderName w =
   (write_cerr
      (concat_strings
         ["FSL Format output chosen, "; "but output Volume not a recognized ";
          "NIfTI filename "; outputVolumeHeaderName; endl]) w,
    Exit 1)) /\
  (forall first,
      find outputVolumeHeaderName ".nii" = Some first ->
      exists extensionPos,
        has_valid_nifti_extension outputVolumeHeaderName w = (w, Done extensionPos) /\
        substring extensionPos 4 outputVolumeHeaderName = ".nii"%string /\
        (first <= extensionPos)%nat).
Proof.
  unfold has_valid_nifti_extension, extList, first_extension. split.
  - intros Hnii.
    destruct (find outputVolumeHeaderName ".nii.gz") as [p|] eqn:Hgz.
    + exfalso. destruct (find_Some_occurrence _ _ _ Hgz) as [Hocc _].
      apply nii_gz_occurrence in Hocc.
      exact (find_None_occurrence _ ".nii" p ltac:(discriminate) Hnii Hocc).
    + rewrite Hnii. reflexivity.
  - intros first Hnii. destruct (find_Some_occurrence _ _ _ Hnii) as [Hfirst Hbefore].
    destruct (find outputVolumeHeaderName ".nii.gz") as [p|] eqn:Hgz.
    + exists p. split; [reflexivity|].
      destruct (find_Some_occurrence _ _ _ Hgz) as [Hocc _].
      apply nii_gz_occurrence in Hocc. split; [exact Hocc|].
      apply Nat.le_ngt. intros Hlt. exact (Hbefore p Hlt Hocc).
    + rewrite Hnii. exists first. split; [reflexivity|]. split; [exact Hfirst | lia].
Qed.

(** X13. With an accepted frame, an image writer that returns, no sidecar
    names given and an output name that is a stem free of ".nii" followed
    by ".nii.gz" or by ".nii", the b-values go to the stem with ".bval"
    and then the vectors to the stem with ".bvec"; a failing b-value
    writer ends the export before the vectors are written. *)
Theorem WriteFSLFormattedFileSet_default_sidecars (c : DWIConverter)
    (stem ext : string) (img4D : Image4D) (w w1 : World) :
  frame_rejected (m_MeasurementFrame c) = false ->
  ext ∈ extList ->
  find stem ".nii" = None ->
  ImageFileWriter_Update (stem +:+ ext) (stamp_xform_codes4 img4D) w = (w1, None) ->
  WriteFSLFormattedFileSet ImageFileWriter_Update WriteBValues WriteBVectors
    show_exception c (stem +:+ ext) EmptyString EmptyString img4D w =
  match WriteBValues (m_BValues c) (stem +:+ ".bval") w1 with
  | (w3, EXIT_FAILURE) => (w3, Throw (FailedToWriteBVal (stem +:+ ".bval")))
  | (w3, EXIT_SUCCESS) =>
      match WriteBVectors (m_DiffusionVectors c) (stem +:+ ".bvec") w3 with
      | (w4, EXIT_FAILURE) => (w4, Throw (FailedToWriteBVec (stem +:+ ".bvec")))
      | (w4, EXIT_SUCCESS) => (w4, Done tt)
      end
  end.
Proof.
  intros Hframe Hext Hstem Hwriter.
  rewrite WriteFSLFormattedFileSet_frame_accepted by exact Hframe.
  rewrite Hwriter.
  assert (first_extension extList (stem +:+ ext) = Some (String.length stem)) as ->.
  { unfold extList in *. apply elem_of_cons in Hext as [->|Hext].
    - cbn [first_extension].
      pose proof (find_nii_gz_behind_stem stem EmptyString Hstem) as Hgz.
      change (".nii.gz" +:+ EmptyString) with ".nii.gz"%string in Hgz.
      rewrite Hgz. reflexivity.
    - apply list_elem_of_singleton in Hext as ->. cbn [first_extension].
      rewrite (find_nii_gz_absent stem Hstem).
      pose proof (find_nii_behind_stem stem EmptyString Hstem) as Hnii.
      change (".nii" +:+ EmptyString) with ".nii"%string in Hnii.
      rewrite Hnii. reflexivity. }
  unfold sidecar_name. destruct (decide (EmptyString = EmptyString)) as [_|Hne];
    [|contradiction].
  unfold substr0. rewrite substring_0_app. reflexivity.
Qed.

End NiftiNames.

Lemma has_valid_nifti_extension_verdict_witness :
  find "a.nii.b.nii.gz" ".nii" = Some 1%nat /\
  exists extensionPos,
    has_valid_nifti_extension "a.nii.b.nii.gz" empty_world =
    (empty_world, Done extensionPos) /\
    substring extensionPos 4 "a.nii.b.nii.gz" = ".nii"%string /\
    (1 <= extensionPos)%nat /\
    extensionPos = 7%nat.
Proof.
  split; [reflexivity|].
  destruct (has_valid_nifti_extension_verdict "a.nii.b.nii.gz" empty_world) as [_ Hsome].
  destruct (Hsome 1%nat eq_refl) as (extensionPos & Hvalid & Hocc & Hle).
  exists extensionPos. split; [exact Hvalid|]. split; [exact Hocc|].
  split; [exact Hle|].
  revert Hvalid. vm_compute. intros [= <-]. reflexivity.
Defined.

Lemma WriteFSLFormattedFileSet_default_sidecars_witness :
  let c := sample_converter bvalues_single_shell Mat3_identity in
  let exported :=
    WriteFSLFormattedFileSet writer_stores4 sample_WriteBValues sample_WriteBVectors
      sample_show_exception c ("out/sub-01.v2/dwi" +:+ ".nii.gz") EmptyString EmptyString
      sample_volume4D empty_world in
  frame_rejected (m_MeasurementFrame c) = false /\
  find "out/sub-01.v2/dwi" ".nii" = None /\
  snd exported = Done tt /\
  is_Some (files (fst exported) !! "out/sub-01.v2/dwi.bval"%string) /\
  is_Some (files (fst exported) !! "out/sub-01.v2/dwi.bvec"%string).
Proof.
  intros c exported.
  assert (frame_rejected (m_MeasurementFrame c) = false) as Hframe
    by (vm_compute; reflexivity).
  split; [exact Hframe|]. split; [reflexivity|].
  subst exported.
  rewrite (WriteFSLFormattedFileSet_default_sidecars writer_stores4 sample_WriteBValues
             sample_WriteBVectors sample_show_exception c "out/sub-01.v2/dwi" ".nii.gz"
             sample_volume4D empty_world
             (write_file "out/sub-01.v2/dwi.nii.gz" (buffer4 sample_volume4D) empty_world)
             Hframe ltac:(apply list_elem_of_here) eq_refl eq_refl).
  split; [reflexivity|]. split; vm_compute; eexists; reflexivity.
Defined.

(** ** The comment block *)

Lemma no_newline_app (a b : string) :
  no_newline (a +:+ b) = no_newline a && no_newline b.
Proof.
  induction a as [|x a IH]; [reflexivity|].
  change (negb (Ascii.eqb x (ascii_of_nat 10)) && no_newline (a +:+ b) =
          negb (Ascii.eqb x (ascii_of_nat 10)) && no_newline a && no_newline b).
  rewrite IH. apply andb_assoc.
Qed.

Section FileCommentProperties.

Variable show_double : double -> string.

(** X14. When the version, the conversion mode and the printed threshold
    hold no line break, the text [MakeFileComment] returns is a sequence of
    lines that each start with '#' and end in a line break: seven lines,
    and one more for each option that differs from its default. A
    threshold within 1e-4 of 0.2, or one that is NaN, adds no line. *)
Theorem MakeFileComment_lines (version : string)
    (useBMatrixGradientDirections useIdentityMeaseurementFrame : bool)
    (smallGradientThreshold : double) (conversionMode : string) :
  no_newline version = true ->
  no_newline conversionMode = true ->
  no_newline (show_double smallGradientThreshold) = true ->
  let thresholdShown := dgt (dabs (dsub smallGradientThreshold d0_2)) d1e_4 in
  exists lines,
    MakeFileComment show_double version useBMatrixGradientDirections
      useIdentityMeaseurementFrame smallGradientThreshold conversionMode =
    concat_strings (map (fun line => "#" +:+ line +:+ endl) lines) /\
    Forall (fun line => no_newline line = true) lines /\
    length lines =
      (7 + (if thresholdShown then 1 else 0) +
       (if useIdentityMeaseurementFrame then 1 else 0) +
       (if useBMatrixGradientDirections then 1 else 0))%nat /\
    (smallGradientThreshold = S754_nan -> thresholdShown = false).
Proof.
  intros Hversion Hmode Hshown thresholdShown. subst thresholdShown.
  unfold MakeFileComment.
  set (fixed :=
         [EmptyString; EmptyString;
          " This file was created by DWIConvert version " +:+ version;
          " https://github.com/BRAINSia/BRAINSTools"%string;
          " part of the BRAINSTools package."%string;
          " Command line options:"%string;
          " --conversionMode " +:+ conversionMode]).
  set (threshold :=
         if dgt (dabs (dsub smallGradientThreshold d0_2)) d1e_4
         then [" --smallGradientThreshold " +:+ show_double smallGradientThreshold]
         else []).
  set (identity :=
         if useIdentityMeaseurementFrame
         then [" --useIdentityMeasurementFrame"%string] else []).
  set (bmatrix :=
         if useBMatrixGradientDirections
         then [" --useBMatrixGradientDirections"%string] else []).
  exists (fixed ++ threshold ++ identity ++ bmatrix).
  split; [|split; [|split]].
  - subst fixed threshold identity bmatrix.
    destruct (dgt _ _), useIdentityMeaseurementFrame, useBMatrixGradientDirections;
      cbn [map app concat_strings]; rewrite ?string_app_assoc; reflexivity.
  - rewrite !Forall_app. subst fixed threshold identity bmatrix.
    split; [|split; [|split]].
    + repeat apply Forall_cons_2; try apply Forall_nil_2; try reflexivity.
      * rewrite no_newline_app, Hversion. reflexivity.
      * rewrite no_newline_app, Hmode. reflexivity.
    + destruct (dgt _ _); [|apply Forall_nil_2].
      apply Forall_cons_2; [|apply Forall_nil_2].
      rewrite no_newline_app, Hshown. reflexivity.
    + destruct useIdentityMeaseurementFrame; [|apply Forall_nil_2].
      apply Forall_cons_2; [reflexivity | apply Forall_nil_2].
    + destruct useBMatrixGradientDirections; [|apply Forall_nil_2].
      apply Forall_cons_2; [reflexivity | apply Forall_nil_2].
  - rewrite !length_app. subst fixed threshold identity bmatrix.
    destruct (dgt _ _), useIdentityMeaseurementFrame, useBMatrixGradientDirections;
      reflexivity.
  - intros ->. vm_compute. reflexivity.
Qed.

End FileCommentProperties.

Lemma MakeFileComment_lines_witness :
  let threshold := ddiv (double_of_Z 1) (double_of_Z 4) in
  no_newline "4.8.0" = true /\
  no_newline "DicomToNrrd" = true /\
  no_newline (sample_DoubleConvert threshold) = true /\
  dgt (dabs (dsub threshold d0_2)) d1e_4 = true /\
  exists lines,
    MakeFileComment sample_DoubleConvert "4.8.0" false true threshold "DicomToNrrd" =
    concat_strings (map (fun line => "#" +:+ line +:+ endl) lines) /\
    Forall (fun line => no_newline line = true) lines /\
    length lines = 9%nat.
Proof.
  intros threshold.
  split; [reflexivity|]. split; [reflexivity|]. split; [vm_compute; reflexivity|].
  split; [vm_compute; reflexivity|].
  destruct (MakeFileComment_lines sample_DoubleConvert "4.8.0" false true threshold
              "DicomToNrrd" eq_refl eq_refl ltac:(vm_compute; reflexivity))
    as (lines & Htext & Hlines & Hcount & _).
  exists lines. split; [exact Htext|]. split; [exact Hlines|].
  rewrite Hcount. vm_compute. reflexivity.
Defined.

(** ** Gradients in the identity measurement frame *)

Section IdentityFrameProperties.

Variable GetInverse : Mat3 -> outcome Mat3.
Variable Mat3_vec_mul : Mat3 -> Vec3 -> Vec3.
Variable ImageFileWriter_Update :
  string -> Image4D -> World -> World * option ExceptionObject.
Variable WriteBValues : list double -> string -> World -> World * exit_status.
Variable WriteBVectors : list Vec3 -> string -> World -> World * exit_status.
Variable show_exception : ExceptionObject -> string.

Lemma identity_frame_loop (inverse : Mat3) (vectors : list Vec3) (n k : nat)
    (gradientVectors : list Vec3) :
  length vectors = (k + n)%nat ->
  for_loop n k (identity_frame_body Mat3_vec_mul inverse vectors) gradientVectors =
  Done (gradientVectors ++ map (Mat3_vec_mul inverse) (drop k vectors)).
Proof.
  revert k gradientVectors. induction n as [|n IH]; intros k gradientVectors Hv.
  - simpl. rewrite drop_ge by lia. simpl. rewrite app_nil_r. reflexivity.
  - cbn [for_loop].
    destruct (lookup_lt_is_Some_2 vectors k ltac:(lia)) as [v Hvk].
    assert (identity_frame_body Mat3_vec_mul inverse vectors k gradientVectors =
            Done (gradientVectors ++ [Mat3_vec_mul inverse v])) as ->
      by (unfold identity_frame_body; rewrite Hvk; reflexivity).
    cbn [mbind outcome_bind].
    rewrite IH by lia. rewrite (drop_S vectors v k Hvk). simpl.
    rewrite <- app_assoc. reflexivity.
Qed.

Lemma ConvertBVectorsToIdentityMeasurementFrame_result (c : DWIConverter) :
  ConvertBVectorsToIdentityMeasurementFrame GetInverse Mat3_vec_mul c =
  inverse ← GetInverse (m_MeasurementFrame c);
  Done (set_MeasurementFrame
          (set_DiffusionVectors c (map (Mat3_vec_mul inverse) (m_DiffusionVectors c)))
          Mat3_identity).
Proof.
  unfold ConvertBVectorsToIdentityMeasurementFrame, GetMeasurementFrame.
  destruct (GetInverse (m_MeasurementFrame c)) as [inverse|e|code|]; try reflexivity.
  simpl. rewrite identity_frame_loop by (simpl; lia). reflexivity.
Qed.

(** X15. [ConvertBVectorsToIdentityMeasurementFrame]: when the frame has
    an inverse, every gradient vector is replaced by the inverse frame
    applied to it, in the same order, the frame becomes the identity and
    the b-values, the volume and the counts are untouched; the loop never
    leaves the vector. When the inversion throws, the exception is passed
    on. *)
Theorem ConvertBVectorsToIdentityMeasurementFrame_spec (c : DWIConverter) :
  (forall inverse,
      GetInverse (m_MeasurementFrame c) = Done inverse ->
      exists c',
        ConvertBVectorsToIdentityMeasurementFrame GetInverse Mat3_vec_mul c = Done c' /\
        m_MeasurementFrame c' = Mat3_identity /\
        length (m_DiffusionVectors c') = length (m_DiffusionVectors c) /\
        (forall k v,
            m_DiffusionVectors c !! k = Some v ->
            m_DiffusionVectors c' !! k = Some (Mat3_vec_mul inverse v)) /\
        m_BValues c' = m_BValues c /\
        m_Volume c' = m_Volume c /\
        m_NVolume c' = m_NVolume c /\
        m_SlicesPerVolume c' = m_SlicesPerVolume c /\
        m_NSlice c' = m_NSlice c /\
        m_NRRDSpaceDefinition c' = m_NRRDSpaceDefinition c /\
        m_CommonDicomFieldsMap c' = m_CommonDicomFieldsMap c) /\
  (forall e,
      GetInverse (m_MeasurementFrame c) = Throw e ->
      ConvertBVectorsToIdentityMeasurementFrame GetInverse Mat3_vec_mul c = Throw e).
Proof.
  rewrite ConvertBVectorsToIdentityMeasurementFrame_result. split.
  - intros inverse ->. eexists. split; [reflexivity|].
    cbn [m_MeasurementFrame m_DiffusionVectors m_BValues m_Volume m_NVolume
         m_SlicesPerVolume m_NSlice m_NRRDSpaceDefinition m_CommonDicomFieldsMap
         set_MeasurementFrame set_DiffusionVectors].
    split; [reflexivity|]. split; [apply length_map|].
    split; [|repeat split].
    intros k v Hk. rewrite list_lookup_fmap, Hk. reflexivity.
  - intros e ->. reflexivity.
Qed.

(** X16. After [ConvertBVectorsToIdentityMeasurementFrame] has returned,
    [WriteFSLFormattedFileSet] passes its frame test whatever the frame was
    before: the image writer runs, an exception it throws is the one the
    export throws, and when it returns the export does not end in the
    identity-frame error. *)
Theorem WriteFSLFormattedFileSet_after_identity_frame (c c' : DWIConverter)
    (outputVolumeHeaderName outputBValues outputBVectors : string)
    (img4D : Image4D) (w : World) :
  ConvertBVectorsToIdentityMeasurementFrame GetInverse Mat3_vec_mul c = Done c' ->
  let exported :=
    WriteFSLFormattedFileSet ImageFileWriter_Update WriteBValues WriteBVectors
      show_exception c' outputVolumeHeaderName outputBValues outputBVectors img4D w in
  frame_rejected (m_MeasurementFrame c') = false /\
  exists w1 thrown,
    ImageFileWriter_Update outputVolumeHeaderName (stamp_xform_codes4 img4D) w =
    (w1, thrown) /\
    (forall excp, thrown = Some excp -> snd exported = Throw excp) /\
    (thrown = None -> snd exported <> Throw OnlyIdentityMeasurementFrame).
Proof.
  intros Hconverted exported. subst exported.
  rewrite ConvertBVectorsToIdentityMeasurementFrame_result in Hconverted.
  destruct (GetInverse (m_MeasurementFrame c)) as [inverse|e|code|]; try discriminate.
  cbn [mbind outcome_bind] in Hconverted. injection Hconverted as <-.
  cbn [m_MeasurementFrame set_MeasurementFrame].
  assert (frame_rejected Mat3_identity = false) as Hframe by (vm_compute; reflexivity).
  split; [exact Hframe|].
  rewrite WriteFSLFormattedFileSet_frame_accepted by exact Hframe.
  destruct (ImageFileWriter_Update _ _ _) as [w1 [excp|]].
  - exists w1, (Some excp). split; [reflexivity|].
    split; [intros excp' [= <-]; reflexivity | discriminate].
  - exists w1, None. split; [reflexivity|]. split; [discriminate|]. intros _.
    destruct (first_extension _ _); [|discriminate].
    destruct (WriteBValues _ _ _) as [w3 [|]]; [|discriminate].
    destruct (WriteBVectors _ _ _) as [w4 [|]]; discriminate.
Qed.

End IdentityFrameProperties.

Lemma ConvertBVectorsToIdentityMeasurementFrame_spec_witness :
  let c := sample_converter bvalues_single_shell frame_quarter_turn in
  let singular := sample_converter bvalues_single_shell frame_singular in
  sample_GetInverse (m_MeasurementFrame c) =
    Done ((d0, d1, S754_zero true), (dz (-1), d0, d0), (d0, S754_zero true, d1)) /\
  (exists c',
      ConvertBVectorsToIdentityMeasurementFrame sample_GetInverse sample_Mat3_vec_mul c
      = Done c' /\
      m_MeasurementFrame c' = Mat3_identity /\
      length (m_DiffusionVectors c') = 7%nat /\
      m_DiffusionVectors c' !! 1%nat = Some (d0, dz (-1), d0) /\
      m_BValues c' = bvalues_single_shell) /\
  ConvertBVectorsToIdentityMeasurementFrame sample_GetInverse sample_Mat3_vec_mul
    singular =
  Throw (ImageIOException "Singular matrix. Determinant is 0.").
Proof.
  intros c singular.
  assert (sample_GetInverse (m_MeasurementFrame c) =
          Done ((d0, d1, S754_zero true), (dz (-1), d0, d0), (d0, S754_zero true, d1)))
    as Hinverse by (vm_compute; reflexivity).
  split; [exact Hinverse|].
  destruct (ConvertBVectorsToIdentityMeasurementFrame_spec sample_GetInverse
              sample_Mat3_vec_mul c) as [Hdone _].
  destruct (ConvertBVectorsToIdentityMeasurementFrame_spec sample_GetInverse
              sample_Mat3_vec_mul singular) as [_ Hthrow].
  split.
  - destruct (Hdone _ Hinverse) as (c' & Hc' & Hframe & Hlen & Hvec & Hb & _).
    exists c'. split; [exact Hc'|]. split; [exact Hframe|]. split; [exact Hlen|].
    split; [|exact Hb].
    etrans; [exact (Hvec 1%nat (d1, d0, d0) eq_refl)|]. vm_compute. reflexivity.
  - apply Hthrow. vm_compute. reflexivity.
Defined.

Lemma WriteFSLFormattedFileSet_after_identity_frame_witness :
  let c := sample_converter bvalues_single_shell frame_quarter_turn in
  let export c :=
    WriteFSLFormattedFileSet writer_stores4 sample_WriteBValues sample_WriteBVectors
      sample_show_exception c "dwi.nii.gz" EmptyString EmptyString sample_volume4D
      empty_world in
  snd (export c) = Throw OnlyIdentityMeasurementFrame /\
  exists c',
    ConvertBVectorsToIdentityMeasurementFrame sample_GetInverse sample_Mat3_vec_mul c
    = Done c' /\
    frame_rejected (m_MeasurementFrame c') = false /\
    snd (export c') <> Throw OnlyIdentityMeasurementFrame.
Proof.
  intros c export.
  split; [vm_compute; reflexivity|].
  pose proof (ConvertBVectorsToIdentityMeasurementFrame_result sample_GetInverse
                sample_Mat3_vec_mul c) as Hc'.
  assert (sample_GetInverse (m_MeasurementFrame c) =
          Done ((d0, d1, S754_zero true), (dz (-1), d0, d0), (d0, S754_zero true, d1)))
    as Hinverse by (vm_compute; reflexivity).
  rewrite Hinverse in Hc'. cbn [mbind outcome_bind] in Hc'.
  destruct (WriteFSLFormattedFileSet_after_identity_frame sample_GetInverse
              sample_Mat3_vec_mul writer_stores4 sample_WriteBValues sample_WriteBVectors
              sample_show_exception c _ "dwi.nii.gz" EmptyString EmptyString
              sample_volume4D empty_world Hc')
    as (Hframe & w1 & thrown & Hwriter & _ & Hnone).
  eexists. split; [exact Hc'|]. split; [exact Hframe|].
  apply Hnone. unfold writer_stores4 in Hwriter. congruence.
Defined.

(** ** The keys of the gradient entries *)

Lemma length_zeros (n : nat) : String.length (zeros n) = n.
Proof. induction n as [|n IH]; [reflexivity|]. cbn [zeros String.length]. rewrite IH. reflexivity. Qed.

Lemma uint_of_string_zeros (n : nat) (s : string) (d : Decimal.uint) :
  NilEmpty.uint_of_string s = Some d ->
  exists d', NilEmpty.uint_of_string (zeros n +:+ s) = Some d' /\ N.of_uint d' = N.of_uint d.
Proof.
  intros Hs. induction n as [|n [d' [Hd' Hval]]].
  - exists d. split; [exact Hs | reflexivity].
  - exists (Decimal.D0 d'). split; [|exact Hval].
    change (uint_of_char "0" (NilEmpty.uint_of_string (zeros n +:+ s)) =
            Some (Decimal.D0 d')).
    rewrite Hd'. reflexivity.
Qed.

Lemma uint_of_string_of_uint (d : Decimal.uint) :
  exists d',
    NilEmpty.uint_of_string (NilZero.string_of_uint d) = Some d' /\
    N.of_uint d' = N.of_uint d.
Proof.
  destruct d as [|d|d|d|d|d|d|d|d|d|d];
    [exists (Decimal.D0 Decimal.Nil); split; reflexivity | ..];
    eexists; (split; [apply NilEmpty.usu | reflexivity]).
Qed.

Lemma uint_of_string_show_unsigned (z : Z) :
  exists d, NilEmpty.uint_of_string (show_unsigned z) = Some d /\ N.of_uint d = Z.to_N z.
Proof.
  unfold show_unsigned.
  destruct (uint_of_string_of_uint (N.to_uint (Z.to_N z))) as (d & Hd & Hval).
  exists d. split; [exact Hd|]. rewrite Hval. apply DecimalN.Unsigned.of_to.
Qed.

(** The number a key stands for. *)
Lemma show_index4_decode (k : nat) :
  exists d, NilEmpty.uint_of_string (show_index4 k) = Some d /\ N.of_uint d = N.of_nat k.
Proof.
  unfold show_index4.
  destruct (uint_of_string_show_unsigned (Z.of_nat k)) as (d & Hd & Hval).
  destruct (uint_of_string_zeros
              (4 - String.length (show_unsigned (Z.of_nat k))) _ d Hd) as (d' & Hd' & Hval').
  exists d'. split; [exact Hd'|]. rewrite Hval', Hval. lia.
Qed.

Lemma length_string_of_uint (d : Decimal.uint) :
  String.length (NilEmpty.string_of_uint d) = Decimal.nb_digits d.
Proof.
  induction d as [|d IH|d IH|d IH|d IH|d IH|d IH|d IH|d IH|d IH|d IH];
    cbn [NilEmpty.string_of_uint String.length Decimal.nb_digits];
    rewrite ?IH; reflexivity.
Qed.

(** One more digit at the low end. *)
Lemma of_uint_low_digit (d : Decimal.uint) (r : N) :
  (r < 10)%N ->
  exists d',
    N.of_uint d' = (r + 10 * N.of_uint d)%N /\
    Decimal.nb_digits d' = S (Decimal.nb_digits d).
Proof.
  intros Hr.
  assert (forall low,
             DecimalPos.Unsigned.of_lu low = (r + 10 * N.of_uint d)%N ->
             Decimal.nb_digits low = S (Decimal.nb_digits d) ->
             exists d',
               N.of_uint d' = (r + 10 * N.of_uint d)%N /\
               Decimal.nb_digits d' = S (Decimal.nb_digits d)) as Hlow.
  { intros low Hval Hdigits. exists (Decimal.rev low). split.
    - unfold N.of_uint. rewrite DecimalPos.Unsigned.of_lu_rev. exact Hval.
    - rewrite nb_digits_rev. exact Hdigits. }
  assert (DecimalPos.Unsigned.of_lu (Decimal.rev d) = N.of_uint d) as Hrev
    by (symmetry; apply DecimalPos.Unsigned.of_uint_alt).
  assert (r = 0 \/ r = 1 \/ r = 2 \/ r = 3 \/ r = 4 \/ r = 5 \/ r = 6 \/ r = 7 \/
          r = 8 \/ r = 9)%N as Hcases by lia.
  destruct Hcases as [->|[->|[->|[->|[->|[->|[->|[->|[->| ->]]]]]]]]];
    [apply (Hlow (Decimal.D0 (Decimal.rev d)))
    |apply (Hlow (Decimal.D1 (Decimal.rev d)))
    |apply (Hlow (Decimal.D2 (Decimal.rev d)))
    |apply (Hlow (Decimal.D3 (Decimal.rev d)))
    |apply (Hlow (Decimal.D4 (Decimal.rev d)))
    |apply (Hlow (Decimal.D5 (Decimal.rev d)))
    |apply (Hlow (Decimal.D6 (Decimal.rev d)))
    |apply (Hlow (Decimal.D7 (Decimal.rev d)))
    |apply (Hlow (Decimal.D8 (Decimal.rev d)))
    |apply (Hlow (Decimal.D9 (Decimal.rev d)))];
    first [ cbn [DecimalPos.Unsigned.of_lu]; rewrite Hrev; lia
          | cbn [Decimal.nb_digits]; rewrite nb_digits_rev; reflexivity ].
Qed.

(** A number below 10000 has at most four digits. *)
Lemma nb_digits_below_10000 (n : N) :
  (n < 10000)%N -> (Decimal.nb_digits (N.to_uint n) <= 4)%nat.
Proof.
  intros Hn.
  remember (n / 10)%N as q1 eqn:E1. remember (q1 / 10)%N as q2 eqn:E2.
  remember (q2 / 10)%N as q3 eqn:E3.
  remember (n mod 10)%N as r0 eqn:F0. remember (q1 mod 10)%N as r1 eqn:F1.
  remember (q2 mod 10)%N as r2 eqn:F2.
  assert (n = 10 * q1 + r0 /\ r0 < 10)%N as [H0 R0]
    by (subst q1 r0; split; [apply N.div_mod | apply N.mod_lt]; discriminate).
  assert (q1 = 10 * q2 + r1 /\ r1 < 10)%N as [H1 R1]
    by (subst q2 r1; split; [apply N.div_mod | apply N.mod_lt]; discriminate).
  assert (q2 = 10 * q3 + r2 /\ r2 < 10)%N as [H2 R2]
    by (subst q3 r2; split; [apply N.div_mod | apply N.mod_lt]; discriminate).
  clear E1 E2 E3 F0 F1 F2.
  destruct (of_uint_low_digit Decimal.Nil q3) as (da & Ha & Hna); [lia|].
  destruct (of_uint_low_digit da r2) as (db & Hb & Hnb); [exact R2|].
  destruct (of_uint_low_digit db r1) as (dc & Hc & Hnc); [exact R1|].
  destruct (of_uint_low_digit dc r0) as (dd & Hd & Hnd); [exact R0|].
  assert (N.of_uint dd = n) as Hval.
  { rewrite Hd, Hc, Hb, Ha. change (N.of_uint Decimal.Nil) with 0%N. lia. }
  rewrite <- Hval, DecimalN.Unsigned.to_of.
  etrans; [apply nb_digits_unorm|].
  - intros ->. cbn in Hnd. lia.
  - rewrite Hnd, Hnc, Hnb, Hna. reflexivity.
Qed.

Lemma length_show_unsigned (z : Z) :
  0 <= z < 10000 -> (1 <= String.length (show_unsigned z) <= 4)%nat.
Proof.
  intros Hz. unfold show_unsigned.
  pose proof (nb_digits_below_10000 (Z.to_N z) ltac:(lia)) as Hdigits.
  destruct (N.to_uint (Z.to_N z)) as [|d|d|d|d|d|d|d|d|d|d] eqn:Hd;
    [cbn; lia | ..];
    unfold NilZero.string_of_uint; rewrite length_string_of_uint;
    cbn [Decimal.nb_digits] in *; lia.
Qed.

Lemma length_show_index4 (k : nat) :
  Z.of_nat k < 10000 -> String.length (show_index4 k) = 4%nat.
Proof.
  intros Hk. unfold show_index4. rewrite string_length_app, length_zeros.
  pose proof (length_show_unsigned (Z.of_nat k) ltac:(lia)). lia.
Qed.

(** X17. The index of a gradient entry is printed with at least four
    characters, with exactly four below 10000, zeros filling the left and
    no digit ever cut off; two indices are printed alike only when they
    are equal, so the keys "DWMRI_gradient_NNNN" of one header are
    pairwise distinct. *)
Theorem gradient_keys_distinct (k k' : nat) :
  ("DWMRI_gradient_" +:+ show_index4 k = "DWMRI_gradient_" +:+ show_index4 k' <->
   k = k') /\
  (4 <= String.length (show_index4 k))%nat /\
  (Z.of_nat k < 10000 -> String.length (show_index4 k) = 4%nat) /\
  exists padding,
    show_index4 k = zeros padding +:+ show_unsigned (Z.of_nat k).
Proof.
  split; [|split; [|split]].
  - split; [|intros ->; reflexivity].
    intros Hkeys. apply string_app_inv_head in Hkeys.
    destruct (show_index4_decode k) as (d & Hd & Hval).
    destruct (show_index4_decode k') as (d' & Hd' & Hval').
    rewrite Hkeys, Hd' in Hd. injection Hd as <-. lia.
  - unfold show_index4. rewrite string_length_app, length_zeros. lia.
  - apply length_show_index4.
  - eexists. reflexivity.
Qed.

Lemma gradient_keys_distinct_witness :
  show_index4 7 = "0007"%string /\
  show_index4 (Z.to_nat 12345) = "12345"%string /\
  ("DWMRI_gradient_" +:+ show_index4 7 = "DWMRI_gradient_" +:+ show_index4 7 <->
   7%nat = 7%nat) /\
  String.length (show_index4 7) = 4%nat.
Proof.
  destruct (gradient_keys_distinct 7 7) as (Hiff & _ & Hfour & _).
  split; [reflexivity|]. split; [vm_compute; reflexivity|].
  split; [exact Hiff|]. apply Hfour. lia.
Defined.

(** ** A loaded gradient table can be converted *)

Section LoadedTable.

Variable CheckArg : string -> string -> string -> exit_status.
Variable GetParentDirectory : string -> string.
Variable GetFilenameWithoutExtension : string -> string.
Variable JoinPath : list string -> string.
Variable ReadBVals : string -> World -> exit_status * list double * Z.
Variable ReadBVecs : string -> bool -> World -> exit_status * list Vec3 * Z.
Variable magnitude : Vec3 -> double.
Variable normalize : Vec3 -> Vec3.
Variable Round : double -> double.

(** X18. When the readers report as counts the lengths of the lists they
    fill, a table that [ReadGradientInformation] has loaded holds one
    b-value and one vector for every volume, and both gradient transforms
    return on it: neither leaves a vector. *)
Theorem loaded_table_converts (c c' : DWIConverter)
    (inputBValues inputBVectors inputVolumeNameTemplate : string) (w : World) :
  (forall name status BVals bValCount,
      ReadBVals name w = (status, BVals, bValCount) ->
      bValCount = Z.of_nat (length BVals)) ->
  (forall name status BVecs bVecCount,
      ReadBVecs name true w = (status, BVecs, bVecCount) ->
      bVecCount = Z.of_nat (length BVecs)) ->
  ReadGradientInformation CheckArg GetParentDirectory GetFilenameWithoutExtension
    JoinPath ReadBVals ReadBVecs c inputBValues inputBVectors
    inputVolumeNameTemplate w = (c', Done tt) ->
  Z.of_nat (length (m_BValues c')) = m_NVolume c' /\
  Z.of_nat (length (m_DiffusionVectors c')) = m_NVolume c' /\
  m_NVolume c' = m_NVolume c /\
  (exists c'', ConvertToSingleBValueScaledDiffusionVectors c' = Done c'') /\
  (exists c'',
      ConvertToMutipleBValuesUnitScaledBVectors magnitude normalize Round c' = Done c'').
Proof.
  intros Hvals Hvecs. unfold ReadGradientInformation.
  destruct (ReadBVals _ _) as [[[|] BVals] bValCount] eqn:Hrv; [|discriminate].
  destruct (ReadBVecs _ _ _) as [[[|] BVecs] bVecCount] eqn:Hrc; [|discriminate].
  apply Hvals in Hrv. apply Hvecs in Hrc. subst bValCount bVecCount.
  destruct (decide _) as [|Hcount]; [discriminate|].
  destruct (decide _) as [|Hvolumes]; [discriminate|].
  intros [= <-]. unfold GetNVolume in Hvolumes.
  cbn [m_BValues m_DiffusionVectors m_NVolume set_BValues set_DiffusionVectors].
  assert (length BVals = length BVecs) as Hlen.
  { destruct (decide (length BVals = length BVecs)) as [Heq|Hne]; [exact Heq|].
    exfalso. apply Hcount. lia. }
  assert (Z.of_nat (length BVals) = m_NVolume c) as Hnv.
  { destruct (decide (Z.of_nat (length BVals) = m_NVolume c)) as [Heq|Hne];
      [exact Heq | contradiction]. }
  split; [exact Hnv|]. split; [lia|]. split; [reflexivity|]. split.
  - rewrite ConvertToSingleBValue_result by exact Hlen. eexists. reflexivity.
  - unfold ConvertToMutipleBValuesUnitScaledBVectors. cbv zeta.
    rewrite multiple_bvalues_loop
      by (cbn [m_BValues m_DiffusionVectors set_BValues set_DiffusionVectors]; lia).
    eexists. reflexivity.
Qed.

End LoadedTable.

Lemma loaded_table_converts_witness :
  let c := sample_converter bvalues_two_shells Mat3_identity in
  exists c',
    ReadGradientInformation sample_CheckArg sample_GetParentDirectory
      sample_GetFilenameWithoutExtension sample_JoinPath sample_ReadBVals
      sample_ReadBVecs c "seven.bval" "seven.bvec" "dwi" empty_world = (c', Done tt) /\
    Z.of_nat (length (m_BValues c')) = 7 /\
    Z.of_nat (length (m_DiffusionVectors c')) = 7 /\
    (exists c'', ConvertToSingleBValueScaledDiffusionVectors c' = Done c'') /\
    (exists c'',
        ConvertToMutipleBValuesUnitScaledBVectors sample_magnitude sample_normalize
          sample_Round c' = Done c'').
Proof.
  intros c.
  assert (forall name status BVals bValCount,
             sample_ReadBVals name empty_world = (status, BVals, bValCount) ->
             bValCount = Z.of_nat (length BVals)) as Hvals.
  { intros name status BVals bValCount. unfold sample_ReadBVals.
    repeat case_decide; intros [= <- <- <-]; reflexivity. }
  assert (forall name status BVecs bVecCount,
             sample_ReadBVecs name true empty_world = (status, BVecs, bVecCount) ->
             bVecCount = Z.of_nat (length BVecs)) as Hvecs.
  { intros name status BVecs bVecCount. unfold sample_ReadBVecs.
    repeat case_decide; intros [= <- <- <-]; reflexivity. }
  eexists. split; [reflexivity|].
  destruct (loaded_table_converts sample_CheckArg sample_GetParentDirectory
              sample_GetFilenameWithoutExtension sample_JoinPath sample_ReadBVals
              sample_ReadBVecs sample_magnitude sample_normalize sample_Round
              c _ "seven.bval" "seven.bvec" "dwi" empty_world Hvals Hvecs eq_refl)
    as (Hb & Hv & _ & Hsingle & Hmultiple).
  split; [exact Hb|]. split; [exact Hv|]. split; [exact Hsingle | exact Hmultiple].
Defined.

Section WriterOutcomes.

Variable DoubleConvert : double -> string.
Variable Mat3_mul : Mat3 -> Mat3 -> Mat3.
Variable GetFilenameName : string -> string.
Variable RawImageWriter_Update :
  string -> Image3D -> World -> World * option ExceptionObject.
Variable show_exception : ExceptionObject -> string.

(** X19. [ManualWriteNRRDFile] never throws and never ends the process,
    whatever the raw writer does. Its behaviour is undefined exactly when
    the single-file layout is chosen and the pixel buffer is shorter than
    the byte count of the region; in every other case it returns. The
    single-file layout sends nothing to the error stream. *)
Theorem ManualWriteNRRDFile_outcomes (c : DWIConverter)
    (outputVolumeHeaderName commentstring : string) (w : World) :
  let written :=
    ManualWriteNRRDFile DoubleConvert Mat3_mul GetFilenameName RawImageWriter_Update
      show_exception c outputVolumeHeaderName commentstring w in
  let count :=
    wrap64 (NumberOfPixels3 (size3 (m_Volume c)) * sizeof_PixelValueType) in
  (snd written = Undefined <->
   find outputVolumeHeaderName ".nhdr" = None /\
   Z.of_nat (length (buffer3 (m_Volume c))) < count) /\
  (snd written = Done tt \/ snd written = Undefined) /\
  (find outputVolumeHeaderName ".nhdr" = None -> cerr (fst written) = cerr w).
Proof.
  cbv zeta. unfold ManualWriteNRRDFile, nrrdSingleFileFormat, GetDiffusionVolume.
  destruct (find outputVolumeHeaderName ".nhdr") as [extensionPos|] eqn:Hfind.
  - destruct (RawImageWriter_Update _ _ _) as [w2 [excp|]]; cbn [fst snd];
      (split; [split; [discriminate | intros [? _]; discriminate]|]);
      (split; [left; reflexivity | discriminate]).
  - destruct (decide _) as [Hle|Hgt]; cbn [fst snd].
    + split; [split; [discriminate | intros [_ Hlt]; lia]|].
      split; [left; reflexivity | reflexivity].
    + split; [split; [intros _; split; [reflexivity | lia] | reflexivity]|].
      split; [right; reflexivity | reflexivity].
Qed.

End WriterOutcomes.

Lemma ManualWriteNRRDFile_outcomes_witness :
  let c := sample_converter_short in
  let written name :=
    ManualWriteNRRDFile sample_DoubleConvert sample_Mat3_mul sample_GetFilenameName
      writer_fails3 sample_show_exception c name EmptyString empty_world in
  find "dwi.nrrd" ".nhdr" = None /\
  snd (written "dwi.nrrd"%string) = Undefined /\
  snd (written "dwi.nhdr"%string) = Done tt.
Proof.
  intros c written. split; [reflexivity|].
  destruct (ManualWriteNRRDFile_outcomes sample_DoubleConvert sample_Mat3_mul
              sample_GetFilenameName writer_fails3 sample_show_exception c
              "dwi.nrrd" EmptyString empty_world) as [[_ Hundefined] _].
  destruct (ManualWriteNRRDFile_outcomes sample_DoubleConvert sample_Mat3_mul
              sample_GetFilenameName writer_fails3 sample_show_exception c
              "dwi.nhdr" EmptyString empty_world) as [[Hiff _] [Hcases _]].
  split.
  - apply Hundefined. split; [reflexivity | vm_compute; reflexivity].
  - destruct Hcases as [Hdone|Hundef]; [exact Hdone|].
    apply Hiff in Hundef as [Hfind _]. discriminate.
Defined.

(** ** The shells of a gradient table *)

(** A finite value divided by itself is [1.0]. *)
Lemma ddiv_self (s : bool) (m : positive) (e : Z) :
  ddiv (S754_finite s m e) (S754_finite s m e) = d1.
Proof.
  unfold ddiv, SFdiv, SFdiv_core_binary. cbv zeta.
  rewrite Z.sub_diag.
  replace (fexp prec64 emax64 (Zdigits2 (Z.pos m) + e - (Zdigits2 (Z.pos m) + e)))
    with (-53) by (rewrite Z.sub_diag; reflexivity).
  change (Z.min (-53) 0) with (-53). change (0 - -53) with 53.
  rewrite Z.shiftl_mul_pow2 by lia.
  assert (Z.div_eucl (Z.pos m * 2 ^ 53) (Z.pos m) = (2 ^ 53, 0)) as ->.
  { pose proof (Z_div_mult_full (2 ^ 53) (Z.pos m) ltac:(lia)) as Hq.
    pose proof (Z_mod_mult (2 ^ 53) (Z.pos m)) as Hr.
    rewrite (Z.mul_comm (2 ^ 53)) in Hq, Hr.
    unfold Z.div in Hq. unfold Z.modulo in Hr.
    destruct (Z.div_eucl (Z.pos m * 2 ^ 53) (Z.pos m)) as [q r].
    cbn [fst snd] in *. subst. reflexivity. }
  assert (new_location (Z.pos m) 0 = loc_Exact) as ->
    by (unfold new_location, new_location_even, new_location_odd;
        destruct (Z.even (Z.pos m)); reflexivity).
  destruct s; vm_compute; reflexivity.
Qed.

(** A valid double times [1.0] is that double. *)
Lemma dmul_one (x : double) : valid_binary prec64 emax64 x = true -> dmul x d1 = x.
Proof.
  destruct x as [s|s| |s m e]; try (intros _; destruct s; reflexivity);
    [intros _; reflexivity|].
  unfold valid_binary, bounded, canonical_mantissa.
  intros Hvalid. apply andb_prop in Hvalid as [Hcanonical Hbound].
  apply Z.eqb_eq in Hcanonical. apply Z.leb_le in Hbound.
  change d1 with (S754_finite false 4503599627370496 (-52)).
  unfold dmul, SFmul.
  assert (Z.pos (m * 4503599627370496) = Z.pos m * 2 ^ 52) as Hshifted
    by (rewrite Pos2Z.inj_mul; reflexivity).
  pose proof (digits2_pos_shift m 52 (m * 4503599627370496) ltac:(lia) Hshifted)
    as Hdigits.
  unfold binary_round_aux.
  rewrite (shr_fexp_shift prec64 emax64 (m * 4503599627370496) (e + -52) 52)
    by (rewrite Hdigits;
        replace (Z.pos (digits2_pos m) + 52 + (e + -52))
          with (Z.pos (digits2_pos m) + e) by lia;
        rewrite Hcanonical; lia).
  pose proof (located_iter 52 (Z.pos (m * 4503599627370496)) 0
                (Build_shr_record (Z.pos (m * 4503599627370496)) false false)
                ltac:(lia)
                (located_exact (Z.pos (m * 4503599627370496)) ltac:(lia))) as Hlocated.
  rewrite Z.add_0_l in Hlocated.
  set (mrs := SpecFloat.iter_pos shr_1 52
                (Build_shr_record (Z.pos (m * 4503599627370496)) false false)) in *.
  pose proof (round_nearest_even_error _ _ mrs Hlocated) as (Herror & _ & _).
  remember (round_nearest_even (shr_m mrs) (loc_of_shr_record mrs)) as m2 eqn:Hm2.
  clear Hm2.
  assert (m2 = Z.pos m) as -> by (rewrite Hshifted in Herror; lia).
  replace (e + -52 + 52) with e by lia.
  rewrite (shr_fexp_no_shift prec64 emax64 (Z.pos m) e m eq_refl) by lia.
  cbn [shr_m]. destruct (Z.leb_spec e (emax64 - prec64)) as [_|Hgt]; [|lia].
  rewrite xorb_false_r. reflexivity.
Qed.

(** X21. In [ConvertToSingleBValueScaledDiffusionVectors], with a largest
    b-value that is finite and not zero: a vector whose b-value is that
    largest value is multiplied by exactly 1.0, so it is unchanged when
    its components are valid doubles; a vector whose b-value is [0.0] is
    multiplied by exactly 0.0. The outer shell keeps its vectors and the
    baseline volumes get zero vectors. *)
Theorem ConvertToSingleBValueScaledDiffusionVectors_shells (c : DWIConverter)
    (m : positive) (e : Z) :
  length (m_BValues c) = length (m_DiffusionVectors c) ->
  GetMaxBValue c = S754_finite false m e ->
  exists c',
    ConvertToSingleBValueScaledDiffusionVectors c = Done c' /\
    (forall k x y z,
        m_BValues c !! k = Some (GetMaxBValue c) ->
        m_DiffusionVectors c !! k = Some (x, y, z) ->
        m_DiffusionVectors c' !! k = Some (dmul x d1, dmul y d1, dmul z d1) /\
        (valid_binary prec64 emax64 x = true ->
         valid_binary prec64 emax64 y = true ->
         valid_binary prec64 emax64 z = true ->
         m_DiffusionVectors c' !! k = Some (x, y, z))) /\
    (forall k x y z,
        m_BValues c !! k = Some d0 ->
        m_DiffusionVectors c !! k = Some (x, y, z) ->
        m_DiffusionVectors c' !! k = Some (dmul x d0, dmul y d0, dmul z d0)).
Proof.
  intros Hlen Hmax. rewrite ConvertToSingleBValue_result by exact Hlen.
  eexists. split; [reflexivity|].
  cbn [m_DiffusionVectors set_DiffusionVectors].
  assert (forall k v b,
             m_BValues c !! k = Some b -> m_DiffusionVectors c !! k = Some v ->
             zip_with (fun v b => scale_vector v (scaleFactor (GetMaxBValue c) b))
               (m_DiffusionVectors c) (m_BValues c) !! k =
             Some (scale_vector v (scaleFactor (GetMaxBValue c) b))) as Hlookup.
  { intros k v b Hb Hv. rewrite lookup_zip_with, Hv. cbn. rewrite Hb. reflexivity. }
  split.
  - intros k x y z Hb Hv.
    assert (m_DiffusionVectors
              (set_DiffusionVectors
                 (set_BValues c (replicate (length (m_DiffusionVectors c)) (GetMaxBValue c)))
                 (zip_with (fun v b => scale_vector v (scaleFactor (GetMaxBValue c) b))
                    (m_DiffusionVectors c) (m_BValues c))) !! k =
            Some (dmul x d1, dmul y d1, dmul z d1)) as Hscaled.
    { cbn [m_DiffusionVectors set_DiffusionVectors].
      etrans; [exact (Hlookup k (x, y, z) (GetMaxBValue c) Hb Hv)|]. f_equal.
      unfold scaleFactor. rewrite Hmax.
      change (dgt (S754_finite false m e) d0) with true. cbv iota.
      rewrite ddiv_self.
      change (float_to_double (double_to_float (dsqrt d1))) with d1 in |- *.
      unfold scale_vector.
      change (float_to_double (double_to_float (dsqrt d1))) with d1. reflexivity. }
    split; [exact Hscaled|].
    intros Hx Hy Hz. etrans; [exact Hscaled|].
    rewrite (dmul_one x Hx), (dmul_one y Hy), (dmul_one z Hz). reflexivity.
  - intros k x y z Hb Hv.
    etrans; [exact (Hlookup k (x, y, z) d0 Hb Hv)|]. f_equal.
    unfold scaleFactor. rewrite Hmax.
    change (dgt (S754_finite false m e) d0) with true. cbv iota.
    change (ddiv d0 (S754_finite false m e)) with d0.
    unfold scale_vector.
    change (float_to_double (double_to_float (dsqrt d0))) with d0. reflexivity.
Qed.

Lemma ConvertToSingleBValueScaledDiffusionVectors_shells_witness :
  let c := sample_converter bvalues_two_shells Mat3_identity in
  length (m_BValues c) = length (m_DiffusionVectors c) /\
  GetMaxBValue c = dz 1000 /\
  m_BValues c !! 2%nat = Some (GetMaxBValue c) /\
  m_BValues c !! 0%nat = Some d0 /\
  exists c',
    ConvertToSingleBValueScaledDiffusionVectors c = Done c' /\
    m_DiffusionVectors c' !! 2%nat = Some (d0, d1, d0) /\
    m_DiffusionVectors c' !! 0%nat = Some (d0, d0, d0).
Proof.
  intros c.
  assert (GetMaxBValue c = S754_finite false 8796093022208000 (-43)) as Hmax
    by (vm_compute; reflexivity).
  split; [reflexivity|]. split; [vm_compute; reflexivity|].
  split; [vm_compute; reflexivity|]. split; [reflexivity|].
  destruct (ConvertToSingleBValueScaledDiffusionVectors_shells c _ _ eq_refl Hmax)
    as (c' & Hc' & Houter & Hbaseline).
  exists c'. split; [exact Hc'|]. split.
  - destruct (Houter 2%nat d0 d1 d0) as [_ Hsame];
      [vm_compute; reflexivity | reflexivity|].
    apply Hsame; reflexivity.
  - etrans; [apply (Hbaseline 0%nat d0 d0 d0); reflexivity|]. reflexivity.
Defined.

Section UnitVectorsShells.

Variable magnitude : Vec3 -> double.
Variable normalize : Vec3 -> Vec3.
Variable Round : double -> double.

(** X22. In [ConvertToMutipleBValuesUnitScaledBVectors], with a largest
    b-value that is a valid double: a vector whose squared magnitude is
    within 0.01 of 1 gets exactly [Round(maxBvalue)] as its b-value, the
    two products by the snapped magnitude 1.0 being exact; a vector of
    magnitude [0.0] gets [Round(0.0)] when the largest b-value is finite. *)
Theorem ConvertToMutipleBValuesUnitScaledBVectors_shells (c : DWIConverter) :
  length (m_BValues c) = length (m_DiffusionVectors c) ->
  valid_binary prec64 emax64 (GetMaxBValue c) = true ->
  exists c',
    ConvertToMutipleBValuesUnitScaledBVectors magnitude normalize Round c = Done c' /\
    (forall k v,
        m_DiffusionVectors c !! k = Some v ->
        dlt (dabs (dsub (dmul (magnitude v) (magnitude v)) d1)) d0_01 = true ->
        m_BValues c' !! k = Some (Round (GetMaxBValue c))) /\
    (forall k v m e,
        m_DiffusionVectors c !! k = Some v ->
        magnitude v = d0 ->
        GetMaxBValue c = S754_finite false m e ->
        m_BValues c' !! k = Some (Round d0)).
Proof.
  intros Hlen Hvalid. unfold ConvertToMutipleBValuesUnitScaledBVectors. cbv zeta.
  rewrite multiple_bvalues_loop by (cbn; lia).
  cbn [mbind outcome_bind]. eexists. split; [reflexivity|].
  cbn [m_BValues set_DiffusionVectors set_BValues].
  rewrite take_0, drop_0, app_nil_l.
  split.
  - intros k v Hv Hunit. rewrite list_lookup_fmap, Hv. cbn [fmap option_fmap option_map].
    f_equal. unfold unit_bvalue, snap_magnitude. rewrite Hunit.
    rewrite !dmul_one; [reflexivity | exact Hvalid | rewrite dmul_one; exact Hvalid].
  - intros k v m e Hv Hzero Hmax. rewrite list_lookup_fmap, Hv.
    cbn [fmap option_fmap option_map]. f_equal.
    unfold unit_bvalue, snap_magnitude. rewrite Hzero, Hmax. reflexivity.
Qed.

End UnitVectorsShells.

Lemma ConvertToMutipleBValuesUnitScaledBVectors_shells_witness :
  let c := sample_converter bvalues_two_shells Mat3_identity in
  length (m_BValues c) = length (m_DiffusionVectors c) /\
  valid_binary prec64 emax64 (GetMaxBValue c) = true /\
  exists c',
    ConvertToMutipleBValuesUnitScaledBVectors sample_magnitude sample_normalize
      sample_Round c = Done c' /\
    m_BValues c !! 1%nat = Some (dz 500) /\
    m_BValues c' !! 1%nat = Some (dz 1000) /\
    m_BValues c' !! 0%nat = Some d0.
Proof.
  intros c.
  assert (valid_binary prec64 emax64 (GetMaxBValue c) = true) as Hvalid
    by (vm_compute; reflexivity).
  split; [reflexivity|]. split; [exact Hvalid|].
  destruct (ConvertToMutipleBValuesUnitScaledBVectors_shells sample_magnitude
              sample_normalize sample_Round c eq_refl Hvalid)
    as (c' & Hc' & Hunit & Hzero).
  exists c'. split; [exact Hc'|]. split; [reflexivity|]. split.
  - etrans; [apply (Hunit 1%nat (d1, d0, d0)); [reflexivity | vm_compute; reflexivity]|].
    vm_compute. reflexivity.
  - etrans; [apply (Hzero 0%nat (d0, d0, d0) 8796093022208000%positive (-43));
             [reflexivity | vm_compute; reflexivity | vm_compute; reflexivity]|].
    vm_compute. reflexivity.
Defined.

(** ** What the override loader reads of the converter *)

Section LoaderReads.

Variable CheckArg : string -> string -> string -> exit_status.
Variable GetParentDirectory : string -> string.
Variable GetFilenameWithoutExtension : string -> string.
Variable JoinPath : list string -> string.
Variable ReadBVals : string -> World -> exit_status * list double * Z.
Variable ReadBVecs : string -> bool -> World -> exit_status * list Vec3 * Z.

(** X23. Of the converter, [ReadGradientInformation] reads the number of
    volumes and nothing else: two converters with the same number of
    volumes end the load alike and, when it returns, hold the same
    b-values and the same vectors, whatever tables, frame and FSL layout
    flag they had before. The vector reader is always asked for the
    three-row layout. *)
Theorem ReadGradientInformation_reads_volume_count (c1 c2 : DWIConverter)
    (inputBValues inputBVectors inputVolumeNameTemplate : string) (w : World) :
  m_NVolume c1 = m_NVolume c2 ->
  let load c :=
    ReadGradientInformation CheckArg GetParentDirectory GetFilenameWithoutExtension
      JoinPath ReadBVals ReadBVecs c inputBValues inputBVectors
      inputVolumeNameTemplate w in
  snd (load c1) = snd (load c2) /\
  (snd (load c1) = Done tt ->
   m_BValues (fst (load c1)) = m_BValues (fst (load c2)) /\
   m_DiffusionVectors (fst (load c1)) = m_DiffusionVectors (fst (load c2)) /\
   m_FSLFileFormatHorizontalBy3Rows (fst (load c1)) =
     m_FSLFileFormatHorizontalBy3Rows c1 /\
   m_MeasurementFrame (fst (load c1)) = m_MeasurementFrame c1).
Proof.
  intros Hnv load. subst load. cbv beta. unfold ReadGradientInformation, GetNVolume.
  rewrite <- Hnv.
  destruct (ReadBVals _ _) as [[[|] BVals] bValCount];
    [|split; [reflexivity | discriminate]].
  destruct (ReadBVecs _ _ _) as [[[|] BVecs] bVecCount];
    [|split; [reflexivity | discriminate]].
  destruct (decide _); [split; [reflexivity | discriminate]|].
  destruct (decide _); [split; [reflexivity | discriminate]|].
  split; [reflexivity|]. intros _. repeat split.
Qed.

End LoaderReads.

Lemma ReadGradientInformation_reads_volume_count_witness :
  let load c :=
    ReadGradientInformation sample_CheckArg sample_GetParentDirectory
      sample_GetFilenameWithoutExtension sample_JoinPath sample_ReadBVals
      sample_ReadBVecs c "seven.bval" "seven.bvec" "dwi" empty_world in
  let c1 := sample_converter bvalues_two_shells Mat3_identity in
  let c2 := sample_converter [] frame_quarter_turn in
  m_NVolume c1 = m_NVolume c2 /\
  snd (load c1) = Done tt /\
  snd (load c2) = Done tt /\
  m_BValues (fst (load c2)) = bvalues_single_shell /\
  m_BValues (fst (load c1)) = m_BValues (fst (load c2)).
Proof.
  intros load c1 c2.
  destruct (ReadGradientInformation_reads_volume_count sample_CheckArg
              sample_GetParentDirectory sample_GetFilenameWithoutExtension
              sample_JoinPath sample_ReadBVals sample_ReadBVecs c1 c2
              "seven.bval" "seven.bvec" "dwi" empty_world eq_refl) as [Hsame Htables].
  split; [reflexivity|]. split; [reflexivity|]. split; [reflexivity|].
  split; [reflexivity|]. apply Htables. reflexivity.
Defined.

(** ** Sidecar names given by the caller *)

Section ExplicitSidecars.

Variable ImageFileWriter_Update :
  string -> Image4D -> World -> World * option ExceptionObject.
Variable WriteBValues : list double -> string -> World -> World * exit_status.
Variable WriteBVectors : list Vec3 -> string -> World -> World * exit_status.
Variable show_exception : ExceptionObject -> string.

Lemma first_extension_found (name : string) (first : nat) :
  find name ".nii" = Some first ->
  exists extensionPos, first_extension extList name = Some extensionPos.
Proof.
  intros Hnii. unfold extList, first_extension.
  destruct (find name ".nii.gz") as [p|]; [exists p; reflexivity|].
  rewrite Hnii. exists first. reflexivity.
Qed.

(** X24. When both sidecar names are given, they are used as they are:
    with an accepted frame, an image writer that returns and ".nii"
    somewhere in the main name, the b-values go to the given b-value file
    and then the vectors to the given vector file, wherever the extension
    of the main name was found. The main name is still tested: without
    ".nii" in it the process ends with status 1 although no name had to be
    derived from it. *)
Theorem WriteFSLFormattedFileSet_explicit_sidecars (c : DWIConverter)
    (outputVolumeHeaderName outputBValues outputBVectors : string)
    (img4D : Image4D) (w w1 : World) :
  frame_rejected (m_MeasurementFrame c) = false ->
  outputBValues <> EmptyString ->
  outputBVectors <> EmptyString ->
  ImageFileWriter_Update outputVolumeHeaderName (stamp_xform_codes4 img4D) w =
  (w1, None) ->
  let exported :=
    WriteFSLFormattedFileSet ImageFileWriter_Update WriteBValues WriteBVectors
      show_exception c outputVolumeHeaderName outputBValues outputBVectors img4D w in
  (forall first,
      find outputVolumeHeaderName ".nii" = Some first ->
      exported =
      match WriteBValues (m_BValues c) outputBValues w1 with
      | (w3, EXIT_FAILURE) => (w3, Throw (FailedToWriteBVal outputBValues))
      | (w3, EXIT_SUCCESS) =>
          match WriteBVectors (m_DiffusionVectors c) outputBVectors w3 with
          | (w4, EXIT_FAILURE) => (w4, Throw (FailedToWriteBVec outputBVectors))
          | (w4, EXIT_SUCCESS) => (w4, Done tt)
          end
      end) /\
  (find outputVolumeHeaderName ".nii" = None ->
   snd exported = Exit 1 /\ files (fst exported) = files w1).
Proof.
  intros Hframe Hvals Hvecs Hwriter exported. subst exported.
  rewrite WriteFSLFormattedFileSet_frame_accepted by exact Hframe.
  rewrite Hwriter. split.
  - intros first Hnii.
    destruct (first_extension_found _ _ Hnii) as [extensionPos ->].
    unfold sidecar_name.
    destruct (decide (outputBValues = EmptyString)) as [?|_]; [contradiction|].
    destruct (decide (outputBVectors = EmptyString)) as [?|_]; [contradiction|].
    reflexivity.
  - intros Hnii.
    assert (first_extension extList outputVolumeHeaderName = None) as ->.
    { unfold extList, first_extension.
      destruct (find outputVolumeHeaderName ".nii.gz") as [p|] eqn:Hgz;
        [|rewrite Hnii; reflexivity].
      exfalso. destruct (find_Some_occurrence _ _ _ Hgz) as [Hocc _].
      apply nii_gz_occurrence in Hocc.
      exact (find_None_occurrence _ ".nii" p ltac:(discriminate) Hnii Hocc). }
    split; reflexivity.
Qed.

End ExplicitSidecars.

Lemma WriteFSLFormattedFileSet_explicit_sidecars_witness :
  let c := sample_converter bvalues_single_shell Mat3_identity in
  let export name :=
    WriteFSLFormattedFileSet writer_stores4 sample_WriteBValues sample_WriteBVectors
      sample_show_exception c name "table.b" "table.g" sample_volume4D empty_world in
  frame_rejected (m_MeasurementFrame c) = false /\
  find "dwi.nii.gz" ".nii" = Some 3%nat /\
  snd (export "dwi.nii.gz"%string) = Done tt /\
  is_Some (files (fst (export "dwi.nii.gz"%string)) !! "table.b"%string) /\
  is_Some (files (fst (export "dwi.nii.gz"%string)) !! "table.g"%string) /\
  files (fst (export "dwi.nii.gz"%string)) !! "dwi.bval"%string = None /\
  find "dwi.mha" ".nii" = None /\
  snd (export "dwi.mha"%string) = Exit 1.
Proof.
  intros c export.
  assert (frame_rejected (m_MeasurementFrame c) = false) as Hframe
    by (vm_compute; reflexivity).
  destruct (WriteFSLFormattedFileSet_explicit_sidecars writer_stores4
              sample_WriteBValues sample_WriteBVectors sample_show_exception c
              "dwi.nii.gz" "table.b" "table.g" sample_volume4D empty_world
              (write_file "dwi.nii.gz" (buffer4 sample_volume4D) empty_world)
              Hframe ltac:(discriminate) ltac:(discriminate) eq_refl) as [Hfound _].
  destruct (WriteFSLFormattedFileSet_explicit_sidecars writer_stores4
              sample_WriteBValues sample_WriteBVectors sample_show_exception c
              "dwi.mha" "table.b" "table.g" sample_volume4D empty_world
              (write_file "dwi.mha" (buffer4 sample_volume4D) empty_world)
              Hframe ltac:(discriminate) ltac:(discriminate) eq_refl) as [_ Hmissing].
  split; [exact Hframe|]. split; [reflexivity|].
  subst export. cbv beta. rewrite (Hfound 3%nat eq_refl).
  split; [reflexivity|].
  split; [vm_compute; eexists; reflexivity|].
  split; [vm_compute; eexists; reflexivity|].
  split; [vm_compute; reflexivity|].
  split; [reflexivity|]. apply Hmissing. reflexivity.
Defined.
